(** * Open Grid energy-data generator: a shallow embedding of [mock_data.py]

    The development follows the engine of [src/mock_data.py]: the pattern and
    geography catalogues, [generate_nodes], [generate_time_series] with
    [_generate_node_time_series], and [merge_with_kaggle_data] with its three
    [_safe_extract_*] helpers.

    Modelling conventions.
    - A Python [float] is an exact rational ([Q]); binary64 rounding,
      infinities and NaN arithmetic are not modelled.  A cell of a table is
      the Python object [iterrows] yields for it, [NaN] for a missing
      value.
    - A naive [datetime] is a number of whole seconds on the local wall clock,
      counted from 1970-01-01T00:00:00 (proleptic Gregorian calendar, no year
      limits, no microseconds).
    - The interpreter's surroundings are interfaces: the two random
      generators ([random] and [numpy.random]) and Faker, the C library's
      [sin], the local time zone, the file system seen through
      [pandas.read_csv], and the string parsers of [float] and
      [pandas.to_datetime].  The wall clock read by [time.time] is part of
      the run's state.
    - Python exceptions are values of [exn]; every operation runs in a state
      and exception monad over the run's state [World]. *)

From Stdlib Require Import ZArith QArith Qround Qabs List String Ascii Bool.
From Stdlib Require Import Lia Lqa DecimalString.
Import ListNotations.

Open Scope Z_scope.

(* ================================================================== *)
(** ** Python numbers *)

Module PyNum.

(** [a < b] and [a <= b] on floats, as booleans. *)
Definition ltb (a b : Q) : bool := if Qlt_le_dec a b then true else false.
Definition leb (a b : Q) : bool := if Qlt_le_dec b a then false else true.

(** [max(a, b)]: Python keeps the first argument unless a later one is
    strictly greater. *)
Definition py_max (a b : Q) : Q := if Qlt_le_dec a b then b else a.

(** [min(a, b)] on integers. *)
Definition py_min (a b : Z) : Z := if Z.ltb b a then b else a.

(** [int(x)]: truncation toward zero. *)
Definition py_int (x : Q) : Z := Z.quot (Qnum x) (Zpos (Qden x)).

(** Rounding to the nearest integer, ties to the even one. *)
Definition round_half_even (x : Q) : Z :=
  let f := Qfloor x in
  match ((x - inject_Z f) ?= (1 # 2))%Q with
  | Lt => f
  | Gt => f + 1
  | Eq => if Z.even f then f else f + 1
  end.

(** [round(x, 3)]. *)
Definition round3 (x : Q) : Q := Qmake (round_half_even (x * 1000)%Q) 1000.

End PyNum.
Import PyNum.

(* ================================================================== *)
(** ** Python string formatting *)

Module PyStr.

Local Open Scope string_scope.

Definition str_of_nonneg (n : Z) : string := NilZero.string_of_uint (N.to_uint (Z.to_N n)).

(** [str(n)] for an [int]. *)
Definition str_of_int (n : Z) : string :=
  if (n <? 0)%Z then "-" ++ str_of_nonneg (- n) else str_of_nonneg n.

Fixpoint zeros (k : nat) : string :=
  match k with
  | O => ""
  | S k' => "0" ++ zeros k'
  end.

Definition pad_left (width : nat) (s : string) : string :=
  zeros (width - String.length s) ++ s.

(** [f"{n:0Wd}"]: sign first, then zeros up to the total width [W]. *)
Definition format_0d (width : nat) (n : Z) : string :=
  if (n <? 0)%Z then "-" ++ pad_left (width - 1) (str_of_nonneg (- n))
  else pad_left width (str_of_nonneg n).

(** [f"{x:.4f}"]. *)
Definition format_4f (x : Q) : string :=
  let n := round_half_even (Qabs x * 10000)%Q in
  (if ltb x 0%Q then "-" else "")
    ++ str_of_nonneg (n / 10000) ++ "." ++ pad_left 4 (str_of_nonneg (n mod 10000)).

Definition lower_ascii (c : ascii) : ascii :=
  let n := nat_of_ascii c in
  if andb (Nat.leb 65 n) (Nat.leb n 90) then ascii_of_nat (n + 32) else c.

(** [s.lower()], on the ASCII letters. *)
Fixpoint lower (s : string) : string :=
  match s with
  | EmptyString => EmptyString
  | String c r => String (lower_ascii c) (lower r)
  end.

Fixpoint starts_with (p s : string) : bool :=
  match p, s with
  | EmptyString, _ => true
  | String a p', String b s' => andb (Ascii.eqb a b) (starts_with p' s')
  | String _ _, EmptyString => false
  end.

(** [needle in hay] for two strings. *)
Fixpoint contains (needle hay : string) : bool :=
  orb (starts_with needle hay)
      match hay with
      | EmptyString => false
      | String _ r => contains needle r
      end.

End PyStr.
Import PyStr.

(* ================================================================== *)
(** ** Naive datetimes and the local time zone *)

Module Calendar.

(** A naive [datetime]: whole seconds on the wall clock since 1970-01-01. *)
Definition datetime := Z.

(** [dt + timedelta(hours=h)]: wall-clock arithmetic, no zone involved. *)
Definition add_hours (dt : datetime) (h : Z) : datetime := dt + 3600 * h.

Definition days_of (dt : datetime) : Z := dt / 86400.

(** [dt.hour]. *)
Definition hour_of (dt : datetime) : Z := (dt mod 86400) / 3600.

(** [dt.weekday()], Monday = 0; 1970-01-01 was a Thursday. *)
Definition weekday_of (dt : datetime) : Z := (days_of dt + 3) mod 7.

(** Month (1..12) of the day [d] days after 1970-01-01, through the day
    number inside a 400-year era that starts on a 1st of March. *)
Definition month_of_days (d : Z) : Z :=
  let z := d + 719468 in
  let doe := z mod 146097 in
  let yoe := (doe - doe / 1460 + doe / 36524 - doe / 146096) / 365 in
  let doy := doe - (365 * yoe + yoe / 4 - yoe / 100) in
  let mp := (5 * doy + 2) / 153 in
  if mp <? 10 then mp + 3 else mp - 9.

(** [dt.month]. *)
Definition month_of (dt : datetime) : Z := month_of_days (days_of dt).

(** The local zone of the process: the wall-clock reading (as seconds since
    1970-01-01 on the wall clock) at each UTC instant. *)
Class LocalZone := { utc_to_wall : Z -> Z }.

Section Zone.
Context {zone : LocalZone}.

(** [datetime.fromtimestamp(u)]. *)
Definition fromtimestamp (u : Z) : datetime := utc_to_wall u.

(** [dt.timestamp()] of a naive datetime (with [fold = 0]), as CPython's
    [datetime._mktime] finds the instant from the zone's offsets. *)
Definition timestamp (t : datetime) : Z :=
  let a := utc_to_wall t - t in
  let u1 := t - a in
  let t1 := utc_to_wall u1 in
  let b1 := utc_to_wall (u1 - 86400) - (u1 - 86400) in
  if andb (t1 =? t) (a =? b1) then u1
  else
    let b := if t1 =? t then b1 else t1 - u1 in
    let u2 := t - b in
    if utc_to_wall u2 =? t then u2
    else if t1 =? t then u1
    else Z.max u1 u2.

End Zone.

End Calendar.
Import Calendar.

(* ================================================================== *)
(** ** Exceptions, records and tables *)

(** The exception classes the engine can meet. *)
Inductive exn : Type :=
| ValueError
| TypeError
| KeyError
| IndexError
| OSError.

Inductive outcome (A : Type) : Type :=
| Ok (a : A)
| Raise (e : exn).
Arguments Ok {A} a.
Arguments Raise {A} e.

Module Node.
(** [class EnergyNode]. *)
Record EnergyNode : Type := {
  node_id : string;
  location : string;
  latitude : Q;
  longitude : Q;
  pattern_type : string;
  active : bool;
  registered_at : Z;
  multiplier : Q;
  density : string
}.
End Node.
Abbreviation EnergyNode := Node.EnergyNode.

Module Point.
(** [class EnergyDataPoint]. *)
Record EnergyDataPoint : Type := {
  data_id : string;
  node_id : string;
  kwh : Q;
  location : string;
  timestamp : Z;
  hour : Z;
  day_of_week : Z;
  month : Z;
  pattern_type : string;
  anomaly : bool
}.
End Point.
Abbreviation EnergyDataPoint := Point.EnergyDataPoint.

(** [class UsagePattern]. *)
Record UsagePattern : Type := {
  baseline_kwh : Q;
  peak_kwh : Q;
  peak_hours : list Z;
  weekday_multiplier : Q;
  weekend_multiplier : Q;
  seasonal_variation : Q;
  noise_level : Q
}.

(** One entry of the location table: the dictionary with the keys ['name'],
    ['center'], ['bounds'] and ['population_density']. *)
Record Area : Type := {
  name : string;
  center_lat : Q;
  center_lon : Q;
  bounds_lat : Q * Q;
  bounds_lon : Q * Q;
  population_density : string
}.

(** A [dict] with string keys, in insertion order. *)
Definition dict (V : Type) : Type := list (string * V).

Fixpoint dict_get {V : Type} (d : dict V) (k : string) : option V :=
  match d with
  | [] => None
  | (k', v) :: r => if String.eqb k k' then Some v else dict_get r k
  end.

Definition keys {V : Type} (d : dict V) : list string := map fst d.
Definition values {V : Type} (d : dict V) : list V := map snd d.

(** A cell of a table read by pandas. *)
Inductive cell : Type :=
| NaN
| IntCell (z : Z)
| FloatCell (x : Q)
| StrCell (s : string).

(** A [DataFrame]: the column labels and the rows of cells. *)
Record DataFrame : Type := {
  columns : list string;
  records : list (list cell)
}.

(** A row as [iterrows] yields it: the cells under their column labels. *)
Definition Series : Type := dict cell.

Definition iterrows (df : DataFrame) : list Series :=
  map (fun r => combine (columns df) r) (records df).

(* ================================================================== *)
(** ** The surroundings of the interpreter *)

(** The generator behind the [random] module: [random.random()] and the
    private [_randbelow(n)] that [choice] and [randint] are built on. *)
Class PyRandom : Type := {
  py_state : Type;
  random_random : py_state -> Q * py_state;
  randbelow : Z -> py_state -> Z * py_state;
  random_random_range :
    forall s, (0 <= fst (random_random s) /\ fst (random_random s) < 1)%Q;
  randbelow_range :
    forall n s, 0 < n -> 0 <= fst (randbelow n s) < n
}.

(** numpy's global [RandomState]: [random_sample()] in [[0, 1)], the
    standard normal deviate, and the row positions [DataFrame.sample] draws
    without replacement ([n] out of [len]). *)
Class NumpyRandom : Type := {
  np_state : Type;
  random_sample : np_state -> Q * np_state;
  standard_normal : np_state -> Q * np_state;
  sample_positions : nat -> nat -> np_state -> list nat * np_state;
  random_sample_range :
    forall s, (0 <= fst (random_sample s) /\ fst (random_sample s) < 1)%Q;
  sample_positions_spec :
    forall len n s, (n <= len)%nat ->
      let l := fst (sample_positions len n s) in
      List.length l = n /\ NoDup l /\ Forall (fun i => (i < len)%nat) l
}.

(** Faker's [uuid4()]. *)
Class Faker : Type := {
  fk_state : Type;
  uuid4 : fk_state -> string * fk_state
}.

(** [math.sin] and [math.pi]. *)
Class Libm : Type := {
  math_sin : Q -> Q;
  math_pi : Q
}.

(** pandas and the built-in conversions on strings: [read_csv] (the file
    system, by path), [float(s)] and [pd.to_datetime(s).timestamp()] with
    [None] for the [ValueError] or [TypeError] of a string they refuse, and
    [str(x)] of a float. *)
Class Pandas : Type := {
  read_csv : string -> outcome DataFrame;
  float_of_str : string -> option Q;
  to_datetime : string -> option Q;
  str_of_float : Q -> string
}.

(* ================================================================== *)
(** ** The state of a run and its monad *)

Section Run.
Context {pyr : PyRandom} {npr : NumpyRandom} {fkr : Faker}.

(** The two counters of an [EnergyDataGenerator] instance. *)
Record Generator : Type := {
  node_counter : Z;
  data_counter : Z
}.

(** What a run can change or consult: the generator object, the states of
    the three random sources, and the wall clock, as the readings
    [time.time()] gives at its first, second, ... call, with the number of
    calls made so far. *)
Record World : Type := {
  self : Generator;
  py : py_state;
  np : np_state;
  fk : fk_state;
  wallclock : nat -> Q;
  ticks : nat
}.

Definition M (A : Type) : Type := World -> outcome A * World.

Definition ret {A : Type} (a : A) : M A := fun w => (Ok a, w).

Definition raise {A : Type} (e : exn) : M A := fun w => (Raise e, w).

Definition bind {A B : Type} (m : M A) (k : A -> M B) : M B :=
  fun w =>
    match m w with
    | (Ok a, w') => k a w'
    | (Raise e, w') => (Raise e, w')
    end.

End Run.

Declare Scope run_scope.
Delimit Scope run_scope with run.
Notation "x <- m ;; k" := (bind m (fun x => k))
  (at level 61, m at next level, right associativity) : run_scope.
Notation "m ;;; k" := (bind m (fun _ => k))
  (at level 61, right associativity) : run_scope.

Section Primitives.
Context {pyr : PyRandom} {npr : NumpyRandom} {fkr : Faker}.
Local Open Scope run_scope.

Definition with_self (w : World) (g : Generator) : World :=
  {| self := g; py := py w; np := np w; fk := fk w;
     wallclock := wallclock w; ticks := ticks w |}.

Definition with_py (w : World) (s : py_state) : World :=
  {| self := self w; py := s; np := np w; fk := fk w;
     wallclock := wallclock w; ticks := ticks w |}.

Definition with_np (w : World) (s : np_state) : World :=
  {| self := self w; py := py w; np := s; fk := fk w;
     wallclock := wallclock w; ticks := ticks w |}.

Definition with_fk (w : World) (s : fk_state) : World :=
  {| self := self w; py := py w; np := np w; fk := s;
     wallclock := wallclock w; ticks := ticks w |}.

(** [self.node_counter] and [self.node_counter += 1]. *)
Definition get_node_counter : M Z := fun w => (Ok (node_counter (self w)), w).

Definition incr_node_counter : M unit := fun w =>
  (Ok tt, with_self w {| node_counter := node_counter (self w) + 1;
                         data_counter := data_counter (self w) |}).

(** [self.data_counter] and [self.data_counter += 1]. *)
Definition get_data_counter : M Z := fun w => (Ok (data_counter (self w)), w).

Definition incr_data_counter : M unit := fun w =>
  (Ok tt, with_self w {| node_counter := node_counter (self w);
                         data_counter := data_counter (self w) + 1 |}).

(** [time.time()]. *)
Definition time_time : M Q := fun w =>
  (Ok (wallclock w (ticks w)),
   {| self := self w; py := py w; np := np w; fk := fk w;
      wallclock := wallclock w; ticks := S (ticks w) |}).

(** [random.random()]. *)
Definition py_random : M Q := fun w =>
  let (x, s) := random_random (py w) in (Ok x, with_py w s).

Definition py_randbelow (n : Z) : M Z := fun w =>
  let (x, s) := randbelow n (py w) in (Ok x, with_py w s).

(** [random.randint(a, b)]. *)
Definition py_randint (a b : Z) : M Z :=
  if 0 <? b - a + 1 then x <- py_randbelow (b - a + 1) ;; ret (a + x)
  else raise ValueError.

(** [random.choice(seq)]. *)
Definition py_choice {A : Type} (seq : list A) : M A :=
  match seq with
  | [] => raise IndexError
  | _ :: _ =>
      i <- py_randbelow (Z.of_nat (List.length seq)) ;;
      match nth_error seq (Z.to_nat i) with
      | Some x => ret x
      | None => raise IndexError
      end
  end.

(** [np.random.random_sample()]. *)
Definition np_random_sample : M Q := fun w =>
  let (x, s) := random_sample (np w) in (Ok x, with_np w s).

(** [np.random.uniform(low, high)]: [low + (high - low) * random_sample()]. *)
Definition np_uniform (low high : Q) : M Q :=
  u <- np_random_sample ;; ret (low + (high - low) * u)%Q.

(** [np.random.normal(loc, scale)]: [loc + scale * standard_normal()],
    refused for a negative scale. *)
Definition np_normal (loc scale : Q) : M Q :=
  if ltb scale 0%Q then raise ValueError
  else fun w =>
    let (g, s) := standard_normal (np w) in (Ok (loc + scale * g)%Q, with_np w s).

Fixpoint sum_Q (l : list Q) : Q :=
  match l with
  | [] => 0%Q
  | x :: r => (x + sum_Q r)%Q
  end.

(** [p.cumsum()]. *)
Fixpoint cumsum_from (acc : Q) (l : list Q) : list Q :=
  match l with
  | [] => []
  | x :: r => (acc + x)%Q :: cumsum_from (acc + x)%Q r
  end.

(** [cdf.searchsorted(u, side='right')] on an ascending [cdf]. *)
Fixpoint searchsorted_right (cdf : list Q) (u : Q) : nat :=
  match cdf with
  | [] => O
  | c :: r => if ltb u c then O else S (searchsorted_right r u)
  end.

(** The tolerance of [np.random.choice] on the sum of [p]:
    [sqrt(finfo(float64).eps)], which is [2^-26]. *)
Definition atol : Q := 1 # 67108864.

(** The checks [np.random.choice] makes on [p]: no negative entry, and a sum
    within [atol] of 1. *)
Definition probabilities_ok (p : list Q) : bool :=
  andb (negb (existsb (fun x => ltb x 0%Q) p))
       (leb (Qabs (sum_Q p - 1)) atol).

(** [np.random.choice(a, p=p)]. *)
Definition np_choice (a : list string) (p : list Q) : M string :=
  match a with
  | [] => raise ValueError
  | _ :: _ =>
      if negb (Nat.eqb (List.length p) (List.length a)) then raise ValueError
      else if negb (probabilities_ok p) then raise ValueError
      else
        u <- np_random_sample ;;
        let cdf := cumsum_from 0%Q p in
        let cdf := map (fun c => (c / last cdf 0)%Q) cdf in
        match nth_error a (searchsorted_right cdf u) with
        | Some x => ret x
        | None => raise IndexError
        end
  end.

(** [df.sample(n=n)]. *)
Definition df_sample (df : DataFrame) (n : Z) : M DataFrame :=
  if orb (n <? 0) (Z.of_nat (List.length (records df)) <? n) then raise ValueError
  else fun w =>
    let (pos, s) := sample_positions (List.length (records df)) (Z.to_nat n) (np w) in
    (Ok {| columns := columns df;
           records := flat_map (fun i => match nth_error (records df) i with
                                         | Some r => [r]
                                         | None => []
                                         end) pos |},
     with_np w s).

(** [fake.uuid4()]. *)
Definition fake_uuid4 : M string := fun w =>
  let (x, s) := uuid4 (fk w) in (Ok x, with_fk w s).

(** A [for] loop whose body adds any number of items to the result list. *)
Fixpoint for_each {A B : Type} (xs : list A) (body : A -> M (list B)) : M (list B) :=
  match xs with
  | [] => ret []
  | x :: r =>
      ys <- body x ;;
      zs <- for_each r body ;;
      ret (ys ++ zs)
  end.

(** [range(n)]. *)
Definition range (n : Z) : list Z := map Z.of_nat (seq 0 (Z.to_nat n)).

(** [try: m  except Exception: return default]. *)
Definition try_except {A : Type} (m : M A) (default : A) : M A := fun w =>
  match m w with
  | (Ok a, w') => (Ok a, w')
  | (Raise _, w') => (Ok default, w')
  end.

End Primitives.

(* ================================================================== *)
(** ** The catalogues *)

Section Catalogues.
Local Open Scope string_scope.
Local Open Scope Q_scope.

(** [EnergyDataGenerator._initialize_patterns]. *)
Definition _initialize_patterns : dict UsagePattern :=
  [ ("residential",
     {| baseline_kwh := 0.5; peak_kwh := 3.5;
        peak_hours := [18; 19; 20; 21]%Z;
        weekday_multiplier := 1.0; weekend_multiplier := 1.2;
        seasonal_variation := 0.3; noise_level := 0.15 |});
    ("commercial",
     {| baseline_kwh := 2.0; peak_kwh := 15.0;
        peak_hours := [9; 10; 11; 14; 15; 16]%Z;
        weekday_multiplier := 1.0; weekend_multiplier := 0.3;
        seasonal_variation := 0.4; noise_level := 0.12 |});
    ("industrial",
     {| baseline_kwh := 25.0; peak_kwh := 45.0;
        peak_hours := [8; 9; 10; 13; 14; 15]%Z;
        weekday_multiplier := 1.0; weekend_multiplier := 0.8;
        seasonal_variation := 0.2; noise_level := 0.08 |});
    ("datacenter",
     {| baseline_kwh := 50.0; peak_kwh := 65.0;
        peak_hours := [14; 15; 16]%Z;
        weekday_multiplier := 1.0; weekend_multiplier := 0.98;
        seasonal_variation := 0.1; noise_level := 0.05 |});
    ("mixed",
     {| baseline_kwh := 5.0; peak_kwh := 20.0;
        peak_hours := [9; 10; 11; 18; 19; 20]%Z;
        weekday_multiplier := 1.0; weekend_multiplier := 0.7;
        seasonal_variation := 0.25; noise_level := 0.2 |}) ].

Definition urban_areas : list Area :=
  [ {| name := "New York"; center_lat := 40.7128; center_lon := -74.0060;
       bounds_lat := (40.4774, 40.9176); bounds_lon := (-74.2591, -73.7004);
       population_density := "very_high" |};
    {| name := "Los Angeles"; center_lat := 34.0522; center_lon := -118.2437;
       bounds_lat := (33.7037, 34.3373); bounds_lon := (-118.6681, -118.1553);
       population_density := "high" |};
    {| name := "Chicago"; center_lat := 41.8781; center_lon := -87.6298;
       bounds_lat := (41.6444, 42.0230); bounds_lon := (-87.9401, -87.5240);
       population_density := "high" |};
    {| name := "Houston"; center_lat := 29.7604; center_lon := -95.3698;
       bounds_lat := (29.5200, 30.1100); bounds_lon := (-95.8230, -95.0140);
       population_density := "medium" |};
    {| name := "Phoenix"; center_lat := 33.4484; center_lon := -112.0740;
       bounds_lat := (33.2000, 33.7000); bounds_lon := (-112.3500, -111.8000);
       population_density := "medium" |} ].

Definition suburban_areas : list Area :=
  [ {| name := "San Jose"; center_lat := 37.3382; center_lon := -121.8863;
       bounds_lat := (37.1000, 37.5000); bounds_lon := (-122.1000, -121.6000);
       population_density := "medium" |};
    {| name := "Austin"; center_lat := 30.2672; center_lon := -97.7431;
       bounds_lat := (30.0000, 30.5000); bounds_lon := (-98.0000, -97.5000);
       population_density := "medium" |} ].

Definition rural_areas : list Area :=
  [ {| name := "Montana Rural"; center_lat := 47.0527; center_lon := -109.6333;
       bounds_lat := (45.0000, 49.0000); bounds_lon := (-116.0000, -104.0000);
       population_density := "low" |};
    {| name := "Kansas Rural"; center_lat := 38.5266; center_lon := -96.7265;
       bounds_lat := (37.0000, 40.0000); bounds_lon := (-102.0000, -94.5000);
       population_density := "low" |} ].

(** [EnergyDataGenerator._initialize_locations]. *)
Definition _initialize_locations : dict (list Area) :=
  [ ("urban", urban_areas); ("suburban", suburban_areas); ("rural", rural_areas) ].

(** The default of [pattern_distribution] in [generate_nodes]. *)
Definition default_pattern_distribution : dict Q :=
  [ ("residential", 0.60); ("commercial", 0.25);
    ("industrial", 0.10); ("datacenter", 0.05) ].

(** The candidate substrings of [column_mappings] in
    [merge_with_kaggle_data]. *)
Definition column_mappings : dict (list string) :=
  [ ("energy", ["energy"; "kwh"; "consumption"; "usage"; "power"]);
    ("timestamp", ["timestamp"; "datetime"; "date_time"; "time"; "date"]);
    ("meter_id", ["meter_id"; "id"; "meter"; "device_id"; "user_id"]) ].

End Catalogues.

(* ================================================================== *)
(** ** The engine *)

Section Engine.
Context {pyr : PyRandom} {npr : NumpyRandom} {fkr : Faker}.
Context {libm : Libm} {zone : LocalZone} {pandas : Pandas}.
Local Open Scope run_scope.
Local Open Scope string_scope.

(** [self.patterns] and [self.metropolitan_areas], set once by [__init__]. *)
Definition patterns : dict UsagePattern := _initialize_patterns.
Definition metropolitan_areas : dict (list Area) := _initialize_locations.

(** [f"lat:{lat:.4f},lon:{lon:.4f}"]. *)
Definition location_string (lat lon : Q) : string :=
  "lat:" ++ format_4f lat ++ ",lon:" ++ format_4f lon.

(** The body of the loop of [generate_nodes]: one node. *)
Definition generate_node (areas : list Area) (pattern_distribution : dict Q)
  : M EnergyNode :=
  pattern_type <- np_choice (keys pattern_distribution) (values pattern_distribution) ;;
  area <- py_choice areas ;;
  lat <- np_uniform (fst (bounds_lat area)) (snd (bounds_lat area)) ;;
  lon <- np_uniform (fst (bounds_lon area)) (snd (bounds_lon area)) ;;
  let clustered := String.eqb pattern_type "commercial" in
  let lat := if clustered then (lat * 0.7 + center_lat area * 0.3)%Q else lat in
  let lon := if clustered then (lon * 0.7 + center_lon area * 0.3)%Q else lon in
  counter <- get_node_counter ;;
  r <- py_random ;;
  now <- time_time ;;
  age <- py_randint 0 (86400 * 30) ;;
  m <- np_uniform 0.8 1.3 ;;
  let node :=
    {| Node.node_id := "node_" ++ format_0d 6 counter;
       Node.location := location_string lat lon;
       Node.latitude := lat;
       Node.longitude := lon;
       Node.pattern_type := pattern_type;
       Node.active := ltb 0.05 r;
       Node.registered_at := py_int now - age;
       Node.multiplier := m;
       Node.density := population_density area |} in
  incr_node_counter ;;;
  ret node.

(** [EnergyDataGenerator.generate_nodes]. *)
Definition generate_nodes (count : Z) (location_pattern : string)
    (pattern_distribution : option (dict Q)) : M (list EnergyNode) :=
  let pattern_distribution :=
    match pattern_distribution with
    | None => default_pattern_distribution
    | Some d => d
    end in
  let areas :=
    match dict_get metropolitan_areas location_pattern with
    | Some a => a
    | None => urban_areas
    end in
  for_each (range count)
    (fun _ => node <- generate_node areas pattern_distribution ;; ret [node]).

(** The body of the loop of [_generate_node_time_series]: the point of the
    hour with index [hour]. *)
Definition generate_node_hour (node : EnergyNode) (pattern : UsagePattern)
    (start_date : datetime) (anomaly_probability : Q) (hour : Z)
  : M EnergyDataPoint :=
  let current_time := add_hours start_date hour in
  let hour_of_day := hour_of current_time in
  let day_of_week := weekday_of current_time in
  let month := month_of current_time in
  let is_weekend := (5 <=? day_of_week)%Z in
  let kwh :=
    if existsb (Z.eqb hour_of_day) (peak_hours pattern) then peak_kwh pattern
    else baseline_kwh pattern in
  let kwh := if is_weekend then (kwh * weekend_multiplier pattern)%Q else kwh in
  let seasonal_factor :=
    (1 + seasonal_variation pattern
         * math_sin (inject_Z (month - 2) * math_pi / 6))%Q in
  let kwh := (kwh * seasonal_factor)%Q in
  let kwh := (kwh * Node.multiplier node)%Q in
  noise <- np_normal 0 (noise_level pattern) ;;
  let kwh := (kwh * (1 + noise))%Q in
  r <- py_random ;;
  let is_anomaly := ltb r anomaly_probability in
  kwh <- (if is_anomaly then
            low <- np_uniform 0.1 0.3 ;;
            high <- np_uniform 2.0 5.0 ;;
            anomaly_factor <- py_choice [low; high] ;;
            ret (kwh * anomaly_factor)%Q
          else ret kwh) ;;
  let kwh := py_max 0.1 kwh in
  counter <- get_data_counter ;;
  let data_point :=
    {| Point.data_id := "data_" ++ format_0d 8 counter;
       Point.node_id := Node.node_id node;
       Point.kwh := round3 kwh;
       Point.location := Node.location node;
       Point.timestamp := timestamp current_time;
       Point.hour := hour_of_day;
       Point.day_of_week := day_of_week;
       Point.month := month;
       Point.pattern_type := Node.pattern_type node;
       Point.anomaly := is_anomaly |} in
  incr_data_counter ;;;
  ret data_point.

(** [EnergyDataGenerator._generate_node_time_series]. *)
Definition _generate_node_time_series (node : EnergyNode) (pattern : UsagePattern)
    (start_date : datetime) (duration_hours : Z) (anomaly_probability : Q)
  : M (list EnergyDataPoint) :=
  for_each (range duration_hours)
    (fun hour =>
       data_point <- generate_node_hour node pattern start_date anomaly_probability hour ;;
       ret [data_point]).

(** [EnergyDataGenerator.generate_time_series]. *)
Definition generate_time_series (nodes : list EnergyNode) (start_date : datetime)
    (duration_hours : Z) (anomaly_probability : Q) : M (list EnergyDataPoint) :=
  for_each nodes
    (fun node =>
       if negb (Node.active node) then ret []
       else
         match dict_get patterns (Node.pattern_type node) with
         | None => raise KeyError
         | Some pattern =>
             _generate_node_time_series node pattern start_date duration_hours
               anomaly_probability
         end).

End Engine.

(* ================================================================== *)
(** ** Merging an external table *)

Section Merge.
Context {pyr : PyRandom} {npr : NumpyRandom} {fkr : Faker}.
Context {libm : Libm} {zone : LocalZone} {pandas : Pandas}.
Local Open Scope run_scope.
Local Open Scope string_scope.

(** [EnergyDataGenerator._safe_extract_numeric]: [None] for an absent column,
    a missing value, or a [ValueError] of [float(value)]. *)
Definition _safe_extract_numeric (row : Series) (column : string) : option Q :=
  match dict_get row column with
  | Some NaN => None
  | Some (IntCell z) => Some (inject_Z z)
  | Some (FloatCell x) => Some x
  | Some (StrCell s) => float_of_str s
  | None => None
  end.

(** The last statement of [_safe_extract_timestamp]:
    [int(time.time()) - random.randint(0, 86400 * 365)]. *)
Definition fallback_timestamp : M (option Z) :=
  now <- time_time ;;
  age <- py_randint 0 (86400 * 365) ;;
  ret (Some (py_int now - age)).

(** [EnergyDataGenerator._safe_extract_timestamp]. *)
Definition _safe_extract_timestamp (row : Series) (column : string) : M (option Z) :=
  match dict_get row column with
  | Some NaN => ret None
  | Some (IntCell z) =>
      ret (Some (if ltb 1e9 (inject_Z z) then z else z * 1000))
  | Some (FloatCell x) =>
      ret (Some (if ltb 1e9 x then py_int x else py_int (x * 1000)%Q))
  | Some (StrCell s) =>
      match to_datetime s with
      | Some t => ret (Some (py_int t))
      | None => fallback_timestamp
      end
  | None => fallback_timestamp
  end.

(** [str(value)] of a cell that is not missing. *)
Definition str_of_cell (c : cell) : string :=
  match c with
  | NaN => "nan"
  | IntCell z => str_of_int z
  | FloatCell x => str_of_float x
  | StrCell s => s
  end.

(** [EnergyDataGenerator._safe_extract_string]. *)
Definition _safe_extract_string (row : Series) (column : string) : M string :=
  match dict_get row column with
  | Some NaN => fake_uuid4
  | Some c => ret (str_of_cell c)
  | None => fake_uuid4
  end.

(** [EnergyDataGenerator._generate_realistic_location]: the location string,
    the latitude and the longitude. *)
Definition _generate_realistic_location : M (string * Q * Q) :=
  area <- py_choice urban_areas ;;
  lat <- np_uniform (fst (bounds_lat area)) (snd (bounds_lat area)) ;;
  lon <- np_uniform (fst (bounds_lon area)) (snd (bounds_lon area)) ;;
  ret (location_string lat lon, lat, lon).

(** The first column whose lower-cased label contains one of the
    lower-cased candidates. *)
Definition detect_column (candidates : list string) (cols : list string)
  : option string :=
  find (fun col => existsb (fun candidate => contains (lower candidate) (lower col))
                           candidates) cols.

(** The dictionary [detected_columns]. *)
Definition detect_columns (cols : list string) : dict string :=
  flat_map (fun tc => match detect_column (snd tc) cols with
                      | Some col => [(fst tc, col)]
                      | None => []
                      end) column_mappings.

(** [d.get(k, default)]. *)
Definition get_default {V : Type} (d : dict V) (k : string) (default : V) : V :=
  match dict_get d k with
  | Some v => v
  | None => default
  end.

(** [df.columns[i]]. *)
Definition column_at (df : DataFrame) (i : nat) : M string :=
  match nth_error (columns df) i with
  | Some c => ret c
  | None => raise IndexError
  end.

(** The threshold rule on the varied value. *)
Definition classify (kwh_varied : Q) : string :=
  if ltb kwh_varied 5 then "residential"
  else if ltb kwh_varied 20 then "commercial"
  else if ltb kwh_varied 50 then "industrial"
  else "datacenter".

(** The body of the loop over the sampled rows. *)
Definition merge_row (df : DataFrame) (detected_columns : dict string)
    (row : Series) : M (list EnergyDataPoint) :=
  c0 <- column_at df 0 ;;
  let kwh := _safe_extract_numeric row (get_default detected_columns "energy" c0) in
  c1 <- column_at df 1 ;;
  timestamp <- _safe_extract_timestamp row (get_default detected_columns "timestamp" c1) ;;
  meter_id <- _safe_extract_string row (get_default detected_columns "meter_id" "synthetic") ;;
  match kwh, timestamp with
  | Some kwh, Some timestamp =>
      location_data <- _generate_realistic_location ;;
      factor <- np_uniform 0.8 1.2 ;;
      let kwh_varied := (kwh * factor)%Q in
      let pattern_type := classify kwh_varied in
      let dt := fromtimestamp timestamp in
      counter <- get_data_counter ;;
      let data_point :=
        {| Point.data_id := "kaggle_" ++ format_0d 8 counter;
           Point.node_id := "kaggle_" ++ meter_id;
           Point.kwh := round3 kwh_varied;
           Point.location := fst (fst location_data);
           Point.timestamp := timestamp;
           Point.hour := hour_of dt;
           Point.day_of_week := weekday_of dt;
           Point.month := month_of dt;
           Point.pattern_type := pattern_type;
           Point.anomaly := false |} in
      incr_data_counter ;;;
      ret [data_point]
  | _, _ => ret []
  end.

(** [pd.read_csv(path)]. *)
Definition pd_read_csv (path : string) : M DataFrame :=
  fun w => (read_csv path, w).

(** The [try] block of [merge_with_kaggle_data]. *)
Definition merge_body (kaggle_csv_path : string) (sample_size : Z)
  : M (list EnergyDataPoint) :=
  df <- pd_read_csv kaggle_csv_path ;;
  let detected_columns := detect_columns (columns df) in
  sample_df <- df_sample df (py_min sample_size (Z.of_nat (List.length (records df)))) ;;
  for_each (iterrows sample_df) (merge_row df detected_columns).

(** [EnergyDataGenerator.merge_with_kaggle_data]. *)
Definition merge_with_kaggle_data (kaggle_csv_path : string) (sample_size : Z)
  : M (list EnergyDataPoint) :=
  try_except (merge_body kaggle_csv_path sample_size) [].

End Merge.
From Stdlib Require DecimalPos DecimalN Permutation.

(* ================================================================== *)
(** * The exporter and the mock server

    The rest of [src/mock_data.py] that computes: the records
    [export_utility_api_format] builds, and the handlers of [MockAPIServer]
    with the cache they share.

    Further conventions.
    - [datetime.now()] reads the same clock as [time.time()]: its reading is
      the wall-clock time of the clock's whole second, with the microseconds
      beside it.  The microseconds are dropped where the reading becomes the
      start of a series: a naive datetime of the engine has none, and for
      instants from 1970 on they show in no field of a data point.
    - Python refuses dates outside the years 1 to 9999; as in the engine,
      these limits are not modelled.
    - Flask, the parsing of a request and the text of a CSV file are not
      modelled: a handler is the function from the parsed arguments of the
      request and the state of the server to the object it hands to
      [jsonify], or the exception it raises. *)

(* ================================================================== *)
(** ** Dates in ISO 8601 *)

Module Iso.

Local Open Scope string_scope.

(** The year of the day [d] days after 1970-01-01, by the same reckoning as
    [month_of_days]; a year of the era starts on the 1st of March. *)
Definition year_of_days (d : Z) : Z :=
  let z := d + 719468 in
  let era := z / 146097 in
  let doe := z mod 146097 in
  let yoe := (doe - doe / 1460 + doe / 36524 - doe / 146096) / 365 in
  let y := yoe + era * 400 in
  if (month_of_days d <=? 2)%Z then y + 1 else y.

(** The day of the month (1..31). *)
Definition day_of_days (d : Z) : Z :=
  let z := d + 719468 in
  let doe := z mod 146097 in
  let yoe := (doe - doe / 1460 + doe / 36524 - doe / 146096) / 365 in
  let doy := doe - (365 * yoe + yoe / 4 - yoe / 100) in
  let mp := (5 * doy + 2) / 153 in
  doy - (153 * mp + 2) / 5 + 1.

(** [dt.year], [dt.day], [dt.minute] and [dt.second]. *)
Definition year_of (dt : datetime) : Z := year_of_days (days_of dt).
Definition day_of (dt : datetime) : Z := day_of_days (days_of dt).
Definition minute_of (dt : datetime) : Z := (dt mod 3600) / 60.
Definition second_of (dt : datetime) : Z := dt mod 60.

(** [dt.isoformat()] of a naive datetime without microseconds. *)
Definition isoformat (dt : datetime) : string :=
  format_0d 4 (year_of dt) ++ "-" ++ format_0d 2 (month_of dt) ++ "-"
    ++ format_0d 2 (day_of dt) ++ "T" ++ format_0d 2 (hour_of dt) ++ ":"
    ++ format_0d 2 (minute_of dt) ++ ":" ++ format_0d 2 (second_of dt).

(** [dt.isoformat()] of a naive datetime with [us] microseconds: the
    fraction is printed unless it is zero. *)
Definition isoformat_us (dt : datetime) (us : Z) : string :=
  if (us =? 0)%Z then isoformat dt else isoformat dt ++ "." ++ format_0d 6 us.

End Iso.
Import Iso.

(* ================================================================== *)
(** ** Records of the exporter and of the server *)

Module Utility.
(** One dictionary of [utility_data] in [export_utility_api_format]. *)
Record UtilityRecord : Type := {
  meter : string;
  start : string;
  end_ : string;
  kWh : Q;
  kW : Q;
  lat : Z;
  lon : Z
}.
End Utility.
Abbreviation UtilityRecord := Utility.UtilityRecord.

Module Interval.
(** One dictionary of [api_data] in [MockAPIServer._generate_mock_data]. *)
Record Interval : Type := {
  start : string;
  end_ : string;
  kWh : Q;
  kW : Q;
  location : string
}.
End Interval.
Abbreviation Interval := Interval.Interval.

Module Latest.
(** The object [get_latest_data] answers with. *)
Record LatestResponse : Type := {
  nodeId : Z;
  kWh : Q;
  timestamp : string;
  location : string;
  active : bool
}.
End Latest.
Abbreviation LatestResponse := Latest.LatestResponse.

Module Intervals.
(** The object [get_intervals] answers with. *)
Record IntervalsResponse : Type := {
  intervals : list Interval;
  next : option string;
  previous : option string
}.
End Intervals.
Abbreviation IntervalsResponse := Intervals.IntervalsResponse.

Module Bulk.
(** One dictionary of [api_data] in [generate_bulk_data], the [metadata]
    dictionary, and the object the handler answers with. *)
Record BulkPoint : Type := {
  dataId : string;
  nodeId : string;
  kWh : Q;
  location : string;
  timestamp : Z;
  patternType : string
}.

Record Metadata : Type := {
  totalPoints : nat;
  nodes : nat;
  durationHours : Z;
  generatedAt : string
}.

Record BulkResponse : Type := {
  data : list BulkPoint;
  metadata : Metadata
}.
End Bulk.
Abbreviation BulkResponse := Bulk.BulkResponse.

(** [d[k] = v]: in place for a key of [d], at the end for a new one. *)
Fixpoint dict_set {V : Type} (d : dict V) (k : string) (v : V) : dict V :=
  match d with
  | [] => [(k, v)]
  | (k', v') :: r =>
      if String.eqb k k' then (k', v) :: r else (k', v') :: dict_set r k v
  end.

(** [sorted(l, key=key)] and [sorted(l, key=key, reverse=True)] for string
    keys: both stable, items of equal keys staying in the order of [l]. *)
Fixpoint insert_sorted {A : Type} (before : A -> A -> bool) (x : A) (l : list A)
  : list A :=
  match l with
  | [] => [x]
  | y :: r => if before x y then x :: l else y :: insert_sorted before x r
  end.

Definition sorted {A : Type} (key : A -> string) (reverse : bool) (l : list A)
  : list A :=
  fold_right
    (insert_sorted (fun x y => if reverse then String.leb (key y) (key x)
                               else String.leb (key x) (key y)))
    [] l.

(** [l[:stop]]. *)
Definition slice_to {A : Type} (l : list A) (stop : Z) : list A :=
  if 0 <=? stop then firstn (Z.to_nat stop) l
  else firstn (List.length l - Z.to_nat (- stop)) l.

(* ================================================================== *)
(** ** The exporter *)

(** The file system, as [open(filename, 'w')] and the [csv] writer meet it:
    whether the rows handed to the writer get written, or which exception is
    raised instead. *)
Class Disk : Type := {
  write_points : string -> list EnergyDataPoint -> outcome unit;
  write_records : string -> list UtilityRecord -> outcome unit
}.

Section Exporter.
Context {pyr : PyRandom} {npr : NumpyRandom} {fkr : Faker}.
Context {zone : LocalZone} {disk : Disk}.

(** [EnergyDataGenerator.export_to_csv]: the rows are the data points, field
    by field. *)
Definition export_to_csv (data_points : list EnergyDataPoint) (filename : string)
  : M unit :=
  fun w => (write_points filename data_points, w).

(** The list [utility_data] that [export_utility_api_format] builds: a data
    point has no attribute [latitude] or [longitude], so both [hasattr]
    tests fail. *)
Definition utility_data (data_points : list EnergyDataPoint) : list UtilityRecord :=
  map (fun point =>
         let dt := fromtimestamp (Point.timestamp point) in
         {| Utility.meter := Point.node_id point;
            Utility.start := isoformat dt;
            Utility.end_ := isoformat (add_hours dt 1);
            Utility.kWh := Point.kwh point;
            Utility.kW := Point.kwh point;
            Utility.lat := 0;
            Utility.lon := 0 |})
      data_points.

(** [EnergyDataGenerator.export_utility_api_format]. *)
Definition export_utility_api_format (data_points : list EnergyDataPoint)
    (filename : string) : M unit :=
  fun w => (write_records filename (utility_data data_points), w).

End Exporter.

(* ================================================================== *)
(** ** The mock server *)

Section Server.
Context {pyr : PyRandom} {npr : NumpyRandom} {fkr : Faker}.
Context {libm : Libm} {zone : LocalZone} {pandas : Pandas}.
Local Open Scope run_scope.
Local Open Scope string_scope.

(** [datetime.now()]: the wall-clock time of the clock's whole second, and
    the microseconds. *)
Definition datetime_now : M (datetime * Z) :=
  t <- time_time ;;
  let seconds := Qfloor t in
  ret (fromtimestamp seconds, Qfloor ((t - inject_Z seconds) * 1000000)%Q).

(** The node after the assignment [node.node_id = node_id]. *)
Definition with_node_id (node : EnergyNode) (node_id : string) : EnergyNode :=
  {| Node.node_id := node_id;
     Node.location := Node.location node;
     Node.latitude := Node.latitude node;
     Node.longitude := Node.longitude node;
     Node.pattern_type := Node.pattern_type node;
     Node.active := Node.active node;
     Node.registered_at := Node.registered_at node;
     Node.multiplier := Node.multiplier node;
     Node.density := Node.density node |}.

(** [nodes[0].node_id = meter_id]. *)
Definition set_first_node_id (nodes : list EnergyNode) (meter_id : string)
  : M (list EnergyNode) :=
  match nodes with
  | [] => raise IndexError
  | node :: rest => ret (with_node_id node meter_id :: rest)
  end.

(** The dictionary [_generate_mock_data] makes of a data point. *)
Definition interval_of (point : EnergyDataPoint) : Interval :=
  let dt := fromtimestamp (Point.timestamp point) in
  {| Interval.start := isoformat dt;
     Interval.end_ := isoformat (add_hours dt 1);
     Interval.kWh := Point.kwh point;
     Interval.kW := Point.kwh point;
     Interval.location := Point.location point |}.

(** [_generate_mock_data] up to its last statement: the list [api_data]. *)
Definition mock_api_data (meter_id : string) (hours : Z) : M (list Interval) :=
  pattern_type <- py_choice ["residential"; "commercial"; "industrial"] ;;
  nodes <- generate_nodes 1 "urban" (Some [(pattern_type, 1.0%Q)]) ;;
  nodes <- set_first_node_id nodes meter_id ;;
  now <- datetime_now ;;
  let start_date := add_hours (fst now) (- hours) in
  data_points <- generate_time_series nodes start_date hours 0.01%Q ;;
  ret (map interval_of data_points).

(** The state of a running server: the dictionary [self.cached_data], and
    the state of the process with the generator [self.data_generator]. *)
Record Service : Type := {
  cached_data : dict (list Interval);
  process : World
}.

(** A handler, or a method of the server. *)
Definition Handler (A : Type) : Type := Service -> outcome A * Service.

(** [MockAPIServer._generate_mock_data]. *)
Definition _generate_mock_data (meter_id : string) (hours : Z) : Handler unit :=
  fun s =>
    match mock_api_data meter_id hours (process s) with
    | (Ok api_data, w) =>
        (Ok tt, {| cached_data := dict_set (cached_data s) meter_id api_data;
                   process := w |})
    | (Raise e, w) => (Raise e, {| cached_data := cached_data s; process := w |})
    end.

(** [if meter_id not in self.cached_data: self._generate_mock_data(meter_id)]
    followed by the look-up [self.cached_data[meter_id]]. *)
Definition cached_or_generated (meter_id : string) : Handler (list Interval) :=
  fun s =>
    let (o, s1) :=
      match dict_get (cached_data s) meter_id with
      | None => _generate_mock_data meter_id 168 s
      | Some _ => (Ok tt, s)
      end in
    match o with
    | Raise e => (Raise e, s1)
    | Ok _ =>
        match dict_get (cached_data s1) meter_id with
        | Some data => (Ok data, s1)
        | None => (Raise KeyError, s1)
        end
    end.

(** The handler [get_intervals], on the request's [meters] and [order]
    arguments (when given) and the integer read from its [limit]. *)
Definition get_intervals (meters : option string) (limit : Z) (order : option string)
  : Handler IntervalsResponse :=
  fun s =>
    let meter_id := match meters with Some m => m | None => "default_meter" end in
    let order := match order with Some o => o | None => "desc" end in
    match cached_or_generated meter_id s with
    | (Raise e, s1) => (Raise e, s1)
    | (Ok data, s1) =>
        let data := sorted Interval.start (String.eqb order "desc") data in
        (Ok {| Intervals.intervals := slice_to data limit;
               Intervals.next := None;
               Intervals.previous := None |}, s1)
    end.

(** The handler [get_latest_data]. *)
Definition get_latest_data (node_id : Z) : Handler LatestResponse :=
  fun s =>
    let meter_id := "node_" ++ format_0d 6 node_id in
    match cached_or_generated meter_id s with
    | (Raise e, s1) => (Raise e, s1)
    | (Ok data, s1) =>
        match data with
        | [] => (Raise IndexError, s1)
        | latest :: _ =>
            (Ok {| Latest.nodeId := node_id;
                   Latest.kWh := Interval.kWh latest;
                   Latest.timestamp := Interval.start latest;
                   Latest.location := Interval.location latest;
                   Latest.active := true |}, s1)
        end
    end.

(** The generation inside [generate_bulk_data]: the nodes, the data points
    and the second reading of [datetime.now()]. *)
Definition bulk_data (node_count duration_hours : Z)
  : M (list EnergyNode * list EnergyDataPoint * (datetime * Z)) :=
  nodes <- generate_nodes node_count "urban" None ;;
  now <- datetime_now ;;
  let start_date := add_hours (fst now) (- duration_hours) in
  data_points <- generate_time_series nodes start_date duration_hours 0.02%Q ;;
  generated_at <- datetime_now ;;
  ret (nodes, data_points, generated_at).

(** The handler [generate_bulk_data], on the [pattern], [nodes] and [hours]
    of the request (integers for the last two). *)
Definition generate_bulk_data (pattern_type : string) (node_count duration_hours : Z)
  : Handler BulkResponse :=
  fun s =>
    match bulk_data node_count duration_hours (process s) with
    | (Raise e, w) => (Raise e, {| cached_data := cached_data s; process := w |})
    | (Ok (nodes, data_points, generated_at), w) =>
        let api_data :=
          map (fun point =>
                 {| Bulk.dataId := Point.data_id point;
                    Bulk.nodeId := Point.node_id point;
                    Bulk.kWh := Point.kwh point;
                    Bulk.location := Point.location point;
                    Bulk.timestamp := Point.timestamp point;
                    Bulk.patternType := Point.pattern_type point |})
              data_points in
        (Ok {| Bulk.data := api_data;
               Bulk.metadata :=
                 {| Bulk.totalPoints := List.length api_data;
                    Bulk.nodes := List.length nodes;
                    Bulk.durationHours := duration_hours;
                    Bulk.generatedAt :=
                      isoformat_us (fst generated_at) (snd generated_at) |} |},
         {| cached_data := cached_data s; process := w |})
    end.

End Server.

(* ================================================================== *)
(** ** The [generate] command *)

(** How a command ends when it does not end well: with an exception of the
    engine or of the file system, or with the [ZeroDivisionError] of the
    statistics. *)
Inductive failure : Type :=
| Exception (e : exn)
| ZeroDivisionError.

(** The numbers the command prints under [Statistics]. *)
Record Statistics : Type := {
  total_kwh : Q;
  avg_kwh : Q;
  anomaly_count : nat;
  anomaly_percent : Q
}.

(** [sum(xs)] of floats: from 0, left to right. *)
Definition py_sum (xs : list Q) : Q := fold_left Qplus xs 0%Q.

(** The statistics of [main], [None] standing for the [ZeroDivisionError] of
    [total_kwh / len(data_points)]. *)
Definition statistics (data_points : list EnergyDataPoint) : option Statistics :=
  let total_kwh := py_sum (map Point.kwh data_points) in
  match List.length data_points with
  | O => None
  | S _ =>
      let n := inject_Z (Z.of_nat (List.length data_points)) in
      let anomaly_count := List.length (filter Point.anomaly data_points) in
      Some {| total_kwh := total_kwh;
              avg_kwh := (total_kwh / n)%Q;
              anomaly_count := anomaly_count;
              anomaly_percent := (inject_Z (Z.of_nat anomaly_count) / n * 100)%Q |}
  end.

Section Command.
Context {pyr : PyRandom} {npr : NumpyRandom} {fkr : Faker}.
Context {libm : Libm} {zone : LocalZone} {pandas : Pandas} {disk : Disk}.
Local Open Scope run_scope.
Local Open Scope string_scope.

(** The [generate] branch of [main] up to the statistics, on the parsed
    arguments. *)
Definition generate_and_export (nodes : Z) (pattern : string) (days : Z)
    (location output format : string) (anomalies : Q) : M (list EnergyDataPoint) :=
  nodes <- generate_nodes nodes location (Some [(pattern, 1.0%Q)]) ;;
  now <- datetime_now ;;
  let start_date := add_hours (fst now) (- (24 * days)) in
  let duration_hours := days * 24 in
  data_points <- generate_time_series nodes start_date duration_hours anomalies ;;
  (if String.eqb format "utility-api"
   then export_utility_api_format data_points output
   else export_to_csv data_points output) ;;;
  ret data_points.

(** The [generate] branch of [main], run with a new generator: what it
    prints as statistics, or how it fails. *)
Definition generate_command (nodes : Z) (pattern : string) (days : Z)
    (location output format : string) (anomalies : Q)
  : World -> (Statistics + failure) * World :=
  fun w =>
    let generator := {| node_counter := 0; data_counter := 0 |} in
    match generate_and_export nodes pattern days location output format anomalies
            (with_self w generator) with
    | (Raise e, w') => (inr (Exception e), w')
    | (Ok data_points, w') =>
        match statistics data_points with
        | Some st => (inl st, w')
        | None => (inr ZeroDivisionError, w')
        end
    end.

End Command.


(* ================================================================== *)
(** ** The vocabulary of the properties

    The predicates the statements below are written with: what a run
    guarantees, what the points and nodes of each operation carry, and when
    two runs count as seeded alike. *)

Section Vocabulary.
Context {pyr : PyRandom} {npr : NumpyRandom} {fkr : Faker}.
Context {libm : Libm} {zone : LocalZone} {pandas : Pandas}.

(** [wp m post w]: from [w], [m] returns (raises nothing) and its result and
    final state satisfy [post]. *)
Definition wp {A : Type} (m : M A) (post : A -> World -> Prop) (w : World) : Prop :=
  match m w with
  | (Ok a, w') => post a w'
  | (Raise _, _) => False
  end.

(** [wlp m post w]: if [m] returns from [w], its result and final state satisfy
    [post]. *)
Definition wlp {A : Type} (m : M A) (post : A -> World -> Prop) (w : World) : Prop :=
  match m w with
  | (Ok a, w') => post a w'
  | (Raise _, _) => True
  end.

(** The bounding box is not empty and holds the centre. *)
Definition area_well_formed (a : Area) : Prop :=
  (fst (bounds_lat a) <= center_lat a)%Q /\
  (center_lat a <= snd (bounds_lat a))%Q /\
  (fst (bounds_lon a) <= center_lon a)%Q /\
  (center_lon a <= snd (bounds_lon a))%Q.

(** Whatever the key, [generate_nodes] selects a list of the table. *)
Definition selected_areas (location_pattern : string) : list Area :=
  match dict_get _initialize_locations location_pattern with
  | Some a => a
  | None => urban_areas
  end.

(** What the point of the hour with index [h] of [node] always carries: the
    node's identity, the wall-clock reading [start + h hours] in its three
    calendar fields, that reading's instant as its timestamp, and an energy
    value of at least 0.1. *)
Definition hour_point (node : EnergyNode) (start : datetime) (h : Z)
    (p : EnergyDataPoint) : Prop :=
  Point.node_id p = Node.node_id node /\
  Point.location p = Node.location node /\
  Point.pattern_type p = Node.pattern_type node /\
  Point.timestamp p = timestamp (add_hours start h) /\
  Point.hour p = hour_of (add_hours start h) /\
  Point.day_of_week p = weekday_of (add_hours start h) /\
  Point.month p = month_of (add_hours start h) /\
  (0.1 <= Point.kwh p)%Q.

(** The series of a node: nothing for an inactive node, else one point per
    hour index of [range duration_hours], in order. *)
Definition node_series (start : datetime) (duration_hours : Z)
    (node : EnergyNode) (s : list EnergyDataPoint) : Prop :=
  if Node.active node then Forall2 (hour_point node start) (range duration_hours) s
  else s = [].

(** Every active node carries one of the catalogued pattern types. *)
Definition patterns_known (nodes : list EnergyNode) : Prop :=
  Forall (fun node => Node.active node = true ->
                      dict_get patterns (Node.pattern_type node) <> None) nodes.

(** A distribution [np.random.choice] accepts: some key, no negative
    weight, and a total within [atol] of 1. *)
Definition valid_distribution (d : dict Q) : Prop :=
  d <> [] /\ probabilities_ok (values d) = true.

(** The node lies in the bounding box of the area. *)
Definition inside_area (area : Area) (node : EnergyNode) : Prop :=
  (fst (bounds_lat area) <= Node.latitude node)%Q /\
  (Node.latitude node <= snd (bounds_lat area))%Q /\
  (fst (bounds_lon area) <= Node.longitude node)%Q /\
  (Node.longitude node <= snd (bounds_lon area))%Q.

(** Where a node of [areas] lies: inside the bounding box of one of the
    areas, whose density label it carries, with an individual multiplier
    between 0.8 and 1.3. *)
Definition node_placed (areas : list Area) (node : EnergyNode) : Prop :=
  exists area, In area areas /\
    Node.density node = population_density area /\
    inside_area area node /\
    (0.8 <= Node.multiplier node)%Q /\ (Node.multiplier node <= 1.3)%Q.

(** The next [n] standard normal deviates of a numpy state. *)
Fixpoint normal_deviates (n : nat) (s : np_state) : list Q :=
  match n with
  | O => []
  | S n' => fst (standard_normal s) :: normal_deviates n' (snd (standard_normal s))
  end.

(** The formula of the scenario, in the words of the specification: the
    peak value in the hours 18 to 21 and the baseline otherwise, times the
    weekend multiplier on a weekend, times the seasonal factor, times the
    node's multiplier, times one plus the noise draw; floored at 0.1 and
    rounded to three decimals. *)
Definition scenario_kwh (node : EnergyNode) (start : datetime) (h : Z)
    (noise_draw : Q) : Q :=
  let base := if andb (18 <=? h) (h <=? 21) then 3.5%Q else 0.5%Q in
  let base := if 5 <=? weekday_of start then (base * 1.2)%Q else base in
  round3 (py_max 0.1
            (base
             * (1 + 0.3 * math_sin (inject_Z (month_of start - 2) * math_pi / 6))
             * Node.multiplier node
             * (1 + noise_draw))%Q).

(** The noise draw of the residential pattern for a standard deviate [g]:
    [np.random.normal(0, 0.15)]. *)
Definition residential_noise (g : Q) : Q := (0 + 0.15 * g)%Q.

(** The columns the loop reads in a table of at least two columns. *)
Definition energy_column (df : DataFrame) : string :=
  get_default (detect_columns (columns df)) "energy" (nth 0 (columns df) ""%string).

Definition timestamp_column (df : DataFrame) : string :=
  get_default (detect_columns (columns df)) "timestamp" (nth 1 (columns df) ""%string).

(** What the merged point of a row carries: an energy value that is the
    rounding of the row's parsed energy value times a factor between 0.8 and
    1.2, the class of that product before the rounding, the calendar fields
    of its own timestamp read in local time, and no anomaly flag. *)
Definition merged_point (df : DataFrame) (row : Series) (p : EnergyDataPoint)
  : Prop :=
  exists kwh factor : Q,
    _safe_extract_numeric row (energy_column df) = Some kwh /\
    (0.8 <= factor)%Q /\ (factor <= 1.2)%Q /\
    Point.kwh p = round3 (kwh * factor) /\
    Point.pattern_type p = classify (kwh * factor)%Q /\
    Point.hour p = hour_of (fromtimestamp (Point.timestamp p)) /\
    Point.day_of_week p = weekday_of (fromtimestamp (Point.timestamp p)) /\
    Point.month p = month_of (fromtimestamp (Point.timestamp p)) /\
    Point.anomaly p = false.

(** A point merged from some row of the table behind [path]. *)
Definition merged_from (path : string) (p : EnergyDataPoint) : Prop :=
  exists df row,
    read_csv path = Ok df /\ In row (iterrows df) /\ merged_point df row p.

(** The timestamp a cell converts to; [None] for a missing cell and for a
    string [pd.to_datetime] refuses. *)
Definition converted_timestamp (c : cell) : option Z :=
  match c with
  | NaN => None
  | IntCell z => Some (if ltb 1e9 (inject_Z z) then z else z * 1000)
  | FloatCell x => Some (if ltb 1e9 x then py_int x else py_int (x * 1000)%Q)
  | StrCell s => option_map py_int (to_datetime s)
  end.

(** The timestamp of a row that is emitted, read in the state [w]: the
    converted cell, or else the clock's reading minus at most a year of
    seconds. *)
Definition row_timestamp (c : option cell) (w : World) (t : Z) : Prop :=
  match c with
  | Some NaN => False
  | Some (IntCell _ as c') | Some (FloatCell _ as c') => converted_timestamp c' = Some t
  | Some (StrCell s) =>
      match to_datetime s with
      | Some x => t = py_int x
      | None => exists age, 0 <= age <= 86400 * 365
                            /\ t = py_int (wallclock w (ticks w)) - age
      end
  | None => exists age, 0 <= age <= 86400 * 365
                        /\ t = py_int (wallclock w (ticks w)) - age
  end.

(** A row is emitted when its energy value parses and its timestamp cell is
    not a missing value. *)
Definition row_emitted (df : DataFrame) (row : Series) : bool :=
  match _safe_extract_numeric row (energy_column df),
        dict_get row (timestamp_column df) with
  | None, _ => false
  | Some _, Some NaN => false
  | Some _, _ => true
  end.

(** What the loop body returns for a row read in the state [w]. *)
Definition row_result (df : DataFrame) (row : Series) (w : World)
    (pts : list EnergyDataPoint) : Prop :=
  if row_emitted df row then
    exists p, pts = [p] /\ merged_point df row p /\
              row_timestamp (dict_get row (timestamp_column df)) w (Point.timestamp p)
  else pts = [].

(** Two states of a run that differ at most in what their clocks read: the
    same counters, the same states of the random sources, the same number of
    clock readings taken. *)
Definition agree (w1 w2 : World) : Prop :=
  self w1 = self w2 /\ py w1 = py w2 /\ np w1 = np w2 /\ fk w1 = fk w2 /\
  ticks w1 = ticks w2.

(** From agreeing states both runs raise the same exception, or both return,
    results related by [R]; and the states they reach agree again. *)
Definition sim {A : Type} (R : A -> A -> Prop) (m1 m2 : M A) : Prop :=
  forall w1 w2, agree w1 w2 ->
    match m1 w1, m2 w2 with
    | (Ok a1, w1'), (Ok a2, w2') => R a1 a2 /\ agree w1' w2'
    | (Raise e1, w1'), (Raise e2, w2') => e1 = e2 /\ agree w1' w2'
    | _, _ => False
    end.

(** Two nodes equal in every field but the registration time. *)
Definition same_but_registered (n1 n2 : EnergyNode) : Prop :=
  Node.node_id n1 = Node.node_id n2 /\
  Node.location n1 = Node.location n2 /\
  Node.latitude n1 = Node.latitude n2 /\
  Node.longitude n1 = Node.longitude n2 /\
  Node.pattern_type n1 = Node.pattern_type n2 /\
  Node.active n1 = Node.active n2 /\
  Node.multiplier n1 = Node.multiplier n2 /\
  Node.density n1 = Node.density n2.

(** The calendar fields of a point are those of its timestamp, read in local
    time. *)
Definition calendar_fields_match (p : EnergyDataPoint) : Prop :=
  Point.hour p = hour_of (fromtimestamp (Point.timestamp p)) /\
  Point.day_of_week p = weekday_of (fromtimestamp (Point.timestamp p)) /\
  Point.month p = month_of (fromtimestamp (Point.timestamp p)).

End Vocabulary.
(* ================================================================== *)
(** ** The vocabulary of the bookkeeping

    What the properties about identifiers, counters and the clock are
    written with. *)

Section Bookkeeping.
Context {pyr : PyRandom} {npr : NumpyRandom} {fkr : Faker}.
Local Open Scope string_scope.

(** From [w] to [w'] the node counter has advanced by [dn], the data counter
    by [dd], and the clock has been read [dt] times; the clock itself is the
    same. *)
Definition moved (dn dd : Z) (dt : nat) (w w' : World) : Prop :=
  node_counter (self w') = node_counter (self w) + dn /\
  data_counter (self w') = data_counter (self w) + dd /\
  wallclock w' = wallclock w /\
  ticks w' = (ticks w + dt)%nat.

(** The generator object and the clock are as they were: what a draw from a
    random source leaves alone. *)
Definition kept (w w' : World) : Prop := moved 0 0 0 w w'.

(** The node was registered at most 30 days before the [i]-th reading of the
    clock after [w], and not after it. *)
Definition registered_within (w : World) (i : nat) (node : EnergyNode) : Prop :=
  py_int (wallclock w (ticks w + i)) - 86400 * 30 <= Node.registered_at node
  /\ Node.registered_at node <= py_int (wallclock w (ticks w + i)).

(** The identifiers the two counters are printed into. *)
Definition node_label (n : Z) : string := "node_" ++ format_0d 6 n.
Definition data_label (n : Z) : string := "data_" ++ format_0d 8 n.
Definition kaggle_label (n : Z) : string := "kaggle_" ++ format_0d 8 n.

(** [int(s)] of a string of decimal digits behind an optional minus sign;
    [None] for any other string. *)
Definition int_of_str (s : string) : option Z :=
  option_map Z.of_int (NilZero.int_of_string s).

(** The items of [l] carry, in order, the labels of [c], [c + 1], ... *)
Definition numbered {A : Type} (ident : A -> string) (label : Z -> string)
    (c : Z) (l : list A) : Prop :=
  map ident l = map (fun i => label (c + Z.of_nat i)) (seq 0 (List.length l)).

(** The distribution [generate_nodes] draws from. *)
Definition distribution_used (distribution : option (dict Q)) : dict Q :=
  match distribution with
  | Some d => d
  | None => default_pattern_distribution
  end.

(** What holds of the nodes gathered so far, from the state [w] on. *)
Definition nodes_issued (d : dict Q) (w : World) (nodes : list EnergyNode)
    (w' : World) : Prop :=
  numbered Node.node_id node_label (node_counter (self w)) nodes /\
  Forall (fun node => In (Node.pattern_type node) (keys d)) nodes /\
  (forall i node, nth_error nodes i = Some node -> registered_within w i node) /\
  moved (Z.of_nat (List.length nodes)) 0 (List.length nodes) w w'.

(** What holds of the points gathered so far, from the state [w] on, under
    the anomaly probability [ap]: their identifiers are numbered from the
    data counter, which has advanced by their number; no point is flagged
    when [ap <= 0] and every point is when [1 <= ap]. *)
Definition points_issued (label : Z -> string) (ap : Q) (w : World)
    (pts : list EnergyDataPoint) (w' : World) : Prop :=
  numbered Point.data_id label (data_counter (self w)) pts /\
  ((ap <= 0)%Q -> Forall (fun p => Point.anomaly p = false) pts) /\
  ((1 <= ap)%Q -> Forall (fun p => Point.anomaly p = true) pts) /\
  moved 0 (Z.of_nat (List.length pts)) 0 w w'.

(** A point placed in the bounding box of one of the five urban areas,
    under a node identifier that starts with [kaggle_], and not flagged. *)
Definition urban_point (p : EnergyDataPoint) : Prop :=
  (exists area lat lon,
      In area urban_areas /\
      (fst (bounds_lat area) <= lat)%Q /\ (lat <= snd (bounds_lat area))%Q /\
      (fst (bounds_lon area) <= lon)%Q /\ (lon <= snd (bounds_lon area))%Q /\
      Point.location p = location_string lat lon) /\
  (exists meter_id, Point.node_id p = "kaggle_" ++ meter_id) /\
  Point.anomaly p = false.

(** What holds of the merged points gathered so far, from the state [w] on:
    their identifiers are numbered from the data counter, which has advanced
    by their number; the node counter and the clock are the same (the clock
    may have been read). *)
Definition merge_issued (w : World) (pts : list EnergyDataPoint) (w' : World)
  : Prop :=
  numbered Point.data_id kaggle_label (data_counter (self w)) pts /\
  Forall urban_point pts /\
  exists dt, moved 0 (Z.of_nat (List.length pts)) dt w w'.

(** The lower-cased column label contains the word. *)
Definition mentions (word col : string) : bool := contains word (lower col).

End Bookkeeping.

Section ServerVocabulary.
Context {pyr : PyRandom} {npr : NumpyRandom} {fkr : Faker}.
Context {libm : Libm} {zone : LocalZone} {pandas : Pandas}.

(** The three pattern types [_generate_mock_data] chooses from. *)
Definition mock_patterns : list string :=
  ["residential"; "commercial"; "industrial"]%string.

(** The start of the series [_generate_mock_data] makes from the state [w]:
    [hours] hours before the wall-clock time of the second reading of the
    clock (the first one registers the node). *)
Definition mock_start (w : World) (hours : Z) : datetime :=
  add_hours (fromtimestamp (Qfloor (wallclock w (S (ticks w))))) (- hours).

(** What [api_data] holds for a node and a start: nothing for an inactive
    node, else one interval per hour in order, each beginning at the local
    time of the hour's timestamp and ending an hour later on the wall clock,
    with the hour's energy (at least 0.1) as [kWh] and [kW]. *)
Definition mock_intervals (node : EnergyNode) (start : datetime) (hours : Z)
    (api_data : list Interval) : Prop :=
  if Node.active node then
    Forall2 (fun h r =>
               Interval.start r
                 = isoformat (fromtimestamp (timestamp (add_hours start h))) /\
               Interval.end_ r
                 = isoformat (add_hours (fromtimestamp (timestamp (add_hours start h))) 1) /\
               Interval.kW r = Interval.kWh r /\
               (0.1 <= Interval.kWh r)%Q /\
               Interval.location r = Node.location node)
            (range hours) api_data
  else api_data = [].

(** The run of [_generate_mock_data] from [w]: the pattern type chosen, the
    one node generated under it, and the intervals made for that node. *)
Definition mock_run (w : World) (hours : Z) (api_data : list Interval) : Prop :=
  exists pattern_type w1 node w2,
    py_choice mock_patterns w = (Ok pattern_type, w1) /\
    generate_nodes 1 "urban" (Some [(pattern_type, 1.0%Q)]) w1 = (Ok [node], w2) /\
    mock_intervals node (mock_start w hours) hours api_data.

End ServerVocabulary.

(* ================================================================== *)
(** ** Scripted surroundings

    Concrete instances of the interfaces, for running the engine on explicit
    inputs: random sources that replay a script of numbers, a table of sines,
    two time zones, and a file system with three tables. *)

Module Replay.

Local Open Scope Q_scope.

Definition next (s : list Q) : Q * list Q :=
  match s with
  | [] => (0, [])
  | x :: r => (x, r)
  end.

(** The scripted number when it lies in [[0, 1)], else 0. *)
Definition clamp01 (x : Q) : Q := if andb (leb 0 x) (ltb x 1) then x else 0.

Definition scripted_random (s : list Q) : Q * list Q :=
  (clamp01 (fst (next s)), snd (next s)).

(** The integer part of the scripted number, modulo [n]. *)
Definition scripted_randbelow (n : Z) (s : list Q) : Z * list Q :=
  ((Qfloor (fst (next s)) mod n)%Z, snd (next s)).

Definition scripted_normal (s : list Q) : Q * list Q := next s.

(** The first [n] rows, in order. *)
Definition first_positions (len n : nat) (s : list Q) : list nat * list Q :=
  (seq 0 n, s).

Lemma scripted_random_range :
  forall s, 0 <= fst (scripted_random s) /\ fst (scripted_random s) < 1.
Proof.
  intros s. unfold scripted_random, clamp01, leb, ltb. simpl.
  destruct (Qlt_le_dec (fst (next s)) 0); simpl.
  - split; [apply Qle_refl | reflexivity].
  - destruct (Qlt_le_dec (fst (next s)) 1); simpl.
    + split; assumption.
    + split; [apply Qle_refl | reflexivity].
Qed.

Lemma scripted_randbelow_range :
  forall n s, (0 < n)%Z -> (0 <= fst (scripted_randbelow n s) < n)%Z.
Proof.
  intros n s Hn. unfold scripted_randbelow. simpl.
  apply Z.mod_pos_bound. exact Hn.
Qed.

Lemma first_positions_spec :
  forall len n s, (n <= len)%nat ->
    let l := fst (first_positions len n s) in
    List.length l = n /\ NoDup l /\ Forall (fun i => (i < len)%nat) l.
Proof.
  intros len n s Hn. simpl. split; [apply length_seq | split].
  - apply seq_NoDup.
  - apply Forall_forall. intros i Hi. apply in_seq in Hi. lia.
Qed.

Definition replay_py : PyRandom :=
  {| py_state := list Q;
     random_random := scripted_random;
     randbelow := scripted_randbelow;
     random_random_range := scripted_random_range;
     randbelow_range := scripted_randbelow_range |}.

Definition replay_np : NumpyRandom :=
  {| np_state := list Q;
     random_sample := scripted_random;
     standard_normal := scripted_normal;
     sample_positions := first_positions;
     random_sample_range := scripted_random_range;
     sample_positions_spec := first_positions_spec |}.

Definition replay_fk : Faker :=
  {| fk_state := nat;
     uuid4 := fun k => (("uuid-" ++ str_of_int (Z.of_nat k))%string, S k) |}.

(** [pi] as 355/113 and the sine by its value at the nearest multiple of
    [pi/6], with 0.866 for [sqrt 3 / 2]. *)
Definition table_sin (x : Q) : Q :=
  nth (Z.to_nat (round_half_even (x * 6 / (355 # 113)) mod 12))
      [0; 0.5; 0.866; 1; 0.866; 0.5; 0; -0.5; -0.866; -1; -0.866; -0.5] 0.

Definition replay_libm : Libm :=
  {| math_sin := table_sin; math_pi := 355 # 113 |}.

(** A zone on UTC all year. *)
Definition utc : LocalZone := {| utc_to_wall := fun u => u |}.

(** US Eastern time in 2024: five hours behind UTC, four between
    2024-03-10T07:00:00Z and 2024-11-03T06:00:00Z. *)
Definition eastern : LocalZone :=
  {| utc_to_wall := fun u =>
       (if andb (1710054000 <=? u) (u <? 1730613600) then u - 14400
        else u - 18000)%Z |}.

(** Three small tables. *)
Definition meters_table : DataFrame :=
  {| columns := ["energy_kwh"; "timestamp"; "meter_id"]%string;
     records :=
       [ [FloatCell 0; IntCell 1700000000; StrCell "m1"];
         [FloatCell 4.9996; IntCell 1700003600; StrCell "m2"];
         [FloatCell 1.5; NaN; StrCell "m3"];
         [StrCell "n/a"; IntCell 1700007200; StrCell "m4"];
         [FloatCell 30; StrCell "yesterday"; NaN] ]%string |}.

Definition gaps_table : DataFrame :=
  {| columns := ["kwh"; "when"]%string;
     records := [ [FloatCell 1.5; NaN] ] |}.

Definition narrow_table : DataFrame :=
  {| columns := ["kwh"]%string;
     records := [ [FloatCell 1.5] ] |}.

(** A file system with these three tables and nothing else. *)
Definition replay_pandas : Pandas :=
  {| read_csv := fun path =>
       if String.eqb path "meters.csv" then Ok meters_table
       else if String.eqb path "gaps.csv" then Ok gaps_table
       else if String.eqb path "narrow.csv" then Ok narrow_table
       else Raise OSError;
     float_of_str := fun _ => None;
     to_datetime := fun s =>
       if String.eqb s "2024-01-01" then Some 1704067200 else None;
     str_of_float := format_4f |}.

(** A fresh generator in a world whose clock always reads [now], with the
    given scripts for [random] and [numpy.random]. *)
Definition world (now : Q) (py_script np_script : list Q)
  : @World replay_py replay_np replay_fk :=
  @Build_World replay_py replay_np replay_fk
    {| node_counter := 0; data_counter := 0 |}
    py_script np_script O (fun _ => now) O.

(** An active residential node, an active node under a pattern type that is
    no key of the catalogue, an inactive node, and the midnight that opens
    2024-03-10 on the wall clock: a Sunday, and in US Eastern time the night
    the clocks go forward. *)
Definition home_node : EnergyNode :=
  {| Node.node_id := "node_000000";
     Node.location := "lat:40.7128,lon:-74.0060";
     Node.latitude := 40.7128;
     Node.longitude := -74.0060;
     Node.pattern_type := "residential";
     Node.active := true;
     Node.registered_at := 1709000000;
     Node.multiplier := 1.1;
     Node.density := "very_high" |}.

Definition office_node : EnergyNode :=
  {| Node.node_id := "node_000001";
     Node.location := "lat:40.7128,lon:-74.0060";
     Node.latitude := 40.7128;
     Node.longitude := -74.0060;
     Node.pattern_type := "office";
     Node.active := true;
     Node.registered_at := 1709000000;
     Node.multiplier := 1.1;
     Node.density := "very_high" |}.

Definition idle_node : EnergyNode :=
  {| Node.node_id := "node_000002";
     Node.location := "lat:34.0522,lon:-118.2437";
     Node.latitude := 34.0522;
     Node.longitude := -118.2437;
     Node.pattern_type := "commercial";
     Node.active := false;
     Node.registered_at := 1709000000;
     Node.multiplier := 0.9;
     Node.density := "high" |}.

Definition spring_forward_midnight : datetime := 1710028800%Z.

End Replay.
(* ================================================================== *)
(** ** Scripted surroundings of the server and of the command *)

Module ReplayService.

Import Replay.

(** A disk that takes every file. *)
Definition open_disk : Disk :=
  {| write_points := fun _ _ => Ok tt;
     write_records := fun _ _ => Ok tt |}.

(** A server that has cached nothing yet, in the world of the scripts. *)
Definition fresh_service (now : Q) (py_script np_script : list Q)
  : @Service replay_py replay_np replay_fk :=
  @Build_Service replay_py replay_np replay_fk [] (world now py_script np_script).

(** A distribution whose weights sum to 0.8. *)
Definition short_distribution : dict Q :=
  [ ("residential", 0.5%Q); ("commercial", 0.3%Q) ]%string.

End ReplayService.

(* ================================================================== *)
(** ** Facts about the number model *)

Section NumberFacts.
Local Open Scope Q_scope.

Lemma ltb_true (a b : Q) : ltb a b = true -> a < b.
Proof. unfold ltb. destruct (Qlt_le_dec a b); [trivial | discriminate]. Qed.

Lemma ltb_false (a b : Q) : ltb a b = false -> b <= a.
Proof. unfold ltb. destruct (Qlt_le_dec a b); [discriminate | trivial]. Qed.

Lemma ltb_of_lt (a b : Q) : a < b -> ltb a b = true.
Proof.
  intros H. unfold ltb. destruct (Qlt_le_dec a b) as [_ | Hle]; [reflexivity |].
  exfalso. exact (Qlt_not_le _ _ H Hle).
Qed.

Lemma ltb_of_le (a b : Q) : b <= a -> ltb a b = false.
Proof.
  intros H. unfold ltb. destruct (Qlt_le_dec a b) as [Hlt | _]; [| reflexivity].
  exfalso. exact (Qlt_not_le _ _ Hlt H).
Qed.

Lemma leb_true (a b : Q) : leb a b = true -> a <= b.
Proof. unfold leb. destruct (Qlt_le_dec b a); [discriminate | trivial]. Qed.

Lemma py_max_lower (a b : Q) : a <= py_max a b.
Proof.
  unfold py_max. destruct (Qlt_le_dec a b) as [H | H].
  - apply Qlt_le_weak. exact H.
  - apply Qle_refl.
Qed.

Lemma round_half_even_floor (x : Q) : (Qfloor x <= round_half_even x)%Z.
Proof.
  unfold round_half_even.
  destruct (x - inject_Z (Qfloor x) ?= 1 # 2); [destruct (Z.even (Qfloor x)) | |]; lia.
Qed.

(** Rounding never crosses an integer from above ... *)
Lemma round_half_even_ge (n : Z) (x : Q) :
  inject_Z n <= x -> (n <= round_half_even x)%Z.
Proof.
  intros H. apply Z.le_trans with (Qfloor x); [| apply round_half_even_floor].
  rewrite <- (Qfloor_Z n). apply Qfloor_resp_le. exact H.
Qed.

(** ... nor from below. *)
Lemma round_half_even_le (n : Z) (x : Q) :
  x <= inject_Z n -> (round_half_even x <= n)%Z.
Proof.
  intros H.
  assert (Hf : (Qfloor x <= n)%Z).
  { rewrite <- (Qfloor_Z n). apply Qfloor_resp_le. exact H. }
  destruct (Z.eq_dec (Qfloor x) n) as [He | Hne].
  - assert (Hx : x - inject_Z (Qfloor x) <= 0).
    { rewrite He. lra. }
    unfold round_half_even.
    destruct (x - inject_Z (Qfloor x) ?= 1 # 2) eqn:Hc.
    + apply Qeq_alt in Hc. exfalso. lra.
    + lia.
    + apply Qgt_alt in Hc. exfalso. lra.
  - unfold round_half_even.
    destruct (x - inject_Z (Qfloor x) ?= 1 # 2); [destruct (Z.even (Qfloor x)) | |]; lia.
Qed.

Lemma round3_ge (n : Z) (x : Q) : inject_Z n <= x -> inject_Z n <= round3 x.
Proof.
  intros H. unfold round3.
  assert (Hr : (n * 1000 <= round_half_even (x * 1000))%Z).
  { apply round_half_even_ge. rewrite inject_Z_mult. unfold inject_Z at 2.
    apply Qmult_le_compat_r; [exact H | discriminate]. }
  unfold Qle. simpl. lia.
Qed.

Lemma round3_le (n : Z) (x : Q) : x <= inject_Z n -> round3 x <= inject_Z n.
Proof.
  intros H. unfold round3.
  assert (Hr : (round_half_even (x * 1000) <= n * 1000)%Z).
  { apply round_half_even_le. rewrite inject_Z_mult. unfold inject_Z at 2.
    apply Qmult_le_compat_r; [exact H | discriminate]. }
  unfold Qle. simpl. lia.
Qed.

(** The floor of [0.1] survives the rounding to three decimals. *)
Lemma round3_floor (x : Q) : 0.1 <= x -> 0.1 <= round3 x.
Proof.
  intros H. unfold round3.
  assert (Hr : (100 <= round_half_even (x * 1000))%Z).
  { apply round_half_even_ge. apply Qle_trans with (0.1 * 1000).
    - discriminate.
    - apply Qmult_le_compat_r; [exact H | discriminate]. }
  unfold Qle. simpl. lia.
Qed.

End NumberFacts.

(* ================================================================== *)
(** ** Reasoning about runs *)

Section RunLogic.
Context {pyr : PyRandom} {npr : NumpyRandom} {fkr : Faker}.
Local Open Scope run_scope.

Lemma wp_run {A : Type} (m : M A) (post : A -> World -> Prop) (w : World) :
  wp m post w -> exists a w', m w = (Ok a, w') /\ post a w'.
Proof.
  unfold wp. destruct (m w) as [[a | e] w']; [| contradiction].
  intros H. exists a, w'. split; [reflexivity | exact H].
Qed.

Lemma wlp_run {A : Type} (m : M A) (post : A -> World -> Prop) (w : World) a w' :
  wlp m post w -> m w = (Ok a, w') -> post a w'.
Proof. unfold wlp. intros H E. rewrite E in H. exact H. Qed.

Lemma wp_wlp {A : Type} (m : M A) (post : A -> World -> Prop) (w : World) :
  wp m post w -> wlp m post w.
Proof. unfold wp, wlp. destruct (m w) as [[a | e] w']; [trivial | contradiction]. Qed.

Lemma wp_remember {A : Type} (m : M A) (post : A -> World -> Prop) (w : World) :
  wp m post w -> wp m (fun a w' => m w = (Ok a, w') /\ post a w') w.
Proof.
  unfold wp. destruct (m w) as [[a | e] w']; [| trivial].
  intros H. split; [reflexivity | exact H].
Qed.

Lemma wp_mono {A : Type} (m : M A) (P post : A -> World -> Prop) (w : World) :
  wp m P w -> (forall a w', P a w' -> post a w') -> wp m post w.
Proof. unfold wp. destruct (m w) as [[a | e] w']; auto. Qed.

Lemma wlp_mono {A : Type} (m : M A) (P post : A -> World -> Prop) (w : World) :
  wlp m P w -> (forall a w', P a w' -> post a w') -> wlp m post w.
Proof. unfold wlp. destruct (m w) as [[a | e] w']; auto. Qed.

Lemma wp_ret {A : Type} (a : A) (post : A -> World -> Prop) (w : World) :
  post a w -> wp (ret a) post w.
Proof. trivial. Qed.

Lemma wlp_ret {A : Type} (a : A) (post : A -> World -> Prop) (w : World) :
  post a w -> wlp (ret a) post w.
Proof. trivial. Qed.

Lemma wlp_raise {A : Type} (e : exn) (post : A -> World -> Prop) (w : World) :
  wlp (raise e) post w.
Proof. exact I. Qed.

Lemma wp_bind {A B : Type} (m : M A) (k : A -> M B) (post : B -> World -> Prop) w :
  wp m (fun a w' => wp (k a) post w') w -> wp (bind m k) post w.
Proof. unfold wp, bind. destruct (m w) as [[a | e] w']; trivial. Qed.

Lemma wlp_bind {A B : Type} (m : M A) (k : A -> M B) (post : B -> World -> Prop) w :
  wlp m (fun a w' => wlp (k a) post w') w -> wlp (bind m k) post w.
Proof. unfold wlp, bind. destruct (m w) as [[a | e] w']; trivial. Qed.

(** *** The primitives *)

Lemma wp_get_node_counter (post : Z -> World -> Prop) w :
  post (node_counter (self w)) w -> wp get_node_counter post w.
Proof. trivial. Qed.

Lemma wp_get_data_counter (post : Z -> World -> Prop) w :
  post (data_counter (self w)) w -> wp get_data_counter post w.
Proof. trivial. Qed.

Lemma wp_incr_node_counter (post : unit -> World -> Prop) w :
  (forall w', py w' = py w -> np w' = np w -> post tt w') -> wp incr_node_counter post w.
Proof. intros H. apply H; reflexivity. Qed.

Lemma wp_incr_data_counter (post : unit -> World -> Prop) w :
  (forall w', py w' = py w -> np w' = np w -> post tt w') -> wp incr_data_counter post w.
Proof. intros H. apply H; reflexivity. Qed.

Lemma wp_time_time (post : Q -> World -> Prop) w :
  (forall w', py w' = py w -> np w' = np w -> post (wallclock w (ticks w)) w') ->
  wp time_time post w.
Proof. intros H. apply H; reflexivity. Qed.

Lemma wp_py_random (post : Q -> World -> Prop) w :
  (forall x w', (0 <= x)%Q -> (x < 1)%Q -> np w' = np w -> post x w') ->
  wp py_random post w.
Proof.
  intros H. unfold wp, py_random.
  pose proof (random_random_range (py w)) as [H0 H1].
  destruct (random_random (py w)) as [x s]. apply H; trivial.
Qed.

Lemma wp_py_randbelow (n : Z) (post : Z -> World -> Prop) w :
  0 < n ->
  (forall x w', 0 <= x < n -> np w' = np w -> post x w') ->
  wp (py_randbelow n) post w.
Proof.
  intros Hn H. unfold wp, py_randbelow.
  pose proof (randbelow_range n (py w) Hn) as Hr.
  destruct (randbelow n (py w)) as [x s]. apply H; trivial.
Qed.

Lemma wp_py_randint (a b : Z) (post : Z -> World -> Prop) w :
  a <= b ->
  (forall x w', a <= x <= b -> np w' = np w -> post x w') ->
  wp (py_randint a b) post w.
Proof.
  intros Hab H. unfold py_randint.
  destruct (0 <? b - a + 1) eqn:E; [| apply Z.ltb_ge in E; lia].
  apply wp_bind. apply wp_py_randbelow; [lia |].
  intros x w' Hx Hnp. apply wp_ret. apply H; [lia | exact Hnp].
Qed.

Lemma wp_py_choice {A : Type} (seq : list A) (post : A -> World -> Prop) w :
  seq <> [] ->
  (forall x w', In x seq -> np w' = np w -> post x w') ->
  wp (py_choice seq) post w.
Proof.
  intros Hne H. unfold py_choice. destruct seq as [| y r] eqn:E; [contradiction |].
  rewrite <- E in *. apply wp_bind. apply wp_py_randbelow.
  - rewrite E. simpl List.length. lia.
  - intros i w' Hi Hnp.
    destruct (nth_error seq (Z.to_nat i)) as [x |] eqn:En.
    + apply wp_ret. apply H; [| exact Hnp]. eapply nth_error_In. exact En.
    + apply nth_error_None in En. lia.
Qed.

Lemma wp_np_random_sample (post : Q -> World -> Prop) w :
  (forall x w', (0 <= x)%Q -> (x < 1)%Q -> py w' = py w -> post x w') ->
  wp np_random_sample post w.
Proof.
  intros H. unfold wp, np_random_sample.
  pose proof (random_sample_range (np w)) as [H0 H1].
  destruct (random_sample (np w)) as [x s]. apply H; trivial.
Qed.

(** [uniform(low, high)] stays between its bounds. *)
Lemma wp_np_uniform (low high : Q) (post : Q -> World -> Prop) w :
  (low <= high)%Q ->
  (forall x w', (low <= x)%Q -> (x <= high)%Q -> py w' = py w -> post x w') ->
  wp (np_uniform low high) post w.
Proof.
  intros Hlh H. unfold np_uniform. apply wp_bind. apply wp_np_random_sample.
  intros u w' H0 H1 Hpy. apply wp_ret. apply H; [nra | nra | exact Hpy].
Qed.

(** [normal(loc, scale)] returns for a scale that is not negative; the
    deviate is the next one of the numpy state. *)
Lemma wp_np_normal (loc scale : Q) (post : Q -> World -> Prop) w :
  (0 <= scale)%Q ->
  (forall w', py w' = py w -> np w' = snd (standard_normal (np w)) ->
              self w' = self w ->
              post (loc + scale * fst (standard_normal (np w)))%Q w') ->
  wp (np_normal loc scale) post w.
Proof.
  intros Hs H. unfold np_normal. rewrite (ltb_of_le _ _ Hs).
  unfold wp. destruct (standard_normal (np w)) as [g s]. apply H; reflexivity.
Qed.

Lemma wp_fake_uuid4 (post : string -> World -> Prop) w :
  (forall x w', post x w') -> wp fake_uuid4 post w.
Proof.
  intros H. unfold wp, fake_uuid4. destruct (uuid4 (fk w)) as [x s]. apply H.
Qed.

(** *** Loops *)

(** A loop returns the concatenation of what its rounds return, round by
    round. *)
Lemma wp_for_each {A B : Type} (R : A -> list B -> Prop)
    (xs : list A) (body : A -> M (list B)) :
  (forall x, In x xs -> forall w, wp (body x) (fun ys _ => R x ys) w) ->
  forall w, wp (for_each xs body)
               (fun ys _ => exists yss, ys = List.concat yss /\ Forall2 R xs yss) w.
Proof.
  induction xs as [| x r IH]; intros Hbody w.
  - apply wp_ret. exists []. split; [reflexivity | constructor].
  - simpl. apply wp_bind. eapply wp_mono; [apply Hbody; left; reflexivity |].
    intros ys w1 Hys. apply wp_bind.
    eapply wp_mono; [apply IH; intros; apply Hbody; right; assumption |].
    intros zs w2 [yss [Hzs Hall]]. apply wp_ret.
    exists (ys :: yss). split; [simpl; rewrite Hzs; reflexivity |].
    constructor; assumption.
Qed.

Lemma wlp_for_each {A B : Type} (R : A -> list B -> Prop)
    (xs : list A) (body : A -> M (list B)) :
  (forall x, In x xs -> forall w, wlp (body x) (fun ys _ => R x ys) w) ->
  forall w, wlp (for_each xs body)
                (fun ys _ => exists yss, ys = List.concat yss /\ Forall2 R xs yss) w.
Proof.
  induction xs as [| x r IH]; intros Hbody w.
  - apply wlp_ret. exists []. split; [reflexivity | constructor].
  - simpl. apply wlp_bind. eapply wlp_mono; [apply Hbody; left; reflexivity |].
    intros ys w1 Hys. apply wlp_bind.
    eapply wlp_mono; [apply IH; intros; apply Hbody; right; assumption |].
    intros zs w2 [yss [Hzs Hall]]. apply wlp_ret.
    exists (ys :: yss). split; [simpl; rewrite Hzs; reflexivity |].
    constructor; assumption.
Qed.

End RunLogic.

Lemma Forall2_concat_Forall {A B : Type} (P : B -> Prop) (xs : list A)
    (yss : list (list B)) :
  Forall2 (fun _ ys => Forall P ys) xs yss -> Forall P (List.concat yss).
Proof.
  induction 1 as [| x ys xs' yss' H _ IH]; simpl.
  - constructor.
  - apply Forall_app. split; assumption.
Qed.

Lemma Forall2_singletons {A B : Type} (R : A -> B -> Prop) (xs : list A)
    (yss : list (list B)) :
  Forall2 (fun x ys => exists y, ys = [y] /\ R x y) xs yss ->
  Forall2 R xs (List.concat yss).
Proof.
  induction 1 as [| x ys xs' yss' [y [E H]] _ IH]; simpl.
  - constructor.
  - subst ys. simpl. constructor; assumption.
Qed.

(* ================================================================== *)
(** ** Facts about the calendar and the catalogues *)

Section CalendarFacts.

(** From a midnight, the first 24 hours are the hours 0..23 of one day. *)
Lemma hour_of_midnight (start h : Z) :
  start mod 86400 = 0 -> 0 <= h < 24 -> hour_of (add_hours start h) = h.
Proof.
  intros Hm Hh. unfold hour_of, add_hours.
  Z.to_euclidean_division_equations. lia.
Qed.

Lemma days_of_midnight (start h : Z) :
  start mod 86400 = 0 -> 0 <= h < 24 -> days_of (add_hours start h) = days_of start.
Proof.
  intros Hm Hh. unfold days_of, add_hours.
  Z.to_euclidean_division_equations. lia.
Qed.

Context {zone : LocalZone}.

(** In a zone with one UTC offset all year, [timestamp] subtracts it. *)
Lemma timestamp_constant_offset (off t : Z) :
  (forall u, utc_to_wall u = u + off) -> timestamp t = t - off.
Proof.
  intros H. unfold timestamp. cbv zeta. rewrite !H.
  replace (t - (t + off - t) + off) with t by lia.
  replace (t - (t + off - t) - 86400 + off - (t - (t + off - t) - 86400)) with off by lia.
  replace (t + off - t) with off by lia.
  rewrite !Z.eqb_refl. reflexivity.
Qed.

Lemma fromtimestamp_constant_offset (off t : Z) :
  (forall u, utc_to_wall u = u + off) -> fromtimestamp (timestamp t) = t.
Proof.
  intros H. rewrite (timestamp_constant_offset off t H). unfold fromtimestamp.
  rewrite H. lia.
Qed.

End CalendarFacts.

Section CatalogueFacts.
Local Open Scope Q_scope.

Lemma locations_well_formed :
  Forall (fun entry => Forall area_well_formed (snd entry)) _initialize_locations.
Proof.
  repeat constructor; simpl; discriminate.
Qed.

Lemma urban_areas_well_formed : Forall area_well_formed urban_areas.
Proof.
  pose proof locations_well_formed as H. inversion H as [| ? ? H1 _]. exact H1.
Qed.

Lemma urban_areas_not_empty : urban_areas <> [].
Proof. discriminate. Qed.

Lemma dict_get_In {V : Type} (d : dict V) (k : string) (v : V) :
  dict_get d k = Some v -> In (k, v) d.
Proof.
  induction d as [| [k' v'] r IH]; simpl; [discriminate |].
  destruct (String.eqb_spec k k') as [E | _].
  - intros H. injection H as H. subst. left. reflexivity.
  - intros H. right. apply IH. exact H.
Qed.

Lemma selected_areas_well_formed (location_pattern : string) :
  Forall area_well_formed (selected_areas location_pattern).
Proof.
  unfold selected_areas.
  destruct (dict_get _initialize_locations location_pattern) as [a |] eqn:E.
  - apply dict_get_In in E.
    pose proof locations_well_formed as H. rewrite Forall_forall in H.
    exact (H _ E).
  - exact urban_areas_well_formed.
Qed.

Lemma selected_areas_not_empty (location_pattern : string) :
  selected_areas location_pattern <> [].
Proof.
  unfold selected_areas.
  destruct (dict_get _initialize_locations location_pattern) as [a |] eqn:E.
  - apply dict_get_In in E. simpl in E.
    destruct E as [E | [E | [E | []]]]; injection E as _ E; subst a; discriminate.
  - discriminate.
Qed.

(** No catalogued pattern has a negative noise level. *)
Lemma patterns_noise (key : string) (p : UsagePattern) :
  dict_get _initialize_patterns key = Some p -> 0 <= noise_level p.
Proof.
  intros H. apply dict_get_In in H. simpl in H.
  repeat (destruct H as [H | H]; [injection H as _ H; subst p; discriminate |]).
  contradiction.
Qed.

End CatalogueFacts.

(* ================================================================== *)
(** ** Facts about the synthetic series *)

Section SeriesFacts.
Context {pyr : PyRandom} {npr : NumpyRandom} {fkr : Faker}.
Context {libm : Libm} {zone : LocalZone} {pandas : Pandas}.
Local Open Scope run_scope.

Lemma wp_generate_node_hour node pattern start ap h w :
  (0 <= noise_level pattern)%Q ->
  wp (generate_node_hour node pattern start ap h)
     (fun p _ => hour_point node start h p) w.
Proof.
  intros Hnoise. unfold generate_node_hour. cbv zeta.
  apply wp_bind. apply wp_np_normal; [exact Hnoise |]. intros w1 _ _ _.
  apply wp_bind. apply wp_py_random. intros r w2 _ _ _.
  apply wp_bind.
  apply wp_mono with (P := fun _ _ => True).
  - destruct (ltb r ap); [| apply wp_ret; exact I].
    apply wp_bind. apply wp_np_uniform; [discriminate |]. intros low w3 _ _ _.
    apply wp_bind. apply wp_np_uniform; [discriminate |]. intros high w4 _ _ _.
    apply wp_bind. apply wp_py_choice; [discriminate |]. intros f w5 _ _.
    apply wp_ret. exact I.
  - intros kwh w3 _. apply wp_bind. apply wp_get_data_counter.
    apply wp_bind. apply wp_incr_data_counter. intros w4 _ _.
    apply wp_ret. unfold hour_point. simpl.
    repeat (split; [reflexivity |]).
    apply round3_floor. apply py_max_lower.
Qed.

Lemma wp_generate_node_time_series node pattern start d ap w :
  (0 <= noise_level pattern)%Q ->
  wp (_generate_node_time_series node pattern start d ap)
     (fun s _ => Forall2 (hour_point node start) (range d) s) w.
Proof.
  intros Hnoise. unfold _generate_node_time_series.
  eapply wp_mono.
  - apply (wp_for_each (fun h ys => exists y, ys = [y] /\ hour_point node start h y)).
    intros h _ w0. apply wp_bind.
    eapply wp_mono; [apply wp_generate_node_hour; exact Hnoise |].
    intros p w1 Hp. apply wp_ret. exists p. split; [reflexivity | exact Hp].
  - intros s w1 [yss [E H]]. subst s. apply Forall2_singletons. exact H.
Qed.

(** With known patterns the series are generated, node after node. *)
Lemma wp_generate_time_series nodes start d ap w :
  patterns_known nodes ->
  wp (generate_time_series nodes start d ap)
     (fun pts _ => exists series,
          pts = List.concat series /\ Forall2 (node_series start d) nodes series) w.
Proof.
  intros Hk. unfold generate_time_series. apply wp_for_each.
  intros node Hin w0. unfold patterns_known in Hk. rewrite Forall_forall in Hk.
  specialize (Hk node Hin). unfold node_series.
  destruct (Node.active node); cbn [negb].
  - destruct (dict_get patterns (Node.pattern_type node)) as [pattern |] eqn:E.
    + apply wp_generate_node_time_series. exact (patterns_noise _ _ E).
    + exfalso. apply Hk; reflexivity.
  - apply wp_ret. reflexivity.
Qed.

(** Whatever the nodes, a run that returns has returned such series. *)
Lemma wlp_generate_time_series nodes start d ap w :
  wlp (generate_time_series nodes start d ap)
      (fun pts _ => exists series,
           pts = List.concat series /\ Forall2 (node_series start d) nodes series) w.
Proof.
  unfold generate_time_series. apply wlp_for_each.
  intros node Hin w0. unfold node_series.
  destruct (Node.active node); cbn [negb].
  - destruct (dict_get patterns (Node.pattern_type node)) as [pattern |] eqn:E.
    + apply wp_wlp. apply wp_generate_node_time_series. exact (patterns_noise _ _ E).
    + apply wlp_raise.
  - apply wlp_ret. reflexivity.
Qed.

(** A property of every point of every hour holds of all the points. *)
Lemma node_series_Forall (P : EnergyDataPoint -> Prop) start d nodes series :
  (forall node h p, In node nodes -> In h (range d) -> hour_point node start h p -> P p) ->
  Forall2 (node_series start d) nodes series ->
  Forall P (List.concat series).
Proof.
  intros HP H. induction H as [| node s nodes' series' Hs _ IH]; simpl.
  - constructor.
  - apply Forall_app. split.
    + unfold node_series in Hs. destruct (Node.active node); [| subst s; constructor].
      assert (Hgen : forall hs, (forall h, In h hs -> In h (range d)) ->
                                Forall2 (hour_point node start) hs s -> Forall P s).
      { clear Hs. intros hs Hh Hs.
        induction Hs as [| h p hs' s' Hp _ IHs]; constructor.
        - apply (HP node h p); [left; reflexivity | apply Hh; left; reflexivity | exact Hp].
        - apply IHs. intros h' Hin. apply Hh. right. exact Hin. }
      apply (Hgen (range d)); [trivial | exact Hs].
    + apply IH. intros node' h p Hin. apply HP. right. exact Hin.
Qed.

Lemma in_range (d h : Z) : In h (range d) <-> 0 <= h < d.
Proof.
  unfold range. rewrite in_map_iff. split.
  - intros [k [E Hk]]. apply in_seq in Hk. lia.
  - intros H. exists (Z.to_nat h). split; [lia | apply in_seq; lia].
Qed.

Lemma length_range (d : Z) : List.length (range d) = Z.to_nat d.
Proof. unfold range. rewrite length_map, length_seq. reflexivity. Qed.

(** In a zone of constant offset the timestamps of the hours are 3600
    seconds apart. *)
Lemma hour_points_timestamps (off : Z) node start hs s :
  (forall u, utc_to_wall u = u + off) ->
  Forall2 (hour_point node start) hs s ->
  map Point.timestamp s = map (fun h => timestamp start + 3600 * h) hs.
Proof.
  intros Hoff H. induction H as [| h p hs' s' Hp _ IH]; [reflexivity |].
  cbn [map]. rewrite IH. f_equal.
  destruct Hp as [_ [_ [_ [Ht _]]]]. rewrite Ht.
  rewrite (timestamp_constant_offset off (add_hours start h) Hoff).
  rewrite (timestamp_constant_offset off start Hoff).
  unfold add_hours. lia.
Qed.

End SeriesFacts.

(* ================================================================== *)
(** ** Facts about the weighted choice and the nodes *)

Section ChoiceFacts.
Local Open Scope Q_scope.

Lemma cumsum_from_not_empty (acc : Q) (p : list Q) :
  p <> [] -> cumsum_from acc p <> [].
Proof. destruct p; [contradiction | discriminate]. Qed.

Lemma length_cumsum_from (acc : Q) (p : list Q) :
  List.length (cumsum_from acc p) = List.length p.
Proof.
  revert acc. induction p as [| x r IH]; intros acc; simpl; [reflexivity |].
  rewrite IH. reflexivity.
Qed.

(** The last entry of the running sums is the total. *)
Lemma last_cumsum_from (acc : Q) (p : list Q) :
  p <> [] -> last (cumsum_from acc p) 0 == acc + sum_Q p.
Proof.
  revert acc. induction p as [| x r IH]; intros acc Hne; [contradiction |].
  destruct r as [| y r'].
  - simpl. ring.
  - change (cumsum_from acc (x :: y :: r'))
      with ((acc + x) :: cumsum_from (acc + x) (y :: r')).
    assert (Hc : cumsum_from (acc + x) (y :: r') <> []) by discriminate.
    destruct (cumsum_from (acc + x) (y :: r')) as [| c cs] eqn:E; [contradiction |].
    change (last ((acc + x) :: c :: cs) 0) with (last (c :: cs) 0).
    rewrite <- E. rewrite IH by discriminate.
    simpl. ring.
Qed.

Lemma last_In {A : Type} (l : list A) (d : A) : l <> [] -> In (last l d) l.
Proof.
  induction l as [| x r IH]; [contradiction |]. intros _.
  destruct r as [| y r'].
  - left. reflexivity.
  - right. apply IH. discriminate.
Qed.

(** The search stops before the end when some entry exceeds [u]. *)
Lemma searchsorted_right_bound (cdf : list Q) (u : Q) :
  (exists c, In c cdf /\ u < c) ->
  (searchsorted_right cdf u < List.length cdf)%nat.
Proof.
  induction cdf as [| c r IH]; intros [c' [Hin Hlt]]; [contradiction |].
  simpl. destruct (ltb u c) eqn:E; [lia |].
  destruct Hin as [-> | Hin].
  - apply ltb_false in E. exfalso. exact (Qlt_not_le _ _ Hlt E).
  - apply -> Nat.succ_lt_mono. apply IH. exists c'. split; assumption.
Qed.

Lemma probabilities_ok_sum (p : list Q) :
  probabilities_ok p = true -> 0 < sum_Q p.
Proof.
  unfold probabilities_ok. intros H. apply andb_prop in H. destruct H as [_ H].
  apply leb_true in H. apply Qabs_Qle_condition in H. destruct H as [H _].
  unfold atol in H.
  apply Qlt_le_trans with (1 - (1 # 67108864)); [reflexivity |]. lra.
Qed.

End ChoiceFacts.

Section NodeFacts.
Context {pyr : PyRandom} {npr : NumpyRandom} {fkr : Faker}.
Context {libm : Libm} {zone : LocalZone} {pandas : Pandas}.
Local Open Scope run_scope.

Lemma default_pattern_distribution_valid :
  valid_distribution default_pattern_distribution.
Proof. split; [discriminate | reflexivity]. Qed.

(** On a valid distribution the weighted choice returns one of the keys. *)
Lemma wp_np_choice (d : dict Q) (post : string -> World -> Prop) w :
  valid_distribution d ->
  (forall k w', In k (keys d) -> py w' = py w -> post k w') ->
  wp (np_choice (keys d) (values d)) post w.
Proof.
  intros [Hne Hok] H. unfold np_choice.
  destruct (keys d) as [| k0 ks] eqn:Ek.
  { destruct d; [contradiction | discriminate]. }
  rewrite <- Ek.
  assert (Hlen : List.length (values d) = List.length (keys d)).
  { unfold values, keys. rewrite !length_map. reflexivity. }
  rewrite Hlen, Nat.eqb_refl, Hok. cbn [negb].
  apply wp_bind. apply wp_np_random_sample. intros u w' _ Hu Hpy.
  assert (Hp : values d <> []).
  { intros E. rewrite E in Hlen. rewrite Ek in Hlen. discriminate. }
  set (cdf := cumsum_from 0%Q (values d)).
  assert (Hs : (0 < last cdf 0)%Q).
  { unfold cdf. rewrite (last_cumsum_from 0 _ Hp).
    pose proof (probabilities_ok_sum _ Hok). lra. }
  assert (Hb : (searchsorted_right (map (fun c => (c / last cdf 0)%Q) cdf) u
                < List.length (keys d))%nat).
  { rewrite <- Hlen, <- (length_cumsum_from 0 (values d)).
    fold cdf. rewrite <- (length_map (fun c => (c / last cdf 0)%Q) cdf).
    apply searchsorted_right_bound. exists (last cdf 0 / last cdf 0)%Q. split.
    - apply (in_map (fun c => (c / last cdf 0)%Q)). apply last_In.
      unfold cdf. apply cumsum_from_not_empty. exact Hp.
    - assert (E1 : (last cdf 0 / last cdf 0 == 1)%Q) by (field; lra).
      rewrite E1. exact Hu. }
  destruct (nth_error (keys d) _) as [k |] eqn:En.
  - apply wp_ret. apply H; [rewrite <- Ek; eapply nth_error_In; exact En | exact Hpy].
  - apply nth_error_None in En. lia.
Qed.

Lemma wp_generate_node (areas : list Area) (d : dict Q) w :
  areas <> [] -> Forall area_well_formed areas -> valid_distribution d ->
  wp (generate_node areas d) (fun node _ => node_placed areas node) w.
Proof.
  intros Hne Hwf Hd. unfold generate_node.
  apply wp_bind. apply wp_np_choice; [exact Hd |]. intros pattern_type w1 _ _.
  apply wp_bind. apply wp_py_choice; [exact Hne |]. intros area w2 Harea _.
  rewrite Forall_forall in Hwf. destruct (Hwf area Harea) as [Hl1 [Hl2 [Hl3 Hl4]]].
  apply wp_bind. apply wp_np_uniform; [lra |]. intros lat w3 Hlat1 Hlat2 _.
  apply wp_bind. apply wp_np_uniform; [lra |]. intros lon w4 Hlon1 Hlon2 _.
  cbv zeta.
  apply wp_bind. apply wp_get_node_counter.
  apply wp_bind. apply wp_py_random. intros r w5 _ _ _.
  apply wp_bind. apply wp_time_time. intros w6 _ _.
  apply wp_bind. apply wp_py_randint; [lia |]. intros age w7 _ _.
  apply wp_bind. apply wp_np_uniform; [discriminate |]. intros m w8 Hm1 Hm2 _.
  apply wp_bind. apply wp_incr_node_counter. intros w9 _ _.
  apply wp_ret. exists area. unfold inside_area. simpl.
  split; [exact Harea | split; [reflexivity |]].
  destruct (String.eqb pattern_type "commercial"); repeat split; trivial; lra.
Qed.

Lemma Forall2_right {A B : Type} (P : B -> Prop) (xs : list A) (ys : list B) :
  Forall2 (fun _ y => P y) xs ys -> Forall P ys.
Proof. induction 1; constructor; assumption. Qed.

(** On a valid distribution [generate_nodes] returns [count] placed nodes
    (none for a negative [count]). *)
Lemma wp_generate_nodes (count : Z) (location_pattern : string)
    (distribution : option (dict Q)) w :
  match distribution with
  | Some d => valid_distribution d
  | None => True
  end ->
  wp (generate_nodes count location_pattern distribution)
     (fun nodes _ => List.length nodes = Z.to_nat count /\
                     Forall (node_placed (selected_areas location_pattern)) nodes) w.
Proof.
  intros Hd. unfold generate_nodes.
  change (match dict_get metropolitan_areas location_pattern with
          | Some a => a
          | None => urban_areas
          end) with (selected_areas location_pattern).
  set (d := match distribution with
            | Some d => d
            | None => default_pattern_distribution
            end).
  assert (Hv : valid_distribution d).
  { unfold d. destruct distribution; [exact Hd | exact default_pattern_distribution_valid]. }
  eapply wp_mono.
  - apply (wp_for_each (fun _ ys => exists y, ys = [y]
                                  /\ node_placed (selected_areas location_pattern) y)).
    intros i _ w0. apply wp_bind. eapply wp_mono.
    + apply wp_generate_node;
        [apply selected_areas_not_empty | apply selected_areas_well_formed | exact Hv].
    + intros node w1 Hn. apply wp_ret. exists node. split; [reflexivity | exact Hn].
  - intros nodes w1 [yss [E H]]. subst nodes.
    apply Forall2_singletons in H. split.
    + rewrite <- (Forall2_length H). apply length_range.
    + exact (Forall2_right _ _ _ H).
Qed.

(** On any other distribution the weighted choice raises [ValueError]. *)
Lemma np_choice_invalid (d : dict Q) w :
  ~ valid_distribution d ->
  np_choice (keys d) (values d) w = (Raise ValueError, w).
Proof.
  intros Hd. unfold np_choice. destruct d as [| [k x] r]; [reflexivity |].
  cbn [keys values map fst snd List.length]. rewrite !length_map, Nat.eqb_refl.
  cbn [negb].
  destruct (probabilities_ok (x :: map snd r)) eqn:E; [| reflexivity].
  exfalso. apply Hd. split; [discriminate | exact E].
Qed.

Lemma valid_distribution_dec (d : dict Q) :
  {valid_distribution d} + {~ valid_distribution d}.
Proof.
  unfold valid_distribution. destruct d as [| e r].
  - right. intros [H _]. apply H. reflexivity.
  - destruct (probabilities_ok (values (e :: r))) eqn:E.
    + left. split; [discriminate | reflexivity].
    + right. intros [_ H]. discriminate H.
Qed.

(** Whatever the distribution, a node that is returned is placed. *)
Lemma wlp_generate_node (areas : list Area) (d : dict Q) w :
  areas <> [] -> Forall area_well_formed areas ->
  wlp (generate_node areas d) (fun node _ => node_placed areas node) w.
Proof.
  intros Hne Hwf. destruct (valid_distribution_dec d) as [Hd | Hd].
  - apply wp_wlp. apply wp_generate_node; assumption.
  - unfold wlp, generate_node, bind. rewrite (np_choice_invalid d w Hd). exact I.
Qed.

Lemma wlp_generate_nodes (count : Z) (location_pattern : string)
    (distribution : option (dict Q)) w :
  wlp (generate_nodes count location_pattern distribution)
      (fun nodes _ => Forall (node_placed (selected_areas location_pattern)) nodes) w.
Proof.
  unfold generate_nodes.
  change (match dict_get metropolitan_areas location_pattern with
          | Some a => a
          | None => urban_areas
          end) with (selected_areas location_pattern).
  cbv zeta. eapply wlp_mono.
  - apply (wlp_for_each (fun _ ys => Forall (node_placed (selected_areas location_pattern)) ys)).
    intros i _ w0. apply wlp_bind. eapply wlp_mono.
    + apply wlp_generate_node;
        [apply selected_areas_not_empty | apply selected_areas_well_formed].
    + intros node w1 Hn. apply wlp_ret. constructor; [exact Hn | constructor].
  - intros nodes w1 [yss [-> H]]. exact (Forall2_concat_Forall _ _ _ H).
Qed.

End NodeFacts.

(* ================================================================== *)
(** ** The one-day scenario of a residential node *)

Section Scenario.
Context {pyr : PyRandom} {npr : NumpyRandom} {fkr : Faker}.
Context {libm : Libm} {zone : LocalZone} {pandas : Pandas}.
Local Open Scope run_scope.

Lemma residential_peak_hours (h : Z) :
  existsb (Z.eqb h) [18; 19; 20; 21] = andb (18 <=? h) (h <=? 21).
Proof.
  simpl.
  destruct (Z.eqb_spec h 18), (Z.eqb_spec h 19), (Z.eqb_spec h 20),
    (Z.eqb_spec h 21), (Z.leb_spec 18 h), (Z.leb_spec h 21);
    simpl; try reflexivity; lia.
Qed.

Lemma wp_scenario_hour node pattern start h w :
  dict_get patterns "residential" = Some pattern ->
  start mod 86400 = 0 -> 0 <= h < 24 ->
  wp (generate_node_hour node pattern start 0 h)
     (fun p w' =>
        Point.anomaly p = false /\
        Point.kwh p = scenario_kwh node start h
                        (residential_noise (fst (standard_normal (np w)))) /\
        np w' = snd (standard_normal (np w))) w.
Proof.
  intros Hp Hm Hh. injection Hp as Hp. subst pattern.
  unfold generate_node_hour. cbv zeta.
  cbn [peak_kwh baseline_kwh peak_hours weekend_multiplier seasonal_variation
       noise_level].
  apply wp_bind. apply wp_np_normal; [discriminate |]. intros w1 _ Hnp1 _.
  apply wp_bind. apply wp_py_random. intros r w2 Hr _ Hnp2.
  rewrite (ltb_of_le r 0 Hr).
  apply wp_bind. apply wp_ret.
  apply wp_bind. apply wp_get_data_counter.
  apply wp_bind. apply wp_incr_data_counter. intros w3 _ Hnp3.
  apply wp_ret. cbn [Point.anomaly Point.kwh].
  split; [reflexivity | split].
  - unfold scenario_kwh, residential_noise, weekday_of, month_of. cbv zeta.
    rewrite (hour_of_midnight start h Hm Hh).
    rewrite (days_of_midnight start h Hm Hh).
    rewrite residential_peak_hours. reflexivity.
  - rewrite Hnp3, Hnp2, Hnp1. reflexivity.
Qed.

Lemma wp_scenario_hours node pattern start hs :
  dict_get patterns "residential" = Some pattern ->
  start mod 86400 = 0 -> Forall (fun h => 0 <= h < 24) hs ->
  forall w,
    wp (for_each hs (fun hour =>
          data_point <- generate_node_hour node pattern start 0 hour ;;
          ret [data_point]))
       (fun pts _ =>
          List.length pts = List.length hs /\
          Forall (fun p => Point.anomaly p = false) pts /\
          map Point.kwh pts =
            map (fun hg => scenario_kwh node start (fst hg) (residential_noise (snd hg)))
                (combine hs (normal_deviates (List.length hs) (np w)))) w.
Proof.
  intros Hp Hm Hhs. induction Hhs as [| h r Hh _ IH]; intros w.
  - apply wp_ret. repeat split; constructor.
  - cbn [for_each]. apply wp_bind. apply wp_bind.
    eapply wp_mono; [apply (wp_scenario_hour node pattern start h w Hp Hm Hh) |].
    intros p w1 [Ha [Hk Hnp]]. apply wp_ret. apply wp_bind.
    eapply wp_mono; [apply IH |].
    intros zs w2 [Hlen [Hall Hmap]]. apply wp_ret.
    cbn [app List.length normal_deviates combine map fst snd].
    rewrite Hlen, Hk, Hmap, Hnp. repeat split.
    constructor; assumption.
Qed.

End Scenario.

(* ================================================================== *)
(** ** Facts about the merge *)

Section MergeFacts.
Context {pyr : PyRandom} {npr : NumpyRandom} {fkr : Faker}.
Context {libm : Libm} {zone : LocalZone} {pandas : Pandas}.
Local Open Scope run_scope.

Lemma wp_fallback_timestamp w :
  wp fallback_timestamp
     (fun r _ => exists age, 0 <= age <= 86400 * 365
                             /\ r = Some (py_int (wallclock w (ticks w)) - age)) w.
Proof.
  unfold fallback_timestamp.
  apply wp_bind. apply wp_time_time. intros w1 _ _.
  apply wp_bind. apply wp_py_randint; [lia |]. intros age w2 Hage _.
  apply wp_ret. exists age. split; [exact Hage | reflexivity].
Qed.

Lemma wp_safe_extract_timestamp (row : Series) (column : string) w :
  wp (_safe_extract_timestamp row column)
     (fun r _ => match dict_get row column with
                 | Some NaN => r = None
                 | c => exists t, r = Some t /\ row_timestamp c w t
                 end) w.
Proof.
  unfold _safe_extract_timestamp.
  destruct (dict_get row column) as [[| z | x | s] |]; simpl.
  - apply wp_ret. reflexivity.
  - apply wp_ret. eexists. split; reflexivity.
  - apply wp_ret. eexists. split; reflexivity.
  - destruct (to_datetime s) as [x |].
    + apply wp_ret. eexists. split; reflexivity.
    + eapply wp_mono; [apply wp_fallback_timestamp |].
      intros r w' [age [Hage E]]. eexists. split; [exact E |].
      exists age. split; [exact Hage | reflexivity].
  - eapply wp_mono; [apply wp_fallback_timestamp |].
    intros r w' [age [Hage E]]. eexists. split; [exact E |].
    exists age. split; [exact Hage | reflexivity].
Qed.

Lemma wp_safe_extract_string (row : Series) (column : string) w :
  wp (_safe_extract_string row column) (fun _ _ => True) w.
Proof.
  unfold _safe_extract_string.
  destruct (dict_get row column) as [[| z | x | s] |];
    first [apply wp_ret; exact I | apply wp_fake_uuid4; trivial].
Qed.

Lemma wp_generate_realistic_location w :
  wp _generate_realistic_location (fun _ _ => True) w.
Proof.
  unfold _generate_realistic_location.
  apply wp_bind. apply wp_py_choice; [exact urban_areas_not_empty |].
  intros area w1 Harea _.
  pose proof urban_areas_well_formed as Hwf. rewrite Forall_forall in Hwf.
  destruct (Hwf area Harea) as [Hl1 [Hl2 [Hl3 Hl4]]].
  apply wp_bind. apply wp_np_uniform; [lra |]. intros lat w2 _ _ _.
  apply wp_bind. apply wp_np_uniform; [lra |]. intros lon w3 _ _ _.
  apply wp_ret. exact I.
Qed.

(** The loop body on a table whose first two columns exist. *)
Lemma wp_merge_row (df : DataFrame) (row : Series) (c0 c1 : string) w :
  nth_error (columns df) 0 = Some c0 -> nth_error (columns df) 1 = Some c1 ->
  wp (merge_row df (detect_columns (columns df)) row)
     (fun pts _ => row_result df row w pts) w.
Proof.
  intros E0 E1. unfold merge_row, column_at. rewrite E0, E1.
  apply wp_bind. apply wp_ret. apply wp_bind. apply wp_ret.
  unfold row_result, row_emitted, energy_column, timestamp_column.
  rewrite (nth_error_nth _ _ ""%string E0), (nth_error_nth _ _ ""%string E1).
  set (ecol := get_default (detect_columns (columns df)) "energy" c0).
  set (tcol := get_default (detect_columns (columns df)) "timestamp" c1).
  apply wp_bind. eapply wp_mono; [apply wp_safe_extract_timestamp |].
  intros ts w1 Hts.
  apply wp_bind. eapply wp_mono; [apply wp_safe_extract_string |].
  intros meter_id w2 _.
  destruct (_safe_extract_numeric row ecol) as [kwh |] eqn:Ek.
  - destruct (dict_get row tcol) as [[| z | x | s] |];
      try (subst ts; apply wp_ret; reflexivity);
      destruct Hts as [t [-> Ht]];
      (apply wp_bind; eapply wp_mono; [apply wp_generate_realistic_location |];
       intros loc w3 _;
       apply wp_bind; apply wp_np_uniform; [discriminate |];
       intros factor w4 Hf1 Hf2 _; cbv zeta;
       apply wp_bind; apply wp_get_data_counter;
       apply wp_bind; apply wp_incr_data_counter; intros w5 _ _;
       apply wp_ret; eexists; split; [reflexivity |]; split;
       [exists kwh, factor; unfold energy_column;
        rewrite (nth_error_nth _ _ ""%string E0); fold ecol; simpl;
        repeat split; assumption | exact Ht]).
  - destruct ts; apply wp_ret; reflexivity.
Qed.

(** Whatever the table, what the loop body returns for a row are points
    merged from that row. *)
Lemma wlp_merge_row (df : DataFrame) (row : Series) w :
  wlp (merge_row df (detect_columns (columns df)) row)
      (fun pts _ => Forall (merged_point df row) pts) w.
Proof.
  destruct (nth_error (columns df) 0) as [c0 |] eqn:E0.
  - destruct (nth_error (columns df) 1) as [c1 |] eqn:E1.
    + apply wp_wlp. eapply wp_mono; [apply (wp_merge_row df row c0 c1 w E0 E1) |].
      intros pts w' H. unfold row_result in H.
      destruct (row_emitted df row).
      * destruct H as [p [-> [Hp _]]]. constructor; [exact Hp | constructor].
      * subst pts. constructor.
    + unfold wlp, merge_row, column_at, bind, ret, raise. rewrite E0, E1. exact I.
  - unfold wlp, merge_row, column_at, bind, raise. rewrite E0. exact I.
Qed.

Lemma wlp_any {A : Type} (m : M A) (post : A -> World -> Prop) w :
  (forall a w', post a w') -> wlp m post w.
Proof. intros H. unfold wlp. destruct (m w) as [[a | e] w']; [apply H | exact I]. Qed.

Lemma wlp_df_sample (df : DataFrame) (n : Z) w :
  wlp (df_sample df n)
      (fun s _ => columns s = columns df /\ incl (records s) (records df)) w.
Proof.
  unfold df_sample. destruct (orb _ _); [apply wlp_raise |].
  unfold wlp. destruct (sample_positions _ _ _) as [pos s]. cbn [columns records].
  split; [reflexivity |].
  intros r Hr. apply in_flat_map in Hr. destruct Hr as [i [_ Hi]].
  destruct (nth_error (records df) i) as [r' |] eqn:E; [| contradiction].
  destruct Hi as [<- | []]. eapply nth_error_In. exact E.
Qed.

Lemma Forall2_concat_from {A B : Type} (R : A -> B -> Prop) (xs : list A)
    (yss : list (list B)) :
  Forall2 (fun x ys => Forall (R x) ys) xs yss ->
  Forall (fun y => exists x, In x xs /\ R x y) (List.concat yss).
Proof.
  induction 1 as [| x ys xs' yss' H _ IH]; simpl.
  - constructor.
  - apply Forall_app. split.
    + eapply Forall_impl; [| exact H]. intros y Hy. exists x. split; [left; reflexivity | exact Hy].
    + eapply Forall_impl; [| exact IH]. intros y [x' [Hin Hy]].
      exists x'. split; [right; exact Hin | exact Hy].
Qed.

Lemma wlp_merge_body (path : string) (sample_size : Z) w :
  wlp (merge_body path sample_size) (fun pts _ => Forall (merged_from path) pts) w.
Proof.
  unfold merge_body. apply wlp_bind.
  unfold wlp at 1, pd_read_csv.
  destruct (read_csv path) as [df | e] eqn:Hread; [| exact I]. cbv zeta.
  apply wlp_bind. eapply wlp_mono; [apply wlp_df_sample |].
  intros sample_df w2 [Hc Hi].
  eapply wlp_mono.
  - apply (wlp_for_each (fun row ys => Forall (merged_point df row) ys)).
    intros row _ w3. apply wlp_merge_row.
  - intros pts w3 [yss [-> H]].
    eapply Forall_impl; [| exact (Forall2_concat_from _ _ _ H)].
    intros p [row [Hin Hp]]. exists df, row.
    split; [exact Hread | split; [| exact Hp]].
    unfold iterrows in *. rewrite Hc in Hin.
    apply in_map_iff in Hin. destruct Hin as [r [<- Hr]].
    apply in_map. apply Hi. exact Hr.
Qed.

(** [try ... except Exception: return default] returns in every case. *)
Lemma wp_try_except {A : Type} (m : M A) (default : A) (P : A -> Prop) w :
  wlp m (fun a _ => P a) w -> P default ->
  wp (try_except m default) (fun a _ => P a) w.
Proof.
  unfold wlp, wp, try_except. destruct (m w) as [[a | e] w']; trivial.
Qed.

(** [merge_with_kaggle_data] always returns, and returns points merged from
    rows of the table. *)
Lemma wp_merge_with_kaggle_data (path : string) (sample_size : Z) w :
  wp (merge_with_kaggle_data path sample_size)
     (fun pts _ => Forall (merged_from path) pts) w.
Proof.
  unfold merge_with_kaggle_data.
  apply (wp_try_except _ _ (Forall (merged_from path)));
    [apply wlp_merge_body | constructor].
Qed.

End MergeFacts.

Section MergeRun.
Context {pyr : PyRandom} {npr : NumpyRandom} {fkr : Faker}.
Context {libm : Libm} {zone : LocalZone} {pandas : Pandas}.
Local Open Scope run_scope.

Lemma flat_map_positions {A : Type} (l : list A) (pos : list nat) :
  Forall (fun i => (i < List.length l)%nat) pos ->
  let picked := flat_map (fun i => match nth_error l i with
                                   | Some r => [r]
                                   | None => []
                                   end) pos in
  List.length picked = List.length pos /\ incl picked l.
Proof.
  induction 1 as [| i pos' Hi _ [IHl IHi]]; simpl.
  - split; [reflexivity | intros x []].
  - destruct (nth_error l i) as [r |] eqn:E.
    + simpl. split; [rewrite IHl; reflexivity |].
      intros x [<- | Hx]; [eapply nth_error_In; exact E | apply IHi; exact Hx].
    + apply nth_error_None in E. lia.
Qed.

(** [df.sample(n=n)] for [0 <= n <= len(df)]: [n] rows of [df] under the
    same columns. *)
Lemma wp_df_sample (df : DataFrame) (n : Z) w :
  0 <= n <= Z.of_nat (List.length (records df)) ->
  wp (df_sample df n)
     (fun s _ => columns s = columns df /\
                 List.length (records s) = Z.to_nat n /\
                 incl (records s) (records df)) w.
Proof.
  intros Hn. unfold df_sample.
  destruct (n <? 0) eqn:E1; [apply Z.ltb_lt in E1; lia |].
  destruct (Z.of_nat (List.length (records df)) <? n) eqn:E2;
    [apply Z.ltb_lt in E2; lia |].
  cbn [orb]. unfold wp.
  pose proof (sample_positions_spec (List.length (records df)) (Z.to_nat n) (np w)
                ltac:(lia)) as Hs.
  destruct (sample_positions _ _ _) as [pos s]. cbn [fst] in Hs.
  destruct Hs as [Hlen [_ Hall]].
  destruct (flat_map_positions (records df) pos Hall) as [Hl Hi].
  cbn [columns records]. split; [reflexivity | split; [| exact Hi]].
  rewrite Hl. exact Hlen.
Qed.

Lemma length_emitted (df : DataFrame) (rows : list Series)
    (yss : list (list EnergyDataPoint)) :
  Forall2 (fun row ys => if row_emitted df row then exists p, ys = [p] else ys = [])
          rows yss ->
  List.length (List.concat yss) = List.length (filter (row_emitted df) rows).
Proof.
  induction 1 as [| row ys rows' yss' H _ IH]; simpl; [reflexivity |].
  rewrite length_app, IH. destruct (row_emitted df row).
  - destruct H as [p ->]. reflexivity.
  - subst ys. reflexivity.
Qed.

(** On a readable table of at least two columns and for a sample size that
    is not negative, the sample is drawn and the merge emits one point per
    sampled row that is emitted, and only those. *)
Lemma wp_merge_body (path : string) (df : DataFrame) (sample_size : Z) w :
  read_csv path = Ok df -> (2 <= List.length (columns df))%nat -> 0 <= sample_size ->
  let n := py_min sample_size (Z.of_nat (List.length (records df))) in
  wp (merge_body path sample_size)
     (fun pts _ => exists sample w1,
          df_sample df n w = (Ok sample, w1) /\
          columns sample = columns df /\
          incl (records sample) (records df) /\
          List.length (records sample) = Z.to_nat n /\
          List.length pts = List.length (filter (row_emitted df) (iterrows sample))) w.
Proof.
  intros Hread Hcols Hsize n. unfold merge_body.
  apply wp_bind. unfold wp at 1, pd_read_csv. rewrite Hread. cbv zeta. fold n.
  assert (Hn : 0 <= n <= Z.of_nat (List.length (records df))).
  { unfold n, py_min.
    destruct (Z.ltb_spec (Z.of_nat (List.length (records df))) sample_size); lia. }
  apply wp_bind.
  eapply wp_mono; [apply wp_remember; apply wp_df_sample; exact Hn |].
  intros sample w1 [Es [Hc [Hl Hi]]].
  destruct (columns df) as [| c0 [| c1 cs]] eqn:Ecols; simpl in Hcols; try lia.
  rewrite <- Ecols.
  eapply wp_mono.
  - apply (wp_for_each
             (fun row ys => if row_emitted df row then exists p, ys = [p] else ys = [])).
    intros row _ w2.
    eapply wp_mono; [apply (wp_merge_row df row c0 c1); rewrite Ecols; reflexivity |].
    intros pts w3 H. unfold row_result in H.
    destruct (row_emitted df row); [| exact H].
    destruct H as [p [E _]]. exists p. exact E.
  - intros pts w2 [yss [-> H]]. exists sample, w1.
    split; [exact Es |].
    split; [rewrite Ecols; exact Hc |].
    split; [exact Hi |].
    split; [exact Hl | apply length_emitted; exact H].
Qed.

End MergeRun.

(* ================================================================== *)
(** ** Two runs from the same seed *)

Section TwoRuns.
Context {pyr : PyRandom} {npr : NumpyRandom} {fkr : Faker}.
Context {libm : Libm} {zone : LocalZone} {pandas : Pandas}.
Local Open Scope run_scope.

Lemma sim_ret {A : Type} (R : A -> A -> Prop) (a1 a2 : A) :
  R a1 a2 -> sim R (ret a1) (ret a2).
Proof. intros H w1 w2 Hw. simpl. split; assumption. Qed.

Lemma sim_raise {A : Type} (R : A -> A -> Prop) (e : exn) :
  sim R (raise e) (raise e).
Proof. intros w1 w2 Hw. simpl. split; [reflexivity | assumption]. Qed.

Lemma sim_bind {A B : Type} (R : A -> A -> Prop) (S : B -> B -> Prop)
    (m1 m2 : M A) (k1 k2 : A -> M B) :
  sim R m1 m2 -> (forall a1 a2, R a1 a2 -> sim S (k1 a1) (k2 a2)) ->
  sim S (bind m1 k1) (bind m2 k2).
Proof.
  intros Hm Hk w1 w2 Hw. unfold bind. specialize (Hm w1 w2 Hw).
  destruct (m1 w1) as [[a1 | e1] w1'], (m2 w2) as [[a2 | e2] w2'];
    try contradiction.
  - destruct Hm as [HR Hw']. exact (Hk a1 a2 HR w1' w2' Hw').
  - exact Hm.
Qed.

Lemma sim_bind_eq {A B : Type} (S : B -> B -> Prop) (m : M A) (k1 k2 : A -> M B) :
  sim eq m m -> (forall a, sim S (k1 a) (k2 a)) -> sim S (bind m k1) (bind m k2).
Proof.
  intros Hm Hk. apply (sim_bind eq); [exact Hm |]. intros a1 a2 <-. apply Hk.
Qed.

(** *** The primitives read no clock, but [time.time] *)

Lemma sim_get_node_counter : sim eq get_node_counter get_node_counter.
Proof.
  intros w1 w2 Hw. simpl. split; [| exact Hw].
  destruct Hw as [Hs _]. rewrite Hs. reflexivity.
Qed.

Lemma sim_get_data_counter : sim eq get_data_counter get_data_counter.
Proof.
  intros w1 w2 Hw. simpl. split; [| exact Hw].
  destruct Hw as [Hs _]. rewrite Hs. reflexivity.
Qed.

Lemma sim_incr_node_counter : sim eq incr_node_counter incr_node_counter.
Proof.
  intros w1 w2 [Hs [Hp [Hn [Hf Ht]]]]. simpl. split; [reflexivity |].
  unfold agree. simpl. rewrite Hs. repeat split; assumption.
Qed.

Lemma sim_incr_data_counter : sim eq incr_data_counter incr_data_counter.
Proof.
  intros w1 w2 [Hs [Hp [Hn [Hf Ht]]]]. simpl. split; [reflexivity |].
  unfold agree. simpl. rewrite Hs. repeat split; assumption.
Qed.

Lemma sim_time_time : sim (fun _ _ => True) time_time time_time.
Proof.
  intros w1 w2 [Hs [Hp [Hn [Hf Ht]]]]. simpl. split; [exact I |].
  unfold agree. simpl. rewrite Ht. repeat split; assumption.
Qed.

Lemma sim_py_random : sim eq py_random py_random.
Proof.
  intros w1 w2 [Hs [Hp [Hn [Hf Ht]]]]. unfold py_random. rewrite Hp.
  destruct (random_random (py w2)) as [x s]. split; [reflexivity |].
  unfold agree. simpl. repeat split; assumption.
Qed.

Lemma sim_py_randbelow (n : Z) : sim eq (py_randbelow n) (py_randbelow n).
Proof.
  intros w1 w2 [Hs [Hp [Hn [Hf Ht]]]]. unfold py_randbelow. rewrite Hp.
  destruct (randbelow n (py w2)) as [x s]. split; [reflexivity |].
  unfold agree. simpl. repeat split; assumption.
Qed.

Lemma sim_np_random_sample : sim eq np_random_sample np_random_sample.
Proof.
  intros w1 w2 [Hs [Hp [Hn [Hf Ht]]]]. unfold np_random_sample. rewrite Hn.
  destruct (random_sample (np w2)) as [x s]. split; [reflexivity |].
  unfold agree. simpl. repeat split; assumption.
Qed.

Lemma sim_py_randint (a b : Z) : sim eq (py_randint a b) (py_randint a b).
Proof.
  unfold py_randint. destruct (0 <? b - a + 1); [| apply sim_raise].
  apply sim_bind_eq; [apply sim_py_randbelow |]. intros x. apply sim_ret. reflexivity.
Qed.

Lemma sim_py_choice {A : Type} (seq : list A) : sim eq (py_choice seq) (py_choice seq).
Proof.
  unfold py_choice. destruct seq as [| y r]; [apply sim_raise |].
  apply sim_bind_eq; [apply sim_py_randbelow |]. intros i.
  destruct (nth_error (y :: r) (Z.to_nat i)); [apply sim_ret; reflexivity | apply sim_raise].
Qed.

Lemma sim_np_uniform (low high : Q) : sim eq (np_uniform low high) (np_uniform low high).
Proof.
  unfold np_uniform. apply sim_bind_eq; [apply sim_np_random_sample |].
  intros u. apply sim_ret. reflexivity.
Qed.

Lemma sim_np_normal (loc scale : Q) : sim eq (np_normal loc scale) (np_normal loc scale).
Proof.
  unfold np_normal. destruct (ltb scale 0); [apply sim_raise |].
  intros w1 w2 [Hs [Hp [Hn [Hf Ht]]]]. rewrite Hn.
  destruct (standard_normal (np w2)) as [g s]. split; [reflexivity |].
  unfold agree. simpl. repeat split; assumption.
Qed.

Lemma sim_np_choice (a : list string) (p : list Q) : sim eq (np_choice a p) (np_choice a p).
Proof.
  unfold np_choice. destruct a as [| k ks]; [apply sim_raise |].
  destruct (negb _); [apply sim_raise |].
  destruct (negb _); [apply sim_raise |].
  apply sim_bind_eq; [apply sim_np_random_sample |]. intros u.
  destruct (nth_error _ _); [apply sim_ret; reflexivity | apply sim_raise].
Qed.

Lemma sim_for_each {A B : Type} (RA : A -> A -> Prop) (R : B -> B -> Prop)
    (b1 b2 : A -> M (list B)) (xs1 xs2 : list A) :
  (forall x1 x2, RA x1 x2 -> sim (Forall2 R) (b1 x1) (b2 x2)) ->
  Forall2 RA xs1 xs2 ->
  sim (Forall2 R) (for_each xs1 b1) (for_each xs2 b2).
Proof.
  intros Hb H. induction H as [| x1 x2 r1 r2 Hx _ IH]; simpl.
  - apply sim_ret. constructor.
  - apply (sim_bind (Forall2 R)); [apply Hb; exact Hx |]. intros ys1 ys2 Hys.
    apply (sim_bind (Forall2 R)); [exact IH |]. intros zs1 zs2 Hzs.
    apply sim_ret. apply Forall2_app; assumption.
Qed.

Lemma Forall2_eq {A : Type} (l1 l2 : list A) : Forall2 eq l1 l2 -> l1 = l2.
Proof. induction 1; [reflexivity | subst; reflexivity]. Qed.

Lemma Forall2_refl {A : Type} (l : list A) : Forall2 eq l l.
Proof. induction l; constructor; trivial. Qed.

(** *** The two operations *)

Lemma sim_generate_node (areas : list Area) (d : dict Q) :
  sim same_but_registered (generate_node areas d) (generate_node areas d).
Proof.
  unfold generate_node.
  apply sim_bind_eq; [apply sim_np_choice |]. intros pattern_type.
  apply sim_bind_eq; [apply sim_py_choice |]. intros area.
  apply sim_bind_eq; [apply sim_np_uniform |]. intros lat.
  apply sim_bind_eq; [apply sim_np_uniform |]. intros lon.
  cbv zeta.
  apply sim_bind_eq; [apply sim_get_node_counter |]. intros counter.
  apply sim_bind_eq; [apply sim_py_random |]. intros r.
  apply (sim_bind (fun _ _ => True)); [apply sim_time_time |]. intros now1 now2 _.
  apply sim_bind_eq; [apply sim_py_randint |]. intros age.
  apply sim_bind_eq; [apply sim_np_uniform |]. intros m.
  apply sim_bind_eq; [apply sim_incr_node_counter |]. intros [].
  apply sim_ret. unfold same_but_registered. simpl. repeat split.
Qed.

Lemma sim_generate_nodes (count : Z) (location_pattern : string)
    (distribution : option (dict Q)) :
  sim (Forall2 same_but_registered)
      (generate_nodes count location_pattern distribution)
      (generate_nodes count location_pattern distribution).
Proof.
  unfold generate_nodes. cbv zeta.
  apply (sim_for_each eq); [| apply Forall2_refl].
  intros i1 i2 _. apply (sim_bind same_but_registered); [apply sim_generate_node |].
  intros n1 n2 Hn. apply sim_ret. constructor; [exact Hn | constructor].
Qed.

Lemma sim_generate_node_hour (n1 n2 : EnergyNode) pattern start ap h :
  same_but_registered n1 n2 ->
  sim eq (generate_node_hour n1 pattern start ap h)
         (generate_node_hour n2 pattern start ap h).
Proof.
  intros [Hid [Hloc [_ [_ [Hpt [_ [Hm _]]]]]]].
  unfold generate_node_hour. cbv zeta. rewrite Hid, Hloc, Hpt, Hm.
  apply sim_bind_eq; [apply sim_np_normal |]. intros noise.
  apply sim_bind_eq; [apply sim_py_random |]. intros r.
  apply sim_bind_eq.
  - destruct (ltb r ap); [| apply sim_ret; reflexivity].
    apply sim_bind_eq; [apply sim_np_uniform |]. intros low.
    apply sim_bind_eq; [apply sim_np_uniform |]. intros high.
    apply sim_bind_eq; [apply sim_py_choice |]. intros f.
    apply sim_ret. reflexivity.
  - intros kwh.
    apply sim_bind_eq; [apply sim_get_data_counter |]. intros counter.
    apply sim_bind_eq; [apply sim_incr_data_counter |]. intros [].
    apply sim_ret. reflexivity.
Qed.

Lemma sim_generate_time_series (ns1 ns2 : list EnergyNode) start d ap :
  Forall2 same_but_registered ns1 ns2 ->
  sim (Forall2 eq) (generate_time_series ns1 start d ap)
                   (generate_time_series ns2 start d ap).
Proof.
  intros H. unfold generate_time_series.
  apply (sim_for_each same_but_registered); [| exact H].
  intros n1 n2 Hn.
  pose proof Hn as [_ [_ [_ [_ [Hpt [Hact _]]]]]]. rewrite Hact, Hpt.
  destruct (negb (Node.active n2)); [apply sim_ret; constructor |].
  destruct (dict_get patterns (Node.pattern_type n2)) as [pattern |];
    [| apply sim_raise].
  unfold _generate_node_time_series.
  apply (sim_for_each eq); [| apply Forall2_refl].
  intros h1 h2 <-.
  apply (sim_bind eq); [apply sim_generate_node_hour; exact Hn |].
  intros p1 p2 <-. apply sim_ret. constructor; [reflexivity | constructor].
Qed.

End TwoRuns.

(* ================================================================== *)
(** ** The properties of the engine *)

Section Properties.
Context {pyr : PyRandom} {npr : NumpyRandom} {fkr : Faker}.
Context {libm : Libm} {zone : LocalZone} {pandas : Pandas}.
Local Open Scope run_scope.

(** C1, as amended.  Every point [generate_time_series] returns has an
    energy value of at least 0.1.  [merge_with_kaggle_data] sets no floor:
    the energy value of each of its points is the rounding to three decimals
    of the parsed energy value of a row of the table times a factor between
    0.8 and 1.2. *)
Theorem energy_floor :
  (forall nodes start d ap w pts w',
      generate_time_series nodes start d ap w = (Ok pts, w') ->
      Forall (fun p => (0.1 <= Point.kwh p)%Q) pts) /\
  (forall path sample_size w pts w',
      merge_with_kaggle_data path sample_size w = (Ok pts, w') ->
      Forall (fun p => exists df row value factor,
                  read_csv path = Ok df /\ In row (iterrows df) /\
                  _safe_extract_numeric row (energy_column df) = Some value /\
                  (0.8 <= factor)%Q /\ (factor <= 1.2)%Q /\
                  Point.kwh p = round3 (value * factor)) pts).
Proof.
  split.
  - intros nodes start d ap w pts w' E.
    destruct (wlp_run _ _ _ _ _ (wlp_generate_time_series nodes start d ap w) E)
      as [series [-> H]].
    apply (node_series_Forall _ start d nodes series); [| exact H].
    intros node h p _ _ Hp. apply Hp.
  - intros path sample_size w pts w' E.
    pose proof (wp_merge_with_kaggle_data path sample_size w) as H.
    unfold wp in H. rewrite E in H.
    eapply Forall_impl; [| exact H].
    intros p [df [row [Hread [Hin [value [factor [H0 [H1 [H2 [H3 _]]]]]]]]]].
    exists df, row, value, factor. repeat split; assumption.
Qed.


(** C3.  For one active residential node, 24 hours from a midnight and an
    anomaly probability of 0, [generate_time_series] returns exactly 24
    points, none flagged as an anomaly, and the energy value of the point of
    hour [h] is the scenario's formula at [h] and at that hour's noise
    draw. *)
Theorem residential_day node start w :
  Node.active node = true ->
  Node.pattern_type node = "residential"%string ->
  start mod 86400 = 0 ->
  exists pts w',
    generate_time_series [node] start 24 0 w = (Ok pts, w') /\
    List.length pts = 24%nat /\
    Forall (fun p => Point.anomaly p = false) pts /\
    map Point.kwh pts =
      map (fun hg => scenario_kwh node start (fst hg) (residential_noise (snd hg)))
          (combine (range 24) (normal_deviates 24 (np w))).
Proof.
  intros Ha Hp Hm.
  apply (wp_run (generate_time_series [node] start 24 0)
           (fun pts _ =>
              List.length pts = 24%nat /\
              Forall (fun p => Point.anomaly p = false) pts /\
              map Point.kwh pts =
                map (fun hg => scenario_kwh node start (fst hg)
                                 (residential_noise (snd hg)))
                    (combine (range 24) (normal_deviates 24 (np w))))).
  unfold generate_time_series. cbn [for_each]. rewrite Ha, Hp. cbn [negb].
  destruct (dict_get patterns "residential") as [pattern |] eqn:E;
    [| discriminate E].
  apply wp_bind. unfold _generate_node_time_series.
  eapply wp_mono.
  - apply (wp_scenario_hours node pattern start (range 24) E Hm).
    apply Forall_forall. intros h Hh. apply in_range in Hh. exact Hh.
  - intros s w1 [Hlen [Hall Hmap]].
    apply wp_bind. apply wp_ret. apply wp_ret.
    rewrite app_nil_r. split; [exact Hlen | split; [exact Hall | exact Hmap]].
Qed.


(** C5.  Every node [generate_nodes] returns lies in the bounding box of one
    of the areas of the selected density class, whose density label it
    carries; so does a commercial node, blended 70/30 toward the centre.
    And on a distribution that [np.random.choice] accepts it does return
    nodes, [count] of them. *)
Theorem nodes_inside_area :
  (forall count location_pattern distribution w nodes w',
      generate_nodes count location_pattern distribution w = (Ok nodes, w') ->
      Forall (fun node =>
                exists area, In area (selected_areas location_pattern) /\
                  Node.density node = population_density area /\
                  inside_area area node) nodes) /\
  (forall count location_pattern distribution w,
      match distribution with
      | Some d => valid_distribution d
      | None => True
      end ->
      exists nodes w',
        generate_nodes count location_pattern distribution w = (Ok nodes, w') /\
        List.length nodes = Z.to_nat count).
Proof.
  split.
  - intros count location_pattern distribution w nodes w' E.
    pose proof (wlp_run _ _ _ _ _
                  (wlp_generate_nodes count location_pattern distribution w) E) as H.
    eapply Forall_impl; [| exact H].
    intros node [area [H1 [H2 [H3 _]]]].
    exists area. split; [exact H1 | split; [exact H2 | exact H3]].
  - intros count location_pattern distribution w Hd.
    destruct (wp_run _ _ _ (wp_generate_nodes count location_pattern distribution w Hd))
      as [nodes [w' [E [Hlen _]]]].
    exists nodes, w'. split; [exact E | exact Hlen].
Qed.

End Properties.

Section MoreProperties.
Context {pyr : PyRandom} {npr : NumpyRandom} {fkr : Faker}.
Context {libm : Libm} {zone : LocalZone} {pandas : Pandas}.
Local Open Scope run_scope.
Local Open Scope string_scope.

Lemma round3_lt_inv (n : Z) (x : Q) : (round3 x < inject_Z n)%Q -> (x < inject_Z n)%Q.
Proof.
  intros H. destruct (Qlt_le_dec x (inject_Z n)) as [Hlt | Hle]; [exact Hlt |].
  exfalso. exact (Qlt_not_le _ _ H (round3_ge n x Hle)).
Qed.

Lemma round3_gt_inv (n : Z) (x : Q) : (inject_Z n < round3 x)%Q -> (inject_Z n < x)%Q.
Proof.
  intros H. destruct (Qlt_le_dec (inject_Z n) x) as [Hlt | Hle]; [exact Hlt |].
  exfalso. exact (Qlt_not_le _ _ H (round3_le n x Hle)).
Qed.

(** The class of a value from the position of its rounding among the
    thresholds. *)
Lemma classify_rounded (v : Q) :
  ((round3 v < 5)%Q -> classify v = "residential") /\
  ((5 < round3 v)%Q -> (round3 v < 20)%Q -> classify v = "commercial") /\
  ((20 < round3 v)%Q -> (round3 v < 50)%Q -> classify v = "industrial") /\
  ((50 < round3 v)%Q -> classify v = "datacenter").
Proof.
  unfold classify. repeat split.
  - intros H. apply (round3_lt_inv 5) in H. unfold inject_Z in H.
    rewrite (ltb_of_lt _ _ H). reflexivity.
  - intros H1 H2. apply (round3_gt_inv 5) in H1. apply (round3_lt_inv 20) in H2.
    unfold inject_Z in H1, H2.
    rewrite (ltb_of_le v 5) by (apply Qlt_le_weak; exact H1).
    rewrite (ltb_of_lt _ _ H2). reflexivity.
  - intros H1 H2. apply (round3_gt_inv 20) in H1. apply (round3_lt_inv 50) in H2.
    unfold inject_Z in H1, H2.
    rewrite (ltb_of_le v 5) by lra.
    rewrite (ltb_of_le v 20) by (apply Qlt_le_weak; exact H1).
    rewrite (ltb_of_lt _ _ H2). reflexivity.
  - intros H. apply (round3_gt_inv 50) in H. unfold inject_Z in H.
    rewrite (ltb_of_le v 5) by lra. rewrite (ltb_of_le v 20) by lra.
    rewrite (ltb_of_le v 50) by (apply Qlt_le_weak; exact H). reflexivity.
Qed.

(** C6, as amended.  The pattern type of a merged point is the class, under
    the threshold rule, of the varied value before its rounding to three
    decimals.  On the emitted energy value this gives: under 5 residential,
    strictly between 5 and 20 commercial, strictly between 20 and 50
    industrial, above 50 datacenter; an emitted value of exactly 5, 20 or 50
    can carry the class on either side. *)
Theorem merged_class path sample_size w pts w' :
  merge_with_kaggle_data path sample_size w = (Ok pts, w') ->
  Forall (fun p =>
            (exists v, Point.kwh p = round3 v /\ Point.pattern_type p = classify v) /\
            ((Point.kwh p < 5)%Q -> Point.pattern_type p = "residential") /\
            ((5 < Point.kwh p)%Q -> (Point.kwh p < 20)%Q ->
             Point.pattern_type p = "commercial") /\
            ((20 < Point.kwh p)%Q -> (Point.kwh p < 50)%Q ->
             Point.pattern_type p = "industrial") /\
            ((50 < Point.kwh p)%Q -> Point.pattern_type p = "datacenter")) pts.
Proof.
  intros E.
  pose proof (wp_merge_with_kaggle_data path sample_size w) as H.
  unfold wp in H. rewrite E in H.
  eapply Forall_impl; [| exact H].
  intros p [df [row [_ [_ [value [factor [_ [_ [_ [Hk [Hc _]]]]]]]]]]].
  split; [exists (value * factor)%Q; split; assumption |].
  rewrite Hk, Hc. apply classify_rounded.
Qed.

(** C7, as amended.  Two runs of [generate_nodes] on the same inputs, from
    states that agree on the counters and on the states of the random
    sources and differ at most in what the clock reads, raise the same
    exception or return nodes equal in every field but [registered_at]
    (which is the clock's reading minus the drawn age); and
    [generate_time_series] then returns the same sequence of data points
    for both lists of nodes. *)
Theorem seeded_runs count location_pattern distribution start d ap w1 w2 :
  agree w1 w2 ->
  match generate_nodes count location_pattern distribution w1,
        generate_nodes count location_pattern distribution w2 with
  | (Ok nodes1, w1'), (Ok nodes2, w2') =>
      Forall2 same_but_registered nodes1 nodes2 /\
      fst (generate_time_series nodes1 start d ap w1')
        = fst (generate_time_series nodes2 start d ap w2')
  | (Raise e1, _), (Raise e2, _) => e1 = e2
  | _, _ => False
  end.
Proof.
  intros Hw.
  pose proof (sim_generate_nodes count location_pattern distribution w1 w2 Hw) as H.
  destruct (generate_nodes count location_pattern distribution w1) as [[ns1 | e1] w1'],
           (generate_nodes count location_pattern distribution w2) as [[ns2 | e2] w2'];
    try contradiction.
  - destruct H as [Hn Hw']. split; [exact Hn |].
    pose proof (sim_generate_time_series ns1 ns2 start d ap Hn w1' w2' Hw') as Hs.
    destruct (generate_time_series ns1 start d ap w1') as [[p1 | x1] v1],
             (generate_time_series ns2 start d ap w2') as [[p2 | x2] v2];
      try contradiction; simpl.
    + destruct Hs as [Hp _]. apply Forall2_eq in Hp. rewrite Hp. reflexivity.
    + destruct Hs as [Hx _]. rewrite Hx. reflexivity.
  - destruct H as [He _]. exact He.
Qed.

(** C8.  When the table cannot be read, [merge_with_kaggle_data] returns the
    empty list: no exception leaves it, and the state is untouched. *)
Theorem unreadable_table path sample_size e w :
  read_csv path = Raise e ->
  merge_with_kaggle_data path sample_size w = (Ok [], w).
Proof.
  intros H. unfold merge_with_kaggle_data, try_except, merge_body, bind, pd_read_csv.
  rewrite H. reflexivity.
Qed.


Lemma unknown_density (location_pattern : string) :
  location_pattern <> "urban" -> location_pattern <> "suburban" ->
  location_pattern <> "rural" ->
  dict_get metropolitan_areas location_pattern = None.
Proof.
  intros H1 H2 H3. unfold metropolitan_areas, _initialize_locations. simpl.
  apply String.eqb_neq in H1, H2, H3. rewrite H1, H2, H3. reflexivity.
Qed.

(** C10.  For a density class that is none of urban, suburban and rural,
    [generate_nodes] does what it does for urban; on a distribution that
    [np.random.choice] accepts (the default one is) and for [count >= 0] it
    returns exactly [count] nodes, each placed in an urban area. *)
Theorem unknown_density_is_urban count location_pattern distribution w :
  location_pattern <> "urban" ->
  location_pattern <> "suburban" ->
  location_pattern <> "rural" ->
  match distribution with
  | Some d => valid_distribution d
  | None => True
  end ->
  0 <= count ->
  generate_nodes count location_pattern distribution w
    = generate_nodes count "urban" distribution w /\
  exists nodes w',
    generate_nodes count location_pattern distribution w = (Ok nodes, w') /\
    Z.of_nat (List.length nodes) = count /\
    Forall (node_placed urban_areas) nodes.
Proof.
  intros H1 H2 H3 Hd Hc.
  pose proof (unknown_density location_pattern H1 H2 H3) as Hnone.
  split.
  - unfold generate_nodes. rewrite Hnone. reflexivity.
  - destruct (wp_run _ _ _ (wp_generate_nodes count location_pattern distribution w Hd))
      as [nodes [w' [E [Hlen Hall]]]].
    exists nodes, w'. split; [exact E | split; [lia |]].
    unfold selected_areas in Hall.
    change _initialize_locations with metropolitan_areas in Hall.
    rewrite Hnone in Hall. exact Hall.
Qed.

End MoreProperties.

(* ================================================================== *)
(** ** Runs on the scripted surroundings *)

Section Examples.
Import Replay.
Local Existing Instances replay_py replay_np replay_fk replay_libm replay_pandas.
Local Open Scope string_scope.
Local Open Scope Q_scope.

(** A merged row whose source value is 0 keeps the value 0. *)
Lemma merged_point_under_floor :
  exists p rest,
    fst (merge_with_kaggle_data (zone := utc) "meters.csv" 1000
           (world 1700000000 [] [])) = Ok (p :: rest) /\
    (Point.kwh p < 0.1).
Proof.
  eexists. eexists. split; [vm_compute; reflexivity | reflexivity].
Qed.

(** A run with anomalies and a large negative noise draw: the floor holds. *)
Lemma energy_floor_witness :
  exists pts w',
    generate_time_series (zone := utc) [home_node; idle_node] spring_forward_midnight
      3 0.5 (world 1700000000 [0.9; 0.2; 1; 0.4; 0] [-8; 0.3; 0; 0.5; 0.1; 0.2; -0.4])
      = (Ok pts, w') /\
    List.length pts = 3%nat /\
    Forall (fun p => (0.1 <= Point.kwh p)) pts.
Proof.
  eexists. eexists. split; [vm_compute; reflexivity |].
  split; [reflexivity |].
  eapply (proj1 (energy_floor (zone := utc) (pandas := replay_pandas))
            [home_node; idle_node] spring_forward_midnight 3%Z 0.5
            (world 1700000000 [0.9; 0.2; 1; 0.4; 0] [-8; 0.3; 0; 0.5; 0.1; 0.2; -0.4])).
  vm_compute. reflexivity.
Defined.


(** A table with one column is read, and nothing is emitted for its row:
    [df.columns[1]] raises [IndexError] inside the [try] block. *)
Lemma narrow_table_yields_nothing :
  _safe_extract_numeric [("kwh", FloatCell 1.5)] "kwh" = Some 1.5 /\
  fst (merge_with_kaggle_data (zone := utc) "narrow.csv" 1000
         (world 1700000000 [] [])) = Ok [].
Proof.
  split; [reflexivity | vm_compute; reflexivity].
Qed.


(** The scenario on the Sunday 2024-03-10. *)
Lemma residential_day_witness :
  exists pts w',
    generate_time_series (zone := utc) [home_node] spring_forward_midnight 24 0
      (world 1700000000 [] [0.5; -1; 2]) = (Ok pts, w') /\
    List.length pts = 24%nat /\
    Forall (fun p => Point.anomaly p = false) pts /\
    map Point.kwh pts =
      map (fun hg => scenario_kwh home_node spring_forward_midnight (fst hg)
                       (residential_noise (snd hg)))
          (combine (range 24) (normal_deviates 24 [0.5; -1; 2])).
Proof.
  apply (residential_day (zone := utc) home_node spring_forward_midnight
           (world 1700000000 [] [0.5; -1; 2])); reflexivity.
Defined.



(** Two rural nodes, the first one commercial. *)
Lemma nodes_inside_area_witness :
  exists nodes w',
    generate_nodes 2 "rural" (Some [("commercial", 0.5); ("industrial", 0.5)])
      (world 1700000000 [0; 0.5; 1000; 1; 0.01; 7] [0.2; 0.9; 0.1; 0.5; 0.7; 0; 0; 0])
      = (Ok nodes, w') /\
    List.length nodes = 2%nat /\
    Forall (fun node =>
              exists area, In area (selected_areas "rural") /\
                Node.density node = population_density area /\
                inside_area area node) nodes.
Proof.
  eexists. eexists. split; [vm_compute; reflexivity |].
  split; [reflexivity |].
  eapply (proj1 nodes_inside_area 2%Z "rural"%string
            (Some [("commercial"%string, 0.5); ("industrial"%string, 0.5)])
            (world 1700000000 [0; 0.5; 1000; 1; 0.01; 7]
                   [0.2; 0.9; 0.1; 0.5; 0.7; 0; 0; 0])).
  vm_compute. reflexivity.
Defined.

(** A varied value of 4.9996 is classified residential and emitted as
    5.000. *)
Lemma rounded_onto_threshold :
  exists p0 p rest,
    fst (merge_with_kaggle_data (zone := utc) "meters.csv" 2
           (world 1700000000 [] [0; 0; 0.5; 0; 0; 0.5])) = Ok (p0 :: p :: rest) /\
    (5 <= Point.kwh p)%Q /\ (Point.kwh p < 20)%Q /\
    Point.pattern_type p = "residential".
Proof.
  eexists. eexists. eexists. split; [vm_compute; reflexivity |].
  split; [discriminate | split; reflexivity].
Qed.

(** The three points merged from [meters.csv]. *)
Lemma merged_class_witness :
  exists pts w',
    merge_with_kaggle_data (zone := utc) "meters.csv" 1000
      (world 1700000000 [] [0; 0; 0.5; 0; 0; 0.5]) = (Ok pts, w') /\
    List.length pts = 3%nat /\
    Forall (fun p =>
              ((Point.kwh p < 5)%Q -> Point.pattern_type p = "residential") /\
              ((20 < Point.kwh p)%Q -> (Point.kwh p < 50)%Q ->
               Point.pattern_type p = "industrial")) pts.
Proof.
  eexists. eexists. split; [vm_compute; reflexivity |].
  split; [reflexivity |].
  eapply Forall_impl;
    [| eapply (merged_class (zone := utc) "meters.csv" 1000
                 (world 1700000000 [] [0; 0; 0.5; 0; 0; 0.5]));
       vm_compute; reflexivity].
  intros p [_ [H1 [_ [H3 _]]]]. split; assumption.
Defined.

(** The same seed under two clocks: the registration times differ. *)
Lemma registration_follows_clock :
  exists n1 n2,
    fst (generate_nodes 1 "urban" None
           (world 1700000000 [0; 0.5; 1000] [0.7; 0.5; 0.5; 0.5])) = Ok [n1] /\
    fst (generate_nodes 1 "urban" None
           (world 1800000000 [0; 0.5; 1000] [0.7; 0.5; 0.5; 0.5])) = Ok [n2] /\
    Node.registered_at n1 = 1699999000%Z /\
    Node.registered_at n2 = 1799999000%Z.
Proof.
  eexists. eexists. split; [vm_compute; reflexivity |].
  split; [vm_compute; reflexivity | split; reflexivity].
Qed.

(** Two nodes and their day of data under the two clocks. *)
Lemma seeded_runs_witness :
  match generate_nodes 2 "urban" None
          (world 1700000000 [0; 0.5; 1000] [0.7; 0.5; 0.5; 0.5]),
        generate_nodes 2 "urban" None
          (world 1800000000 [0; 0.5; 1000] [0.7; 0.5; 0.5; 0.5]) with
  | (Ok nodes1, w1'), (Ok nodes2, w2') =>
      Forall2 same_but_registered nodes1 nodes2 /\
      fst (generate_time_series (zone := utc) nodes1 spring_forward_midnight 24 0.02 w1')
        = fst (generate_time_series (zone := utc) nodes2 spring_forward_midnight 24 0.02 w2')
  | (Raise e1, _), (Raise e2, _) => e1 = e2
  | _, _ => False
  end.
Proof.
  apply (seeded_runs (zone := utc) 2 "urban" None spring_forward_midnight 24 0.02).
  repeat split.
Defined.

(** A path the file system does not hold. *)
Lemma unreadable_table_witness :
  merge_with_kaggle_data (zone := utc) "missing.csv" 1000 (world 1700000000 [] [])
    = (Ok [], world 1700000000 [] []).
Proof.
  apply (unreadable_table (zone := utc) "missing.csv" 1000 OSError
           (world 1700000000 [] [])).
  reflexivity.
Defined.



(** The density class "mars". *)
Lemma unknown_density_is_urban_witness :
  generate_nodes 2 "mars" None (world 1700000000 [0; 0.5; 1000] [0.7; 0.5; 0.5; 0.5])
    = generate_nodes 2 "urban" None
        (world 1700000000 [0; 0.5; 1000] [0.7; 0.5; 0.5; 0.5]) /\
  exists nodes w',
    generate_nodes 2 "mars" None (world 1700000000 [0; 0.5; 1000] [0.7; 0.5; 0.5; 0.5])
      = (Ok nodes, w') /\
    Z.of_nat (List.length nodes) = 2%Z /\
    Forall (node_placed urban_areas) nodes.
Proof.
  apply unknown_density_is_urban; [discriminate | discriminate | discriminate | exact I | lia].
Defined.

End Examples.
(* ================================================================== *)
(** ** Facts about the printed counters *)

Section LabelFacts.
Local Open Scope string_scope.

Lemma uint_of_zeros (k : nat) (s : string) :
  NilEmpty.uint_of_string (zeros k ++ s)
  = option_map (Nat.iter k Decimal.D0) (NilEmpty.uint_of_string s).
Proof.
  induction k as [| k IH]; simpl.
  - destruct (NilEmpty.uint_of_string s); reflexivity.
  - rewrite IH. destruct (NilEmpty.uint_of_string s); reflexivity.
Qed.

Lemma of_uint_zeros (k : nat) (d : Decimal.uint) :
  Z.of_uint (Nat.iter k Decimal.D0 d) = Z.of_uint d.
Proof. induction k as [| k IH]; [reflexivity | exact IH]. Qed.

Lemma to_uint_not_nil (m : N) : N.to_uint m <> Decimal.Nil.
Proof.
  destruct m as [| p]; [discriminate | apply DecimalPos.Unsigned.to_uint_nonnil].
Qed.

(** The digits of a number that is not negative read back as the number,
    however many zeros are put before them. *)
Lemma padded_digits_read_back (k : nat) (n : Z) :
  0 <= n ->
  option_map Z.of_uint (NilEmpty.uint_of_string (zeros k ++ str_of_nonneg n)) = Some n.
Proof.
  intros Hn. rewrite uint_of_zeros. unfold str_of_nonneg.
  pose proof (to_uint_not_nil (Z.to_N n)) as Hnil.
  assert (E : NilZero.string_of_uint (N.to_uint (Z.to_N n))
              = NilEmpty.string_of_uint (N.to_uint (Z.to_N n))).
  { destruct (N.to_uint (Z.to_N n)); [contradiction | reflexivity ..]. }
  rewrite E, NilEmpty.usu. cbn [option_map]. rewrite of_uint_zeros.
  unfold Z.of_uint. f_equal.
  change (Pos.of_uint (N.to_uint (Z.to_N n))) with (N.of_uint (N.to_uint (Z.to_N n))).
  rewrite DecimalN.Unsigned.of_to. lia.
Qed.

(** Padded digits are not empty and do not begin with a minus sign. *)
Lemma padded_digits_head (k : nat) (n : Z) :
  exists a r, zeros k ++ str_of_nonneg n = String a r /\ Ascii.eqb a "-" = false.
Proof.
  destruct k as [| k]; simpl.
  - unfold str_of_nonneg. pose proof (to_uint_not_nil (Z.to_N n)) as Hnil.
    destruct (N.to_uint (Z.to_N n)); [contradiction | ..];
      simpl; eexists; eexists; (split; [reflexivity | reflexivity]).
  - eexists. eexists. split; reflexivity.
Qed.

(** [int(f"{n:0Wd}") == n], for every width and every integer. *)
Lemma format_0d_read_back (width : nat) (n : Z) :
  int_of_str (format_0d width n) = Some n.
Proof.
  unfold int_of_str, format_0d, pad_left.
  destruct (Z.ltb_spec n 0) as [Hneg | Hpos].
  - simpl. unfold NilZero.uint_of_string.
    destruct (padded_digits_head
                (width - 1 - String.length (str_of_nonneg (- n))) (- n))
      as [a [r [E _]]].
    pose proof (padded_digits_read_back
                  (width - 1 - String.length (str_of_nonneg (- n))) (- n)
                  ltac:(lia)) as H.
    rewrite E in *.
    destruct (NilEmpty.uint_of_string (String a r)) as [d |]; [| discriminate].
    simpl in *. injection H as H. f_equal. lia.
  - destruct (padded_digits_head
                (width - String.length (str_of_nonneg n)) n) as [a [r [E Ha]]].
    pose proof (padded_digits_read_back
                  (width - String.length (str_of_nonneg n)) n Hpos) as H.
    rewrite E in *. unfold NilZero.int_of_string. rewrite Ha.
    destruct (NilEmpty.uint_of_string (String a r)) as [d |] eqn:Ed; [| discriminate].
    unfold NilZero.uint_of_string. rewrite Ed. simpl in *. exact H.
Qed.

Lemma format_0d_inj (width : nat) (n m : Z) :
  format_0d width n = format_0d width m -> n = m.
Proof.
  intros E. pose proof (format_0d_read_back width n) as Hn.
  rewrite E, format_0d_read_back in Hn. injection Hn as Hn. symmetry. exact Hn.
Qed.

Lemma append_inj_r (p s t : string) : p ++ s = p ++ t -> s = t.
Proof.
  induction p as [| a p IH]; simpl; [trivial |].
  intros E. injection E as E. apply IH. exact E.
Qed.

Lemma node_label_inj (n m : Z) : node_label n = node_label m -> n = m.
Proof. intros E. apply append_inj_r in E. exact (format_0d_inj _ _ _ E). Qed.

Lemma data_label_inj (n m : Z) : data_label n = data_label m -> n = m.
Proof. intros E. apply append_inj_r in E. exact (format_0d_inj _ _ _ E). Qed.

Lemma kaggle_label_inj (n m : Z) : kaggle_label n = kaggle_label m -> n = m.
Proof. intros E. apply append_inj_r in E. exact (format_0d_inj _ _ _ E). Qed.

End LabelFacts.

Section NumberedFacts.
Context {A : Type} (ident : A -> string) (label : Z -> string).

Lemma numbered_nil (c : Z) : numbered ident label c [].
Proof. reflexivity. Qed.

Lemma numbered_one (c : Z) (x : A) :
  ident x = label c -> numbered ident label c [x].
Proof. intros E. unfold numbered. simpl. rewrite E, Z.add_0_r. reflexivity. Qed.

Lemma map_seq_from {B : Type} (f : nat -> B) (a s k : nat) :
  map f (seq (a + s) k) = map (fun i => f (a + i)%nat) (seq s k).
Proof.
  revert s. induction k as [| k IH]; intros s; simpl; [reflexivity |].
  f_equal. rewrite <- Nat.add_succ_r. apply IH.
Qed.

Lemma numbered_app (c : Z) (l1 l2 : list A) :
  numbered ident label c l1 ->
  numbered ident label (c + Z.of_nat (List.length l1)) l2 ->
  numbered ident label c (l1 ++ l2).
Proof.
  unfold numbered. intros H1 H2.
  rewrite map_app, length_app, seq_app, map_app, H1, H2. f_equal.
  replace (0 + List.length l1)%nat with (List.length l1 + 0)%nat by lia.
  rewrite (map_seq_from _ (List.length l1) 0).
  apply map_ext. intros i. f_equal. lia.
Qed.

Lemma numbered_length_ident (c : Z) (l : list A) (i : nat) (x : A) :
  numbered ident label c l -> nth_error l i = Some x ->
  ident x = label (c + Z.of_nat i).
Proof.
  unfold numbered. intros H E.
  pose proof (map_nth_error ident _ _ E) as E1. rewrite H in E1.
  assert (Hi : (i < List.length l)%nat).
  { apply nth_error_Some. rewrite E. discriminate. }
  rewrite nth_error_map, nth_error_seq in E1.
  destruct (Nat.ltb_spec i (List.length l)) as [_ | Hge]; [| lia].
  simpl in E1. injection E1 as E1. symmetry. exact E1.
Qed.

(** Numbered items under a label that tells numbers apart carry pairwise
    distinct identifiers. *)
Lemma numbered_NoDup (c : Z) (l : list A) :
  (forall n m, label n = label m -> n = m) ->
  numbered ident label c l -> NoDup (map ident l).
Proof.
  intros Hinj H. unfold numbered in H. rewrite H.
  apply NoDup_map_NoDup_ForallPairs; [| apply seq_NoDup].
  intros i j _ _ E. apply Hinj in E. lia.
Qed.

End NumberedFacts.
(* ================================================================== *)
(** ** What each operation does to the counters and the clock *)

Section Footprints.
Context {pyr : PyRandom} {npr : NumpyRandom} {fkr : Faker}.
Local Open Scope run_scope.

Lemma kept_refl w : kept w w.
Proof. unfold kept, moved. repeat split; lia. Qed.

Lemma kept_with_py w s : kept w (with_py w s).
Proof. unfold kept, moved. cbn. repeat split; lia. Qed.

Lemma kept_with_np w s : kept w (with_np w s).
Proof. unfold kept, moved. cbn. repeat split; lia. Qed.

Lemma kept_with_fk w s : kept w (with_fk w s).
Proof. unfold kept, moved. cbn. repeat split; lia. Qed.

Lemma moved_trans dn dd dt dn' dd' dt' w1 w2 w3 :
  moved dn dd dt w1 w2 -> moved dn' dd' dt' w2 w3 ->
  moved (dn + dn') (dd + dd') (dt + dt') w1 w3.
Proof.
  unfold moved. intros [H1 [H2 [H3 H4]]] [K1 [K2 [K3 K4]]].
  repeat split; [lia | lia | congruence | lia].
Qed.

Lemma wp_conj {A : Type} (m : M A) (P post : A -> World -> Prop) w :
  wp m P w -> wp m post w -> wp m (fun a w' => P a w' /\ post a w') w.
Proof. unfold wp. destruct (m w) as [[a | e] w']; [split; assumption | trivial]. Qed.

Lemma wlp_conj {A : Type} (m : M A) (P post : A -> World -> Prop) w :
  wlp m P w -> wlp m post w -> wlp m (fun a w' => P a w' /\ post a w') w.
Proof. unfold wlp. destruct (m w) as [[a | e] w']; [split; assumption | trivial]. Qed.

Lemma wp_py_random_kept (post : Q -> World -> Prop) w :
  (forall x w', (0 <= x)%Q -> (x < 1)%Q -> kept w w' -> post x w') ->
  wp py_random post w.
Proof.
  intros H. unfold wp, py_random.
  pose proof (random_random_range (py w)) as [H0 H1].
  destruct (random_random (py w)) as [x s]. apply H; trivial. apply kept_with_py.
Qed.

Lemma wp_py_randbelow_kept (n : Z) (post : Z -> World -> Prop) w :
  0 < n ->
  (forall x w', 0 <= x < n -> kept w w' -> post x w') ->
  wp (py_randbelow n) post w.
Proof.
  intros Hn H. unfold wp, py_randbelow.
  pose proof (randbelow_range n (py w) Hn) as Hr.
  destruct (randbelow n (py w)) as [x s]. apply H; trivial. apply kept_with_py.
Qed.

Lemma wp_py_randint_kept (a b : Z) (post : Z -> World -> Prop) w :
  a <= b ->
  (forall x w', a <= x <= b -> kept w w' -> post x w') ->
  wp (py_randint a b) post w.
Proof.
  intros Hab H. unfold py_randint.
  destruct (0 <? b - a + 1) eqn:E; [| apply Z.ltb_ge in E; lia].
  apply wp_bind. apply wp_py_randbelow_kept; [lia |].
  intros x w' Hx Hk. apply wp_ret. apply H; [lia | exact Hk].
Qed.

Lemma wp_py_choice_kept {A : Type} (seq : list A) (post : A -> World -> Prop) w :
  seq <> [] ->
  (forall x w', In x seq -> kept w w' -> post x w') ->
  wp (py_choice seq) post w.
Proof.
  intros Hne H. unfold py_choice. destruct seq as [| y r] eqn:E; [contradiction |].
  rewrite <- E in *. apply wp_bind. apply wp_py_randbelow_kept.
  - rewrite E. simpl List.length. lia.
  - intros i w' Hi Hk.
    destruct (nth_error seq (Z.to_nat i)) as [x |] eqn:En.
    + apply wp_ret. apply H; [| exact Hk]. eapply nth_error_In. exact En.
    + apply nth_error_None in En. lia.
Qed.

Lemma wp_np_random_sample_kept (post : Q -> World -> Prop) w :
  (forall x w', (0 <= x)%Q -> (x < 1)%Q -> kept w w' -> post x w') ->
  wp np_random_sample post w.
Proof.
  intros H. unfold wp, np_random_sample.
  pose proof (random_sample_range (np w)) as [H0 H1].
  destruct (random_sample (np w)) as [x s]. apply H; trivial. apply kept_with_np.
Qed.

(** [uniform] returns whatever its bounds. *)
Lemma wp_np_uniform_kept (low high : Q) (post : Q -> World -> Prop) w :
  (forall x w', ((low <= high)%Q -> (low <= x)%Q /\ (x <= high)%Q) ->
                kept w w' -> post x w') ->
  wp (np_uniform low high) post w.
Proof.
  intros H. unfold np_uniform. apply wp_bind. apply wp_np_random_sample_kept.
  intros u w' H0 H1 Hk. apply wp_ret. apply H; [| exact Hk].
  intros Hlh. split; nra.
Qed.

Lemma wp_np_normal_kept (loc scale : Q) (post : Q -> World -> Prop) w :
  (0 <= scale)%Q ->
  (forall x w', kept w w' -> post x w') ->
  wp (np_normal loc scale) post w.
Proof.
  intros Hs H. unfold np_normal. rewrite (ltb_of_le _ _ Hs).
  unfold wp. destruct (standard_normal (np w)) as [g s]. apply H. apply kept_with_np.
Qed.

Lemma wp_fake_uuid4_kept (post : string -> World -> Prop) w :
  (forall x w', kept w w' -> post x w') -> wp fake_uuid4 post w.
Proof.
  intros H. unfold wp, fake_uuid4. destruct (uuid4 (fk w)) as [x s]. apply H.
  apply kept_with_fk.
Qed.

Lemma wp_time_time_moved (post : Q -> World -> Prop) w :
  (forall w', moved 0 0 1 w w' -> post (wallclock w (ticks w)) w') ->
  wp time_time post w.
Proof.
  intros H. apply H. unfold moved. cbn. repeat split; lia.
Qed.

Lemma wp_incr_node_counter_moved (post : unit -> World -> Prop) w :
  (forall w', moved 1 0 0 w w' -> post tt w') -> wp incr_node_counter post w.
Proof.
  intros H. apply H. unfold moved. cbn. repeat split; lia.
Qed.

Lemma wp_incr_data_counter_moved (post : unit -> World -> Prop) w :
  (forall w', moved 0 1 0 w w' -> post tt w') -> wp incr_data_counter post w.
Proof.
  intros H. apply H. unfold moved. cbn. repeat split; lia.
Qed.

Lemma wp_with {A : Type} (m : M A) (P post : A -> World -> Prop) w :
  wp m P w -> wlp m post w -> wp m (fun a w' => P a w' /\ post a w') w.
Proof.
  unfold wp, wlp. destruct (m w) as [[a | e] w']; [split; assumption | trivial].
Qed.

Lemma wlp_np_choice_kept (a : list string) (p : list Q) w :
  wlp (np_choice a p) (fun _ w' => kept w w') w.
Proof.
  unfold np_choice.
  destruct a; [exact I |].
  destruct (negb _); [exact I |]. destruct (negb _); [exact I |].
  apply wlp_bind. apply wp_wlp. apply wp_np_random_sample_kept. intros u w' _ _ Hk.
  destruct (nth_error _ _); [apply wlp_ret; exact Hk | exact I].
Qed.

Lemma wp_np_choice_kept (d : dict Q) (post : string -> World -> Prop) w :
  valid_distribution d ->
  (forall k w', In k (keys d) -> kept w w' -> post k w') ->
  wp (np_choice (keys d) (values d)) post w.
Proof.
  intros Hd H. eapply wp_mono.
  - apply wp_with; [| apply wlp_np_choice_kept].
    apply (wp_np_choice d (fun k _ => In k (keys d)) w Hd). intros k w' Hin _. exact Hin.
  - intros k w' [Hin Hk]. apply H; assumption.
Qed.

(** *** Loops that carry an invariant *)

(** An invariant of the results gathered so far and the state reached, kept
    by every round, holds at the end of the loop. *)
Lemma wp_for_each_acc {A B : Type} (Inv : list B -> World -> Prop)
    (xs : list A) (body : A -> M (list B)) :
  (forall x acc w, In x xs -> Inv acc w ->
                   wp (body x) (fun ys w' => Inv (acc ++ ys) w') w) ->
  forall acc w, Inv acc w ->
    wp (for_each xs body) (fun ys w' => Inv (acc ++ ys) w') w.
Proof.
  induction xs as [| x r IH]; intros Hbody acc w Hinv.
  - apply wp_ret. rewrite app_nil_r. exact Hinv.
  - simpl. apply wp_bind. eapply wp_mono; [apply Hbody; [left; reflexivity | exact Hinv] |].
    intros ys w1 H1. apply wp_bind.
    eapply wp_mono;
      [apply (IH (fun x' acc' w' Hin => Hbody x' acc' w' (or_intror Hin)) _ _ H1) |].
    intros zs w2 H2. apply wp_ret. rewrite app_assoc. exact H2.
Qed.

Lemma wlp_for_each_acc {A B : Type} (Inv : list B -> World -> Prop)
    (xs : list A) (body : A -> M (list B)) :
  (forall x acc w, In x xs -> Inv acc w ->
                   wlp (body x) (fun ys w' => Inv (acc ++ ys) w') w) ->
  forall acc w, Inv acc w ->
    wlp (for_each xs body) (fun ys w' => Inv (acc ++ ys) w') w.
Proof.
  induction xs as [| x r IH]; intros Hbody acc w Hinv.
  - apply wlp_ret. rewrite app_nil_r. exact Hinv.
  - simpl. apply wlp_bind.
    eapply wlp_mono; [apply Hbody; [left; reflexivity | exact Hinv] |].
    intros ys w1 H1. apply wlp_bind.
    eapply wlp_mono;
      [apply (IH (fun x' acc' w' Hin => Hbody x' acc' w' (or_intror Hin)) _ _ H1) |].
    intros zs w2 H2. apply wlp_ret. rewrite app_assoc. exact H2.
Qed.

End Footprints.
(* ================================================================== *)
(** ** The identifiers, counters and clock readings of the engine *)

Section Issue.
Context {pyr : PyRandom} {npr : NumpyRandom} {fkr : Faker}.
Context {libm : Libm} {zone : LocalZone} {pandas : Pandas}.
Local Open Scope run_scope.

(** One node: it takes the label of the node counter, a pattern type among
    the keys of the distribution and a registration time at most 30 days
    before the clock's reading; the counter advances by one and the clock is
    read once. *)
Lemma wp_generate_node_issued (areas : list Area) (d : dict Q) w :
  areas <> [] -> valid_distribution d ->
  wp (generate_node areas d)
     (fun node w' =>
        Node.node_id node = node_label (node_counter (self w)) /\
        In (Node.pattern_type node) (keys d) /\
        registered_within w 0 node /\
        moved 1 0 1 w w') w.
Proof.
  intros Hne Hd. unfold generate_node.
  apply wp_bind. apply wp_np_choice_kept; [exact Hd |]. intros pattern_type w1 Hp K1.
  apply wp_bind. apply wp_py_choice_kept; [exact Hne |]. intros area w2 _ K2.
  apply wp_bind. apply wp_np_uniform_kept. intros lat w3 _ K3.
  apply wp_bind. apply wp_np_uniform_kept. intros lon w4 _ K4.
  cbv zeta.
  apply wp_bind. apply wp_get_node_counter.
  apply wp_bind. apply wp_py_random_kept. intros r w5 _ _ K5.
  apply wp_bind. apply wp_time_time_moved. intros w6 K6.
  apply wp_bind. apply wp_py_randint_kept; [lia |]. intros age w7 Hage K7.
  apply wp_bind. apply wp_np_uniform_kept. intros m w8 _ K8.
  apply wp_bind. apply wp_incr_node_counter_moved. intros w9 K9.
  apply wp_ret. unfold kept, moved, registered_within, node_label in *. cbn.
  destruct K1 as [? [? [? ?]]], K2 as [? [? [? ?]]], K3 as [? [? [? ?]]],
           K4 as [? [? [? ?]]], K5 as [? [? [? ?]]], K6 as [? [? [? ?]]],
           K7 as [? [? [? ?]]], K8 as [? [? [? ?]]], K9 as [? [? [? ?]]].
  assert (Ec : node_counter (self w4) = node_counter (self w)) by lia.
  assert (Ew : wallclock w5 = wallclock w) by congruence.
  assert (Et : ticks w5 = ticks w) by lia.
  rewrite Ec, Ew, Et, Nat.add_0_r.
  split; [reflexivity |]. split; [exact Hp |].
  split; [split; lia |].
  repeat split; [lia | lia | congruence | lia].
Qed.

(** Whatever the distribution, a node that is returned was issued so. *)
Lemma wlp_generate_node_issued (areas : list Area) (d : dict Q) w :
  areas <> [] ->
  wlp (generate_node areas d)
      (fun node w' =>
         Node.node_id node = node_label (node_counter (self w)) /\
         In (Node.pattern_type node) (keys d) /\
         registered_within w 0 node /\
         moved 1 0 1 w w') w.
Proof.
  intros Hne. destruct (valid_distribution_dec d) as [Hd | Hd].
  - apply wp_wlp. apply wp_generate_node_issued; assumption.
  - unfold wlp, generate_node, bind. rewrite (np_choice_invalid d w Hd). exact I.
Qed.

Lemma nodes_issued_step d w acc w1 node w2 :
  nodes_issued d w acc w1 ->
  Node.node_id node = node_label (node_counter (self w1)) ->
  In (Node.pattern_type node) (keys d) ->
  registered_within w1 0 node ->
  moved 1 0 1 w1 w2 ->
  nodes_issued d w (acc ++ [node]) w2.
Proof.
  intros [Hn [Hp [Hr Hm]]] Hid Hpat Hreg Hm2.
  unfold nodes_issued. rewrite length_app. cbn [List.length].
  destruct Hm as [M1 [M2 [M3 M4]]]. destruct Hm2 as [N1 [N2 [N3 N4]]].
  split; [| split; [| split]].
  - apply numbered_app; [exact Hn |]. apply numbered_one. rewrite Hid, M1. reflexivity.
  - apply Forall_app. split; [exact Hp | constructor; [exact Hpat | constructor]].
  - intros i x E.
    destruct (Nat.lt_ge_cases i (List.length acc)) as [Hlt | Hge].
    + rewrite nth_error_app1 in E by exact Hlt. apply Hr. exact E.
    + rewrite nth_error_app2 in E by exact Hge.
      destruct (i - List.length acc)%nat as [| k] eqn:Ek;
        [| destruct k; discriminate E].
      injection E as <-. unfold registered_within in *.
      rewrite M3, M4, Nat.add_0_r in Hreg.
      replace (ticks w + i)%nat with (ticks w + List.length acc)%nat by lia.
      exact Hreg.
  - unfold moved. repeat split; [lia | lia | congruence | lia].
Qed.

Lemma nodes_issued_start d w : nodes_issued d w [] w.
Proof.
  unfold nodes_issued. split; [apply numbered_nil | split; [constructor | split]].
  - intros i node E. destruct i; discriminate E.
  - unfold moved. cbn. repeat split; lia.
Qed.

(** Whatever its arguments, a call of [generate_nodes] that returns has
    issued its nodes so. *)
Lemma generate_nodes_issued count location_pattern distribution w nodes w' :
  generate_nodes count location_pattern distribution w = (Ok nodes, w') ->
  nodes_issued (distribution_used distribution) w nodes w'.
Proof.
  intros E.
  apply (wlp_run (generate_nodes count location_pattern distribution)
           (fun nodes w' => nodes_issued (distribution_used distribution) w nodes w')
           w nodes w'); [| exact E].
  unfold generate_nodes.
  change (match dict_get metropolitan_areas location_pattern with
          | Some a => a
          | None => urban_areas
          end) with (selected_areas location_pattern).
  fold (distribution_used distribution). cbv zeta.
  apply (wlp_for_each_acc (fun acc w' => nodes_issued (distribution_used distribution) w acc w')
           _ _) with (acc := []); [| apply nodes_issued_start].
  intros i acc w1 _ Hacc. apply wlp_bind.
  eapply wlp_mono; [apply wlp_generate_node_issued; apply selected_areas_not_empty |].
  intros node w2 [Hid [Hp [Hr Hm]]]. apply wlp_ret.
  exact (nodes_issued_step _ _ _ _ _ _ Hacc Hid Hp Hr Hm).
Qed.

End Issue.
(* ================================================================== *)
(** ** Nodes: identifiers, registration, and refused distributions *)

Section NodeBookkeeping.
Context {pyr : PyRandom} {npr : NumpyRandom} {fkr : Faker}.
Context {libm : Libm} {zone : LocalZone} {pandas : Pandas}.
Local Open Scope run_scope.

(** X1.  The nodes of one call of [generate_nodes] carry, in order, the
    identifiers [node_NNNNNN] of the successive values of the node counter,
    starting from its value at the call; these identifiers are pairwise
    distinct; the node counter ends advanced by the number of nodes and the
    data counter is not touched. *)
Theorem node_identifiers count location_pattern distribution w nodes w' :
  generate_nodes count location_pattern distribution w = (Ok nodes, w') ->
  map Node.node_id nodes
    = map (fun i => node_label (node_counter (self w) + Z.of_nat i))
          (seq 0 (List.length nodes)) /\
  NoDup (map Node.node_id nodes) /\
  node_counter (self w') = node_counter (self w) + Z.of_nat (List.length nodes) /\
  data_counter (self w') = data_counter (self w).
Proof.
  intros E. apply generate_nodes_issued in E.
  destruct E as [Hn [_ [_ [M1 [M2 _]]]]].
  split; [exact Hn | split; [| split; [exact M1 | lia]]].
  exact (numbered_NoDup _ _ _ _ node_label_inj Hn).
Qed.

(** X3.  [generate_nodes] reads the clock once for each node, and the node
    with index [i] is registered at most 30 days (2592000 seconds) before
    the whole second of the reading with index [i], never after it. *)
Theorem registration_window count location_pattern distribution w nodes w' :
  generate_nodes count location_pattern distribution w = (Ok nodes, w') ->
  ticks w' = (ticks w + List.length nodes)%nat /\
  wallclock w' = wallclock w /\
  forall i node, nth_error nodes i = Some node ->
    py_int (wallclock w (ticks w + i)) - 2592000 <= Node.registered_at node
    /\ Node.registered_at node <= py_int (wallclock w (ticks w + i)).
Proof.
  intros E. apply generate_nodes_issued in E.
  destruct E as [_ [_ [Hr [_ [_ [M3 M4]]]]]].
  split; [exact M4 | split; [exact M3 |]].
  intros i node Hi. exact (Hr i node Hi).
Qed.

(** X5.  A distribution [np.random.choice] refuses (no key, a negative
    weight, or a total farther than [atol] from 1) makes [generate_nodes]
    raise [ValueError] before anything is drawn or counted, as soon as one
    node is asked for; for a count of zero or less the distribution is never
    looked at and the empty list is returned. *)
Theorem refused_distribution d count location_pattern w :
  ~ valid_distribution d ->
  generate_nodes count location_pattern (Some d) w
    = if 0 <? count then (Raise ValueError, w) else (Ok [], w).
Proof.
  intros Hd. unfold generate_nodes, range.
  destruct (Z.ltb_spec 0 count) as [Hpos | Hneg].
  - destruct (Z.to_nat count) as [| k] eqn:Ek; [lia |].
    cbn [seq map for_each]. unfold bind at 1 2.
    unfold generate_node at 1. unfold bind at 1.
    rewrite (np_choice_invalid d w Hd). reflexivity.
  - replace (Z.to_nat count) with O by lia. reflexivity.
Qed.

End NodeBookkeeping.
Section SeriesIssue.
Context {pyr : PyRandom} {npr : NumpyRandom} {fkr : Faker}.
Context {libm : Libm} {zone : LocalZone} {pandas : Pandas}.
Local Open Scope run_scope.

Lemma points_issued_start label ap w : points_issued label ap w [] w.
Proof.
  unfold points_issued. split; [apply numbered_nil |].
  split; [constructor | split; [constructor |]].
  unfold moved. cbn. repeat split; lia.
Qed.

Lemma points_issued_app label ap w acc w1 pts w2 :
  points_issued label ap w acc w1 -> points_issued label ap w1 pts w2 ->
  points_issued label ap w (acc ++ pts) w2.
Proof.
  intros [Hn [H0 [H1 Hm]]] [Kn [K0 [K1 Km]]].
  unfold points_issued. rewrite length_app.
  destruct Hm as [M1 [M2 [M3 M4]]]. destruct Km as [N1 [N2 [N3 N4]]].
  split; [| split; [| split]].
  - apply numbered_app; [exact Hn |]. rewrite <- M2. exact Kn.
  - intros Hap. apply Forall_app. split; [apply H0 | apply K0]; exact Hap.
  - intros Hap. apply Forall_app. split; [apply H1 | apply K1]; exact Hap.
  - unfold moved. repeat split; [lia | lia | congruence | lia].
Qed.

(** One point: it takes the label of the data counter, which advances by
    one; the clock is not read. *)
Lemma wp_generate_node_hour_issued node pattern start ap h w :
  (0 <= noise_level pattern)%Q ->
  wp (generate_node_hour node pattern start ap h)
     (fun p w' => points_issued data_label ap w [p] w') w.
Proof.
  intros Hnoise. unfold generate_node_hour. cbv zeta.
  apply wp_bind. apply wp_np_normal_kept; [exact Hnoise |]. intros noise w1 K1.
  apply wp_bind. apply wp_py_random_kept. intros r w2 Hr0 Hr1 K2.
  apply wp_bind.
  apply wp_mono with (P := fun _ w' => kept w2 w').
  - destruct (ltb r ap); [| apply wp_ret; apply kept_refl].
    apply wp_bind. apply wp_np_uniform_kept. intros low w3 _ K3.
    apply wp_bind. apply wp_np_uniform_kept. intros high w4 _ K4.
    apply wp_bind. apply wp_py_choice_kept; [discriminate |]. intros f w5 _ K5.
    apply wp_ret. exact (moved_trans _ _ _ _ _ _ _ _ _ (moved_trans _ _ _ _ _ _ _ _ _ K3 K4) K5).
  - intros kwh w3 K3. apply wp_bind. apply wp_get_data_counter.
    apply wp_bind. apply wp_incr_data_counter_moved. intros w4 K4.
    apply wp_ret.
    pose proof (moved_trans _ _ _ _ _ _ _ _ _
                  (moved_trans _ _ _ _ _ _ _ _ _
                     (moved_trans _ _ _ _ _ _ _ _ _ K1 K2) K3) K4) as K.
    unfold points_issued. cbn [List.length Point.anomaly].
    split; [| split; [| split; [| exact K]]].
    + apply numbered_one. cbn [Point.data_id].
      destruct K1 as [_ [E1 _]], K2 as [_ [E2 _]], K3 as [_ [E3 _]].
      unfold data_label. do 2 f_equal. lia.
    + intros Hap. constructor; [| constructor].
      apply ltb_of_le. apply Qle_trans with 0%Q; assumption.
    + intros Hap. constructor; [| constructor].
      apply ltb_of_lt. apply Qlt_le_trans with 1%Q; assumption.
Qed.

Lemma wp_generate_node_time_series_issued node pattern start d ap w :
  (0 <= noise_level pattern)%Q ->
  wp (_generate_node_time_series node pattern start d ap)
     (fun pts w' => points_issued data_label ap w pts w') w.
Proof.
  intros Hnoise. unfold _generate_node_time_series.
  apply (wp_for_each_acc (fun acc w' => points_issued data_label ap w acc w') _ _)
    with (acc := []); [| apply points_issued_start].
  intros h acc w1 _ Hacc. apply wp_bind.
  eapply wp_mono; [apply wp_generate_node_hour_issued; exact Hnoise |].
  intros p w2 Hp. apply wp_ret. exact (points_issued_app _ _ _ _ _ _ _ Hacc Hp).
Qed.

(** Whatever the nodes, a call of [generate_time_series] that returns has
    issued its points so. *)
Lemma generate_time_series_issued nodes start d ap w pts w' :
  generate_time_series nodes start d ap w = (Ok pts, w') ->
  points_issued data_label ap w pts w'.
Proof.
  intros E.
  apply (wlp_run (generate_time_series nodes start d ap)
           (fun pts w' => points_issued data_label ap w pts w') w pts w'); [| exact E].
  unfold generate_time_series.
  apply (wlp_for_each_acc (fun acc w' => points_issued data_label ap w acc w') _ _)
    with (acc := []); [| apply points_issued_start].
  intros node acc w1 _ Hacc.
  destruct (Node.active node); cbn [negb].
  - destruct (dict_get patterns (Node.pattern_type node)) as [pattern |] eqn:Ep.
    + apply wp_wlp. eapply wp_mono;
        [apply wp_generate_node_time_series_issued; exact (patterns_noise _ _ Ep) |].
      intros s w2 Hs. exact (points_issued_app _ _ _ _ _ _ _ Hacc Hs).
    + apply wlp_raise.
  - apply wlp_ret. rewrite app_nil_r. exact Hacc.
Qed.

End SeriesIssue.
(* ================================================================== *)
(** ** Series: identifiers, anomaly flags, batches *)

Section SeriesBookkeeping.
Context {pyr : PyRandom} {npr : NumpyRandom} {fkr : Faker}.
Context {libm : Libm} {zone : LocalZone} {pandas : Pandas}.
Local Open Scope run_scope.

(** X6.  The points of one call of [generate_time_series] carry, in order,
    the identifiers [data_NNNNNNNN] of the successive values of the data
    counter, starting from its value at the call; these identifiers are
    pairwise distinct; the data counter ends advanced by the number of
    points, and neither the node counter nor the clock is touched. *)
Theorem data_identifiers nodes start d ap w pts w' :
  generate_time_series nodes start d ap w = (Ok pts, w') ->
  map Point.data_id pts
    = map (fun i => data_label (data_counter (self w) + Z.of_nat i))
          (seq 0 (List.length pts)) /\
  NoDup (map Point.data_id pts) /\
  data_counter (self w') = data_counter (self w) + Z.of_nat (List.length pts) /\
  node_counter (self w') = node_counter (self w) /\
  ticks w' = ticks w.
Proof.
  intros E. apply generate_time_series_issued in E.
  destruct E as [Hn [_ [_ [M1 [M2 [_ M4]]]]]].
  split; [exact Hn | split; [| split; [exact M2 | split; lia]]].
  exact (numbered_NoDup _ _ _ _ data_label_inj Hn).
Qed.

(** X7.  With an anomaly probability of 0 or less no point is flagged as an
    anomaly; with one of 1 or more every point is. *)
Theorem anomaly_extremes nodes start d ap w pts w' :
  generate_time_series nodes start d ap w = (Ok pts, w') ->
  ((ap <= 0)%Q -> Forall (fun p => Point.anomaly p = false) pts) /\
  ((1 <= ap)%Q -> Forall (fun p => Point.anomaly p = true) pts).
Proof.
  intros E. apply generate_time_series_issued in E.
  destruct E as [_ [H0 [H1 _]]]. split; assumption.
Qed.

(** X2.  Two data sets made one after the other by the same generator share
    no node identifier and no data identifier. *)
Theorem identifiers_across_calls
    count1 location1 distribution1 start1 d1 ap1
    count2 location2 distribution2 start2 d2 ap2
    w nodes1 w1 pts1 w2 nodes2 w3 pts2 w4 :
  generate_nodes count1 location1 distribution1 w = (Ok nodes1, w1) ->
  generate_time_series nodes1 start1 d1 ap1 w1 = (Ok pts1, w2) ->
  generate_nodes count2 location2 distribution2 w2 = (Ok nodes2, w3) ->
  generate_time_series nodes2 start2 d2 ap2 w3 = (Ok pts2, w4) ->
  NoDup (map Node.node_id (nodes1 ++ nodes2)) /\
  NoDup (map Point.data_id (pts1 ++ pts2)).
Proof.
  intros E1 E2 E3 E4.
  apply generate_nodes_issued in E1. apply generate_time_series_issued in E2.
  apply generate_nodes_issued in E3. apply generate_time_series_issued in E4.
  destruct E1 as [Hn1 [_ [_ [A1 [A2 _]]]]].
  destruct E2 as [Hp1 [_ [_ [B1 [B2 _]]]]].
  destruct E3 as [Hn2 [_ [_ [C1 [C2 _]]]]].
  destruct E4 as [Hp2 _].
  split.
  - apply (numbered_NoDup _ _ (node_counter (self w)) _ node_label_inj).
    apply numbered_app; [exact Hn1 |].
    replace (node_counter (self w) + Z.of_nat (List.length nodes1))
      with (node_counter (self w2)) by lia.
    exact Hn2.
  - apply (numbered_NoDup _ _ (data_counter (self w1)) _ data_label_inj).
    apply numbered_app; [exact Hp1 |].
    replace (data_counter (self w1) + Z.of_nat (List.length pts1))
      with (data_counter (self w3)) by lia.
    exact Hp2.
Qed.

Lemma dict_get_keys {V : Type} (d : dict V) (k : string) :
  In k (keys d) -> dict_get d k <> None.
Proof.
  induction d as [| [k' v] r IH]; simpl; [contradiction |].
  intros [E | Hin].
  - subst k'. rewrite String.eqb_refl. discriminate.
  - destruct (String.eqb k k'); [discriminate | apply IH; exact Hin].
Qed.

Lemma length_series start d nodes series :
  Forall2 (node_series start d) nodes series ->
  List.length (List.concat series)
  = (Z.to_nat d * List.length (filter Node.active nodes))%nat.
Proof.
  induction 1 as [| node s nodes' series' Hs _ IH]; simpl; [lia |].
  rewrite length_app, IH. unfold node_series in Hs.
  destruct (Node.active node).
  - apply Forall2_length in Hs. rewrite length_range in Hs. simpl. lia.
  - subst s. simpl. lia.
Qed.

Lemma issued_nodes_known (d : dict Q) (nodes : list EnergyNode) :
  incl (keys d) (keys patterns) ->
  Forall (fun node => In (Node.pattern_type node) (keys d)) nodes ->
  patterns_known nodes.
Proof.
  intros Hk Hp. unfold patterns_known. eapply Forall_impl; [| exact Hp].
  intros node Hin _. apply dict_get_keys. apply Hk. exact Hin.
Qed.


(** A loop over two lists one after the other is the loop over the first,
    then the loop over the second. *)
Lemma for_each_app {A B : Type} (xs ys : list A) (body : A -> M (list B)) w :
  for_each (xs ++ ys) body w
  = (a <- for_each xs body ;; b <- for_each ys body ;; ret (a ++ b)) w.
Proof.
  revert w. induction xs as [| x r IH]; intros w.
  - simpl. unfold bind, ret. destruct (for_each ys body w) as [[b | e] w']; reflexivity.
  - cbn [app for_each]. unfold bind, ret.
    destruct (body x w) as [[c | e] w1]; [| reflexivity].
    rewrite IH. unfold bind, ret.
    destruct (for_each r body w1) as [[a | e] w2]; [| reflexivity].
    destruct (for_each ys body w2) as [[b | e] w3]; [| reflexivity].
    rewrite app_assoc. reflexivity.
Qed.

(** X8.  A node list can be served in batches, and inactive nodes count for
    nothing: the call on [nodes1 ++ nodes2] is the call on [nodes1] followed
    by the call on [nodes2] (same points, same exception, same final state),
    and the call on a list is the call on its active nodes. *)
Theorem series_in_batches start d ap :
  (forall nodes1 nodes2 w,
      generate_time_series (nodes1 ++ nodes2) start d ap w
      = (a <- generate_time_series nodes1 start d ap ;;
         b <- generate_time_series nodes2 start d ap ;;
         ret (a ++ b)) w) /\
  (forall nodes w,
      generate_time_series nodes start d ap w
      = generate_time_series (filter Node.active nodes) start d ap w).
Proof.
  split.
  - intros nodes1 nodes2 w. unfold generate_time_series. apply for_each_app.
  - intros nodes. unfold generate_time_series.
    induction nodes as [| node r IH]; intros w; [reflexivity |].
    cbn [filter]. destruct (Node.active node) eqn:Ea.
    + cbn [for_each]. rewrite Ea. cbn [negb]. unfold bind, ret.
      destruct (dict_get patterns (Node.pattern_type node)) as [pattern |];
        [| reflexivity].
      destruct (_generate_node_time_series node pattern start d ap w)
        as [[ys | e] w1]; [| reflexivity].
      rewrite IH. reflexivity.
    + cbn [for_each]. rewrite Ea. cbn [negb]. unfold bind, ret. rewrite IH.
      destruct (for_each _ _ w) as [[zs | e] w1]; reflexivity.
Qed.

End SeriesBookkeeping.
(* ================================================================== *)
(** ** The merge: identifiers, places, and how much it returns *)

Section MergeIssue.
Context {pyr : PyRandom} {npr : NumpyRandom} {fkr : Faker}.
Context {libm : Libm} {zone : LocalZone} {pandas : Pandas}.
Local Open Scope run_scope.

Lemma merge_issued_start w w' dt : moved 0 0 dt w w' -> merge_issued w [] w'.
Proof.
  intros H. unfold merge_issued.
  split; [apply numbered_nil | split; [constructor |]]. exists dt. exact H.
Qed.

Lemma merge_issued_app w acc w1 pts w2 :
  merge_issued w acc w1 -> merge_issued w1 pts w2 -> merge_issued w (acc ++ pts) w2.
Proof.
  intros [Hn [Hu [dt Hm]]] [Kn [Ku [dt' Km]]].
  unfold merge_issued. rewrite length_app.
  destruct Hm as [M1 [M2 [M3 M4]]]. destruct Km as [N1 [N2 [N3 N4]]].
  split; [| split].
  - apply numbered_app; [exact Hn |]. rewrite <- M2. exact Kn.
  - apply Forall_app. split; assumption.
  - exists (dt + dt')%nat. unfold moved. repeat split; [lia | lia | congruence | lia].
Qed.

Lemma wp_safe_extract_timestamp_moved (row : Series) (column : string) w :
  wp (_safe_extract_timestamp row column)
     (fun _ w' => exists dt, moved 0 0 dt w w') w.
Proof.
  assert (Hf : wp fallback_timestamp (fun _ w' => exists dt, moved 0 0 dt w w') w).
  { unfold fallback_timestamp.
    apply wp_bind. apply wp_time_time_moved. intros w1 K1.
    apply wp_bind. apply wp_py_randint_kept; [lia |]. intros age w2 _ K2.
    apply wp_ret. exists 1%nat. exact (moved_trans _ _ _ _ _ _ _ _ _ K1 K2). }
  unfold _safe_extract_timestamp.
  destruct (dict_get row column) as [[| z | x | s] |];
    try (apply wp_ret; exists 0%nat; apply kept_refl); [| exact Hf].
  destruct (to_datetime s); [apply wp_ret; exists 0%nat; apply kept_refl | exact Hf].
Qed.

Lemma wp_safe_extract_string_kept (row : Series) (column : string) w :
  wp (_safe_extract_string row column) (fun _ w' => kept w w') w.
Proof.
  unfold _safe_extract_string.
  destruct (dict_get row column) as [[| z | x | s] |];
    first [apply wp_ret; apply kept_refl | apply wp_fake_uuid4_kept; trivial].
Qed.

Lemma wp_generate_realistic_location_kept w :
  wp _generate_realistic_location
     (fun loc w' =>
        kept w w' /\
        exists area, In area urban_areas /\
          (fst (bounds_lat area) <= snd (fst loc))%Q /\
          (snd (fst loc) <= snd (bounds_lat area))%Q /\
          (fst (bounds_lon area) <= snd loc)%Q /\
          (snd loc <= snd (bounds_lon area))%Q /\
          fst (fst loc) = location_string (snd (fst loc)) (snd loc)) w.
Proof.
  unfold _generate_realistic_location.
  apply wp_bind. apply wp_py_choice_kept; [exact urban_areas_not_empty |].
  intros area w1 Harea K1.
  pose proof urban_areas_well_formed as Hwf. rewrite Forall_forall in Hwf.
  destruct (Hwf area Harea) as [Hl1 [Hl2 [Hl3 Hl4]]].
  apply wp_bind. apply wp_np_uniform_kept. intros lat w2 Hlat K2.
  apply wp_bind. apply wp_np_uniform_kept. intros lon w3 Hlon K3.
  apply wp_ret. split.
  - exact (moved_trans _ _ _ _ _ _ _ _ _ (moved_trans _ _ _ _ _ _ _ _ _ K1 K2) K3).
  - exists area. cbn [fst snd].
    destruct Hlat as [? ?]; [lra |]. destruct Hlon as [? ?]; [lra |].
    repeat split; assumption.
Qed.

(** The loop body on a table whose first two columns exist: at most one
    point, issued under the label of the data counter. *)
Lemma wp_merge_row_issued (df : DataFrame) (detected : dict string) (row : Series)
    (c0 c1 : string) w :
  nth_error (columns df) 0 = Some c0 -> nth_error (columns df) 1 = Some c1 ->
  wp (merge_row df detected row)
     (fun pts w' => (List.length pts <= 1)%nat /\ merge_issued w pts w') w.
Proof.
  intros E0 E1. unfold merge_row, column_at. rewrite E0, E1.
  apply wp_bind. apply wp_ret. apply wp_bind. apply wp_ret.
  apply wp_bind. eapply wp_mono; [apply wp_safe_extract_timestamp_moved |].
  intros ts w1 [dt K1].
  apply wp_bind. eapply wp_mono; [apply wp_safe_extract_string_kept |].
  intros meter_id w2 K2.
  pose proof (moved_trans _ _ _ _ _ _ _ _ _ K1 K2) as K12.
  destruct (_safe_extract_numeric row _) as [kwh |];
    [| apply wp_ret; split; [simpl; lia | exact (merge_issued_start _ _ _ K12)]].
  destruct ts as [t |];
    [| apply wp_ret; split; [simpl; lia | exact (merge_issued_start _ _ _ K12)]].
  apply wp_bind. eapply wp_mono; [apply wp_generate_realistic_location_kept |].
  intros loc w3 [K3 [area [Harea [Hb1 [Hb2 [Hb3 [Hb4 Hloc]]]]]]].
  apply wp_bind. apply wp_np_uniform_kept. intros factor w4 _ K4. cbv zeta.
  apply wp_bind. apply wp_get_data_counter.
  apply wp_bind. apply wp_incr_data_counter_moved. intros w5 K5.
  apply wp_ret. split; [simpl; lia |].
  pose proof (moved_trans _ _ _ _ _ _ _ _ _
                (moved_trans _ _ _ _ _ _ _ _ _ K12 K3) K4) as K14.
  unfold merge_issued. cbn [List.length].
  split; [| split].
  - apply numbered_one. cbn [Point.data_id]. unfold kaggle_label.
    destruct K14 as [_ [E _]]. do 2 f_equal. lia.
  - constructor; [| constructor]. unfold urban_point.
    cbn [Point.location Point.node_id Point.anomaly].
    split; [| split; [exists meter_id; reflexivity | reflexivity]].
    exists area, (snd (fst loc)), (snd loc). repeat split; assumption.
  - exists (dt + 0 + 0 + 0 + 0)%nat. exact (moved_trans _ _ _ _ _ _ _ _ _ K14 K5).
Qed.

(** On a table of fewer than two columns the loop body raises [IndexError]
    at once. *)
Lemma merge_row_narrow (df : DataFrame) (detected : dict string) (row : Series) w :
  (List.length (columns df) < 2)%nat ->
  merge_row df detected row w = (Raise IndexError, w).
Proof.
  intros H. unfold merge_row, column_at, bind.
  destruct (columns df) as [| c0 [| c1 cs]]; simpl in *; [reflexivity | reflexivity | lia].
Qed.

Lemma for_each_raising {A B : Type} (xs : list A) (body : A -> M (list B)) (e : exn) w :
  (forall x w0, body x w0 = (Raise e, w0)) ->
  for_each xs body w = match xs with
                       | [] => (Ok [], w)
                       | _ :: _ => (Raise e, w)
                       end.
Proof.
  intros H. destruct xs as [| x r]; [reflexivity |].
  cbn [for_each]. unfold bind. rewrite H. reflexivity.
Qed.

Lemma length_concat_le {A B : Type} (xs : list A) (yss : list (list B)) :
  Forall2 (fun _ ys => (List.length ys <= 1)%nat) xs yss ->
  (List.length (List.concat yss) <= List.length xs)%nat.
Proof.
  induction 1 as [| x ys xs' yss' H _ IH]; simpl; [lia |].
  rewrite length_app. lia.
Qed.

Lemma wlp_df_sample_kept (df : DataFrame) (n : Z) w :
  wlp (df_sample df n)
      (fun s w' => kept w w' /\ 0 <= n /\ Z.of_nat (List.length (records s)) <= n) w.
Proof.
  unfold df_sample.
  destruct (n <? 0) eqn:E1; [apply wlp_raise |].
  destruct (Z.of_nat (List.length (records df)) <? n) eqn:E2; [apply wlp_raise |].
  cbn [orb]. unfold wlp.
  apply Z.ltb_ge in E1. apply Z.ltb_ge in E2.
  pose proof (sample_positions_spec (List.length (records df)) (Z.to_nat n) (np w)
                ltac:(lia)) as Hs.
  destruct (sample_positions _ _ _) as [pos s]. cbn [fst] in Hs.
  destruct Hs as [Hlen [_ Hall]].
  destruct (flat_map_positions (records df) pos Hall) as [Hl _].
  cbn [records]. split; [apply kept_with_np | split; [exact E1 |]].
  rewrite Hl, Hlen. lia.
Qed.

Lemma df_sample_raise_kept (df : DataFrame) (n : Z) w e w' :
  df_sample df n w = (Raise e, w') -> w' = w.
Proof.
  unfold df_sample. destruct (orb _ _).
  - unfold raise. intros E. injection E as _ E. symmetry. exact E.
  - destruct (sample_positions _ _ _). discriminate.
Qed.

(** Every call of the merge returns; its points are issued under the labels
    of the data counter, and they are at most [sample_size]. *)
Lemma merge_outcome (path : string) (sample_size : Z) w :
  exists pts w',
    merge_with_kaggle_data path sample_size w = (Ok pts, w') /\
    merge_issued w pts w' /\
    Z.of_nat (List.length pts) <= Z.max 0 sample_size /\
    (forall df, read_csv path = Ok df ->
                (List.length pts <= List.length (records df))%nat).
Proof.
  unfold merge_with_kaggle_data, try_except, merge_body.
  unfold bind at 1, pd_read_csv.
  destruct (read_csv path) as [df | e].
  2:{ exists [], w. split; [reflexivity |].
      split; [exact (merge_issued_start _ _ _ (kept_refl w)) |].
      split; [simpl; lia | intros df0 _; simpl; lia]. }
  cbv zeta. set (n := py_min sample_size (Z.of_nat (List.length (records df)))).
  assert (Hn : n <= sample_size /\ n <= Z.of_nat (List.length (records df))).
  { unfold n, py_min.
    destruct (Z.ltb_spec (Z.of_nat (List.length (records df))) sample_size); lia. }
  destruct Hn as [Hn Hn'].
  unfold bind.
  pose proof (wlp_df_sample_kept df n w) as Hs. unfold wlp in Hs.
  destruct (df_sample df n w) as [[sample | e] w1] eqn:Es.
  2:{ apply df_sample_raise_kept in Es. subst w1. exists [], w. split; [reflexivity |].
      split; [exact (merge_issued_start _ _ _ (kept_refl w)) |].
      split; [simpl; lia | intros df0 _; simpl; lia]. }
  destruct Hs as [K1 [Hn0 Hlen]].
  assert (Hrows : List.length (iterrows sample) = List.length (records sample)).
  { unfold iterrows. apply length_map. }
  destruct (Nat.lt_ge_cases (List.length (columns df)) 2) as [Hnarrow | Hwide].
  - rewrite (for_each_raising _ _ IndexError w1
               (fun row w0 => merge_row_narrow df _ row w0 Hnarrow)).
    exists [], w1.
    split; [destruct (iterrows sample); reflexivity |].
    split; [exact (merge_issued_start _ _ _ K1) |].
    split; [simpl; lia | intros df0 _; simpl; lia].
  - destruct (columns df) as [| c0 [| c1 cs]] eqn:Ecols; simpl in Hwide; try lia.
    rewrite <- Ecols.
    assert (E0 : nth_error (columns df) 0 = Some c0) by (rewrite Ecols; reflexivity).
    assert (E1 : nth_error (columns df) 1 = Some c1) by (rewrite Ecols; reflexivity).
    pose proof (wp_conj _ _ _ _
      (wp_for_each (fun _ ys => (List.length ys <= 1)%nat) (iterrows sample)
         (merge_row df (detect_columns (columns df)))
         (fun row _ w0 =>
            wp_mono _ _ _ _ (wp_merge_row_issued df _ row c0 c1 w0 E0 E1)
              (fun pts w' H => proj1 H)) w1)
      (wp_for_each_acc (fun acc w' => merge_issued w acc w') (iterrows sample)
         (merge_row df (detect_columns (columns df)))
         (fun row acc w0 _ Hacc =>
            wp_mono _ _ _ _ (wp_merge_row_issued df _ row c0 c1 w0 E0 E1)
              (fun pts w' H => merge_issued_app _ _ _ _ _ Hacc (proj2 H)))
         [] w1 (merge_issued_start _ _ _ K1))) as H.
    unfold wp in H.
    destruct (for_each (iterrows sample) (merge_row df (detect_columns (columns df))) w1)
      as [[pts | e] w2]; [| contradiction].
    destruct H as [[yss [-> Hall]] Hissued].
    exists (List.concat yss), w2. split; [reflexivity | split; [exact Hissued |]].
    pose proof (length_concat_le _ _ Hall).
    split; [lia | intros df0 Edf; injection Edf as <-; lia].
Qed.


(** X11.  Every merged point is placed in the bounding box of one of the
    five urban areas, its location string printing that place; its node
    identifier starts with [kaggle_] and it is not flagged as an anomaly. *)
Theorem merged_places path sample_size w pts w' :
  merge_with_kaggle_data path sample_size w = (Ok pts, w') ->
  Forall (fun p =>
            (exists area lat lon,
                In area urban_areas /\
                (fst (bounds_lat area) <= lat)%Q /\ (lat <= snd (bounds_lat area))%Q /\
                (fst (bounds_lon area) <= lon)%Q /\ (lon <= snd (bounds_lon area))%Q /\
                Point.location p = location_string lat lon) /\
            (exists meter_id, Point.node_id p = "kaggle_" ++ meter_id)%string /\
            Point.anomaly p = false) pts.
Proof.
  intros E.
  destruct (merge_outcome path sample_size w) as [pts0 [w0 [E0 [[_ [Hu _]] _]]]].
  rewrite E in E0. injection E0 as <- <-. exact Hu.
Qed.

(** X12.  The merge returns at most [sample_size] points and at most as many
    as the table has rows; for a sample size of zero or less it returns
    none (for a negative one, [df.sample] raises inside the [try] block). *)
Theorem merged_sample_bound path sample_size w :
  exists pts w',
    merge_with_kaggle_data path sample_size w = (Ok pts, w') /\
    Z.of_nat (List.length pts) <= Z.max 0 sample_size /\
    (sample_size <= 0 -> pts = []) /\
    (forall df, read_csv path = Ok df ->
                (List.length pts <= List.length (records df))%nat).
Proof.
  destruct (merge_outcome path sample_size w) as [pts [w' [E [_ [Hs Hr]]]]].
  exists pts, w'. split; [exact E | split; [exact Hs | split; [| exact Hr]]].
  intros Hneg. destruct pts as [| p r]; [reflexivity |]. simpl in Hs. lia.
Qed.

End MergeIssue.
(* ================================================================== *)
(** ** Column detection *)

Section Detection.
Local Open Scope string_scope.

Lemma append_assoc_str (a b c : string) : (a ++ b) ++ c = a ++ (b ++ c).
Proof. induction a as [| x a IH]; simpl; [reflexivity | rewrite IH; reflexivity]. Qed.

Lemma starts_with_spec (p s : string) :
  starts_with p s = true <-> exists r, s = p ++ r.
Proof.
  revert s. induction p as [| a p IH]; intros s; simpl.
  - split; [intros _; exists s; reflexivity | reflexivity].
  - destruct s as [| b s].
    + split; [discriminate | intros [r E]; discriminate E].
    + rewrite andb_true_iff, IH. split.
      * intros [Hab [r E]]. apply Ascii.eqb_eq in Hab. subst. exists r. reflexivity.
      * intros [r E]. injection E as E1 E2. subst.
        split; [apply Ascii.eqb_refl | exists r; reflexivity].
Qed.

(** [needle in hay]: the needle lies somewhere in the hay. *)
Lemma contains_spec (needle hay : string) :
  contains needle hay = true <-> exists a b, hay = a ++ needle ++ b.
Proof.
  induction hay as [| c hay IH].
  - simpl. rewrite orb_false_r, starts_with_spec. split.
    + intros [r E]. exists "", r. exact E.
    + intros [a [b E]]. destruct a; [exists b; exact E | discriminate E].
  - cbn [contains]. rewrite orb_true_iff, starts_with_spec, IH. split.
    + intros [[r E] | [a [b E]]].
      * exists "", r. exact E.
      * exists (String c a), b. simpl. rewrite E. reflexivity.
    + intros [a [b E]]. destruct a as [| x a].
      * left. exists b. exact E.
      * right. simpl in E. injection E as _ E. exists a, b. exact E.
Qed.

Lemma contains_trans (a b c : string) :
  contains a b = true -> contains b c = true -> contains a c = true.
Proof.
  rewrite !contains_spec. intros [x [y E1]] [u [v E2]]. subst.
  exists (u ++ x), (y ++ v). rewrite !append_assoc_str. reflexivity.
Qed.

(** A label that contains a word contains every part of the word. *)
Lemma mentions_part (part word col : string) :
  contains part word = true -> mentions word col = true -> mentions part col = true.
Proof. unfold mentions. apply contains_trans. Qed.

Lemma find_ext {A : Type} (f g : A -> bool) (l : list A) :
  (forall x, f x = g x) -> find f l = find g l.
Proof.
  intros H. induction l as [| x r IH]; simpl; [reflexivity |].
  rewrite H, IH. reflexivity.
Qed.

Lemma implied_bool (a b : bool) : (a = true -> b = true) -> orb a b = b.
Proof. destruct a, b; simpl; intros H; try reflexivity. symmetry. apply H. reflexivity. Qed.

(** X13.  What the auto-detection of [merge_with_kaggle_data] finds, in
    short.  Each of the three columns is the leftmost one whose lower-cased
    label contains one of the candidate words, whatever the order of the
    candidates; for the timestamp only the words [time] and [date] count and
    for the meter only [id] and [meter], the other candidates containing one
    of these. *)
Theorem detection_in_short (cols : list string) :
  dict_get (detect_columns cols) "energy"
    = find (fun col => mentions "energy" col || mentions "kwh" col
                       || mentions "consumption" col || mentions "usage" col
                       || mentions "power" col) cols /\
  dict_get (detect_columns cols) "timestamp"
    = find (fun col => mentions "time" col || mentions "date" col) cols /\
  dict_get (detect_columns cols) "meter_id"
    = find (fun col => mentions "id" col || mentions "meter" col) cols.
Proof.
  assert (He : detect_column ["energy"; "kwh"; "consumption"; "usage"; "power"] cols
               = find (fun col => mentions "energy" col || mentions "kwh" col
                                  || mentions "consumption" col || mentions "usage" col
                                  || mentions "power" col) cols).
  { unfold detect_column. apply find_ext. intros col. unfold mentions. cbn.
    rewrite orb_false_r, !orb_assoc. reflexivity. }
  assert (Ht : detect_column ["timestamp"; "datetime"; "date_time"; "time"; "date"] cols
               = find (fun col => mentions "time" col || mentions "date" col) cols).
  { unfold detect_column. apply find_ext. intros col. cbn [existsb].
    change (contains (lower "timestamp") (lower col)) with (mentions "timestamp" col).
    change (contains (lower "datetime") (lower col)) with (mentions "datetime" col).
    change (contains (lower "date_time") (lower col)) with (mentions "date_time" col).
    change (contains (lower "time") (lower col)) with (mentions "time" col).
    change (contains (lower "date") (lower col)) with (mentions "date" col).
    rewrite orb_false_r.
    rewrite (orb_assoc (mentions "date_time" col)).
    rewrite (implied_bool (mentions "date_time" col) (mentions "time" col))
      by (apply mentions_part; reflexivity).
    rewrite (orb_assoc (mentions "datetime" col)).
    rewrite (implied_bool (mentions "datetime" col) (mentions "time" col))
      by (apply mentions_part; reflexivity).
    rewrite (orb_assoc (mentions "timestamp" col)).
    rewrite (implied_bool (mentions "timestamp" col) (mentions "time" col))
      by (apply mentions_part; reflexivity).
    reflexivity. }
  assert (Hm : detect_column ["meter_id"; "id"; "meter"; "device_id"; "user_id"] cols
               = find (fun col => mentions "id" col || mentions "meter" col) cols).
  { unfold detect_column. apply find_ext. intros col. cbn [existsb].
    change (contains (lower "meter_id") (lower col)) with (mentions "meter_id" col).
    change (contains (lower "id") (lower col)) with (mentions "id" col).
    change (contains (lower "meter") (lower col)) with (mentions "meter" col).
    change (contains (lower "device_id") (lower col)) with (mentions "device_id" col).
    change (contains (lower "user_id") (lower col)) with (mentions "user_id" col).
    rewrite orb_false_r.
    rewrite (implied_bool (mentions "meter_id" col))
      by (intros H; rewrite (mentions_part "id" "meter_id" col eq_refl H); reflexivity).
    pose proof (mentions_part "id" "device_id" col eq_refl) as H1.
    pose proof (mentions_part "id" "user_id" col eq_refl) as H2.
    destruct (mentions "id" col), (mentions "meter" col),
             (mentions "device_id" col), (mentions "user_id" col);
      try reflexivity;
      first [discriminate (H1 eq_refl) | discriminate (H2 eq_refl)]. }
  unfold detect_columns, column_mappings. cbn [flat_map fst snd].
  rewrite He, Ht, Hm.
  destruct (find _ cols) as [e |]; destruct (find _ cols) as [t |];
    destruct (find _ cols) as [m |]; repeat split; reflexivity.
Qed.

End Detection.
(* ================================================================== *)
(** ** The mock server *)

Section DictFacts.
Context {V : Type}.

Lemma dict_get_set_same (d : dict V) (k : string) (v : V) :
  dict_get (dict_set d k v) k = Some v.
Proof.
  induction d as [| [k' v'] r IH]; simpl.
  - rewrite String.eqb_refl. reflexivity.
  - destruct (String.eqb k k') eqn:E; simpl; rewrite E; [reflexivity | exact IH].
Qed.

Lemma dict_get_set_other (d : dict V) (k k' : string) (v : V) :
  k' <> k -> dict_get (dict_set d k v) k' = dict_get d k'.
Proof.
  intros Hne. induction d as [| [k0 v0] r IH]; simpl.
  - destruct (String.eqb_spec k' k); [contradiction | reflexivity].
  - destruct (String.eqb_spec k k0) as [E | E]; simpl.
    + subst k0. destruct (String.eqb_spec k' k); [contradiction | reflexivity].
    + destruct (String.eqb k' k0); [reflexivity | exact IH].
Qed.

End DictFacts.

Section ServerFacts.
Context {pyr : PyRandom} {npr : NumpyRandom} {fkr : Faker}.
Context {libm : Libm} {zone : LocalZone} {pandas : Pandas}.
Local Open Scope run_scope.

Lemma wp_datetime_now (post : datetime * Z -> World -> Prop) w :
  (forall now w', fst now = fromtimestamp (Qfloor (wallclock w (ticks w))) ->
                  moved 0 0 1 w w' -> post now w') ->
  wp datetime_now post w.
Proof.
  intros H. unfold datetime_now. apply wp_bind. apply wp_time_time_moved.
  intros w' K. cbv zeta. apply wp_ret. apply H; [reflexivity | exact K].
Qed.

Lemma mock_distribution_valid (pattern_type : string) :
  valid_distribution [(pattern_type, 1.0%Q)].
Proof. split; [discriminate | reflexivity]. Qed.

Lemma mock_patterns_known (pattern_type : string) :
  In pattern_type mock_patterns -> dict_get patterns pattern_type <> None.
Proof.
  intros [<- | [<- | [<- | []]]]; discriminate.
Qed.

Lemma interval_of_hour_point node start h p :
  hour_point node start h p ->
  Interval.start (interval_of p)
    = isoformat (fromtimestamp (timestamp (add_hours start h))) /\
  Interval.end_ (interval_of p)
    = isoformat (add_hours (fromtimestamp (timestamp (add_hours start h))) 1) /\
  Interval.kW (interval_of p) = Interval.kWh (interval_of p) /\
  (0.1 <= Interval.kWh (interval_of p))%Q /\
  Interval.location (interval_of p) = Node.location node.
Proof.
  intros [_ [Hl [_ [Ht [_ [_ [_ Hk]]]]]]]. unfold interval_of. cbn.
  rewrite Ht. repeat split; assumption.
Qed.

(** [_generate_mock_data] up to the assignment to the cache: it always
    returns. *)
Lemma wp_mock_api_data (meter_id : string) (hours : Z) w :
  wp (mock_api_data meter_id hours) (fun api_data _ => mock_run w hours api_data) w.
Proof.
  unfold mock_api_data. fold mock_patterns.
  apply wp_bind. eapply wp_mono.
  { apply wp_remember. apply (wp_py_choice_kept mock_patterns
      (fun x w' => In x mock_patterns /\ kept w w')); [discriminate |].
    intros x w' Hin K. split; assumption. }
  intros pattern_type w1 [Ec [Hin K1]].
  apply wp_bind. eapply wp_mono.
  { apply wp_remember.
    apply (wp_generate_nodes 1 "urban" (Some [(pattern_type, 1.0%Q)]) w1).
    apply mock_distribution_valid. }
  intros nodes w2 [En [Hlen _]].
  destruct nodes as [| node [| n2 r]]; try discriminate Hlen.
  pose proof (generate_nodes_issued _ _ _ _ _ _ En) as [_ [Hp [_ K2]]].
  apply wp_bind. apply wp_ret.
  apply wp_bind. apply wp_datetime_now. intros now w3 Enow K3.
  cbv zeta.
  assert (Hstart : add_hours (fst now) (- hours) = mock_start w hours).
  { unfold mock_start. rewrite Enow. f_equal. f_equal.
    destruct K1 as [_ [_ [W1 T1]]], K2 as [_ [_ [W2 T2]]].
    rewrite W2, W1, T2, T1. f_equal. f_equal. lia. }
  rewrite Hstart.
  assert (Hknown : patterns_known [with_node_id node meter_id]).
  { constructor; [| constructor]. intros _. cbn [with_node_id Node.pattern_type].
    apply mock_patterns_known. inversion Hp as [| ? ? Hk _]. cbn in Hk.
    destruct Hk as [<- | []]. exact Hin. }
  apply wp_bind. eapply wp_mono;
    [apply (wp_generate_time_series _ (mock_start w hours) hours 0.01%Q w3 Hknown) |].
  intros pts w4 [series [-> Hs]]. apply wp_ret.
  exists pattern_type, w1, node, w2.
  split; [exact Ec | split; [exact En |]].
  inversion Hs as [| ? s ? ? Hs1 Hs2]. subst. inversion Hs2. subst.
  cbn [List.concat]. rewrite app_nil_r.
  unfold mock_intervals, node_series in *. cbn [with_node_id Node.active] in Hs1.
  destruct (Node.active node); [| subst s; reflexivity].
  clear - Hs1. induction Hs1 as [| h p hs ps Hp _ IH]; [constructor |].
  cbn [map]. constructor; [| exact IH].
  exact (interval_of_hour_point _ _ _ _ Hp).
Qed.

(** [_generate_mock_data] always returns, having put the intervals of its
    run under the meter and left the other meters alone. *)
Lemma generate_mock_data_run (meter_id : string) (hours : Z) (s : Service) :
  exists api_data s',
    _generate_mock_data meter_id hours s = (Ok tt, s') /\
    cached_data s' = dict_set (cached_data s) meter_id api_data /\
    mock_run (process s) hours api_data.
Proof.
  unfold _generate_mock_data.
  destruct (wp_run _ _ _ (wp_mock_api_data meter_id hours (process s)))
    as [api_data [w' [E H]]].
  rewrite E. exists api_data. eexists. split; [reflexivity |].
  split; [reflexivity | exact H].
Qed.

(** The look-up after the generation: from a state without the meter, the
    intervals of the run, now cached; from a state with it, the cached
    intervals and the same state. *)
Lemma cached_or_generated_run (meter_id : string) (s : Service) :
  match dict_get (cached_data s) meter_id with
  | Some data => cached_or_generated meter_id s = (Ok data, s)
  | None =>
      exists api_data s',
        cached_or_generated meter_id s = (Ok api_data, s') /\
        dict_get (cached_data s') meter_id = Some api_data /\
        (forall other, other <> meter_id ->
           dict_get (cached_data s') other = dict_get (cached_data s) other) /\
        mock_run (process s) 168 api_data
  end.
Proof.
  unfold cached_or_generated.
  destruct (dict_get (cached_data s) meter_id) as [data |] eqn:E.
  - rewrite E. reflexivity.
  - destruct (generate_mock_data_run meter_id 168 s) as [api [s' [Er [Ec Hm]]]].
    rewrite Er. exists api, s'. rewrite Ec, dict_get_set_same.
    split; [reflexivity | split; [reflexivity | split; [| exact Hm]]].
    intros other Hne. apply dict_get_set_other. exact Hne.
Qed.

End ServerFacts.
Section ServerAnswers.
Context {pyr : PyRandom} {npr : NumpyRandom} {fkr : Faker}.
Context {libm : Libm} {zone : LocalZone} {pandas : Pandas}.
Local Open Scope run_scope.

Lemma mock_intervals_length node start hours api_data :
  mock_intervals node start hours api_data ->
  List.length api_data = if Node.active node then Z.to_nat hours else O.
Proof.
  unfold mock_intervals. destruct (Node.active node).
  - intros H. apply Forall2_length in H. rewrite length_range in H. symmetry. exact H.
  - intros ->. reflexivity.
Qed.

Lemma mock_intervals_each node start hours api_data :
  mock_intervals node start hours api_data ->
  Forall (fun r => Interval.kW r = Interval.kWh r /\ (0.1 <= Interval.kWh r)%Q /\
                   Interval.location r = Node.location node) api_data.
Proof.
  unfold mock_intervals. destruct (Node.active node); [| intros ->; constructor].
  induction 1 as [| h r hs rs [_ [_ [H1 [H2 H3]]]] _ IH]; constructor;
    [repeat split; assumption | exact IH].
Qed.

(** X14.  [_generate_mock_data] never raises.  It chooses one of three
    pattern types, generates one urban node under it, and caches under the
    meter one interval for each of the [hours] hours when that node is
    active and no interval at all when it is inactive; in every interval
    [kW] equals [kWh], which is at least 0.1, and the location is the
    node's.  The entries of the other meters are left as they were. *)
Theorem mock_data_generated (meter_id : string) (hours : Z) (s : Service) :
  exists api_data s' pattern_type w1 node w2,
    _generate_mock_data meter_id hours s = (Ok tt, s') /\
    dict_get (cached_data s') meter_id = Some api_data /\
    (forall other, other <> meter_id ->
       dict_get (cached_data s') other = dict_get (cached_data s) other) /\
    py_choice mock_patterns (process s) = (Ok pattern_type, w1) /\
    In pattern_type mock_patterns /\
    generate_nodes 1 "urban" (Some [(pattern_type, 1.0%Q)]) w1 = (Ok [node], w2) /\
    List.length api_data = (if Node.active node then Z.to_nat hours else O) /\
    Forall (fun r => Interval.kW r = Interval.kWh r /\ (0.1 <= Interval.kWh r)%Q /\
                     Interval.location r = Node.location node) api_data.
Proof.
  destruct (generate_mock_data_run meter_id hours s)
    as [api [s' [Er [Ec [pattern_type [w1 [node [w2 [E1 [E2 Hm]]]]]]]]]].
  exists api, s', pattern_type, w1, node, w2.
  split; [exact Er |].
  split; [rewrite Ec; apply dict_get_set_same |].
  split; [intros other Hne; rewrite Ec; apply dict_get_set_other; exact Hne |].
  split; [exact E1 |].
  split.
  { pose proof (wp_py_choice_kept mock_patterns (fun x _ => In x mock_patterns)
                  (process s) ltac:(discriminate) (fun x _ Hin _ => Hin)) as Hc.
    unfold wp in Hc. rewrite E1 in Hc. exact Hc. }
  split; [exact E2 |].
  split; [exact (mock_intervals_length _ _ _ _ Hm) | exact (mock_intervals_each _ _ _ _ Hm)].
Qed.

Lemma add_hours_0 (t : datetime) : add_hours t 0 = t.
Proof. unfold add_hours. lia. Qed.

Lemma range_succ (n : nat) :
  range (Z.of_nat (S n)) = 0 :: map (fun h => h + 1) (range (Z.of_nat n)).
Proof.
  unfold range. rewrite !Nat2Z.id. cbn [seq map]. f_equal.
  rewrite <- seq_shift, !map_map. apply map_ext. intros k. lia.
Qed.

Lemma mock_interval_starts (off : Z) (start : datetime) (loc : string) hs
    (rs : list Interval) :
  (forall u, utc_to_wall u = u + off) ->
  Forall2 (fun h r =>
             Interval.start r
               = isoformat (fromtimestamp (timestamp (add_hours start h))) /\
             Interval.end_ r
               = isoformat (add_hours (fromtimestamp (timestamp (add_hours start h))) 1) /\
             Interval.kW r = Interval.kWh r /\
             (0.1 <= Interval.kWh r)%Q /\
             Interval.location r = loc) hs rs ->
  map Interval.start rs = map (fun h => isoformat (add_hours start h)) hs /\
  map Interval.end_ rs = map (fun h => isoformat (add_hours start (h + 1))) hs.
Proof.
  intros Hoff H. induction H as [| h r hs' rs' [Hs [He _]] _ [IH1 IH2]];
    [split; reflexivity |].
  cbn [map]. rewrite IH1, IH2, Hs, He.
  rewrite (fromtimestamp_constant_offset off _ Hoff).
  split; [reflexivity |]. do 2 f_equal. unfold add_hours. lia.
Qed.

(** X15.  The reading [get_latest_data] answers with for a node it has no
    intervals for yet is the first of the 168 it then caches: the one of the
    hour that began a week (168 hours) before the request, not the last
    hour.  Its [timestamp] is the local time of that hour's timestamp; in a
    zone of constant offset the cached intervals start at the successive
    hours from a week before the request on, each ending where the next one
    starts. *)
Theorem latest_is_oldest (node_id : Z) (s : Service) resp s' :
  dict_get (cached_data s) (node_label node_id) = None ->
  get_latest_data node_id s = (Ok resp, s') ->
  exists latest rest,
    dict_get (cached_data s') (node_label node_id) = Some (latest :: rest) /\
    List.length (latest :: rest) = 168%nat /\
    Latest.timestamp resp = Interval.start latest /\
    Latest.kWh resp = Interval.kWh latest /\
    Interval.start latest
      = isoformat (fromtimestamp (timestamp (mock_start (process s) 168))) /\
    (forall off, (forall u, utc_to_wall u = u + off) ->
       map Interval.start (latest :: rest)
         = map (fun h => isoformat (add_hours (mock_start (process s) 168) h))
               (range 168) /\
       map Interval.end_ (latest :: rest)
         = map (fun h => isoformat (add_hours (mock_start (process s) 168) (h + 1)))
               (range 168)).
Proof.
  intros Hnone E. unfold get_latest_data in E. fold (node_label node_id) in E.
  pose proof (cached_or_generated_run (node_label node_id) s) as Hrun.
  rewrite Hnone in Hrun.
  destruct Hrun as [api [s1 [Er [Ec [_ [pattern_type [w1 [node [w2 [_ [_ Hm]]]]]]]]]]].
  rewrite Er in E. destruct api as [| latest rest]; [discriminate E |].
  injection E as <- <-. exists latest, rest.
  split; [exact Ec |].
  pose proof (mock_intervals_length _ _ _ _ Hm) as Hlen.
  unfold mock_intervals in Hm.
  destruct (Node.active node); [| discriminate Hm].
  split; [exact Hlen |].
  split; [reflexivity | split; [reflexivity |]].
  split.
  - change 168 with (Z.of_nat 168) in Hm. rewrite range_succ in Hm.
    inversion Hm as [| h0 r0 hs rs [Hs0 _] Hrest]. subst.
    rewrite add_hours_0 in Hs0. exact Hs0.
  - intros off Hoff. exact (mock_interval_starts off _ _ _ _ Hoff Hm).
Qed.

End ServerAnswers.
Section ServerStability.
Context {pyr : PyRandom} {npr : NumpyRandom} {fkr : Faker}.
Context {libm : Libm} {zone : LocalZone} {pandas : Pandas}.
Local Open Scope run_scope.

(** After the look-up the meter is cached, and a second look-up returns the
    same intervals without a change of state. *)
Lemma cached_or_generated_settled (meter_id : string) (s : Service) :
  exists data s',
    cached_or_generated meter_id s = (Ok data, s') /\
    dict_get (cached_data s') meter_id = Some data /\
    cached_or_generated meter_id s' = (Ok data, s').
Proof.
  pose proof (cached_or_generated_run meter_id s) as H.
  destruct (dict_get (cached_data s) meter_id) as [data |] eqn:E.
  - exists data, s. split; [exact H | split; [exact E | exact H]].
  - destruct H as [api [s' [Er [Ec _]]]]. exists api, s'.
    split; [exact Er | split; [exact Ec |]].
    pose proof (cached_or_generated_run meter_id s') as H'. rewrite Ec in H'. exact H'.
Qed.

(** X16.  An answer of [get_latest_data] is settled: the next request for
    the same node gets the same answer, or the same exception, and changes
    nothing.  The only exception is [IndexError], raised when the list cached
    for the node is empty (the node generated for it was inactive); from then
    on every request for its latest reading fails, while [get_intervals]
    answers with no interval. *)
Theorem latest_answer_is_settled (node_id : Z) (s : Service) o s' :
  get_latest_data node_id s = (o, s') ->
  get_latest_data node_id s' = (o, s') /\
  match o with
  | Ok resp => Latest.nodeId resp = node_id /\ Latest.active resp = true
  | Raise e =>
      e = IndexError /\
      dict_get (cached_data s') (node_label node_id) = Some [] /\
      forall limit order,
        get_intervals (Some (node_label node_id)) limit order s'
        = (Ok {| Intervals.intervals := [];
                 Intervals.next := None;
                 Intervals.previous := None |}, s')
  end.
Proof.
  unfold get_latest_data, get_intervals. fold (node_label node_id).
  destruct (cached_or_generated_settled (node_label node_id) s)
    as [data [s1 [E1 [Ec E2]]]].
  rewrite E1. destruct data as [| latest rest]; intros E; injection E as <- <-;
    rewrite E2.
  - split; [reflexivity |]. split; [reflexivity | split; [exact Ec |]].
    intros limit order. unfold slice_to, sorted. cbn [fold_right List.length].
    destruct (0 <=? limit); rewrite firstn_nil; reflexivity.
  - split; [reflexivity | split; reflexivity].
Qed.

Lemma insert_sorted_perm {A : Type} (before : A -> A -> bool) (x : A) (l : list A) :
  Permutation.Permutation (insert_sorted before x l) (x :: l).
Proof.
  induction l as [| y r IH]; simpl; [apply Permutation.Permutation_refl |].
  destruct (before x y); [apply Permutation.Permutation_refl |].
  eapply Permutation.perm_trans; [apply Permutation.perm_skip; exact IH |].
  apply Permutation.perm_swap.
Qed.

(** Sorting rearranges. *)
Lemma sorted_perm {A : Type} (key : A -> string) (reverse : bool) (l : list A) :
  Permutation.Permutation (sorted key reverse l) l.
Proof.
  unfold sorted. induction l as [| x r IH]; simpl; [constructor |].
  eapply Permutation.perm_trans; [apply insert_sorted_perm |].
  apply Permutation.perm_skip. exact IH.
Qed.

Lemma slice_to_length {A : Type} (l : list A) (stop : Z) :
  Z.of_nat (List.length (slice_to l stop))
  = if 0 <=? stop then Z.min stop (Z.of_nat (List.length l))
    else Z.max 0 (Z.of_nat (List.length l) + stop).
Proof.
  unfold slice_to. destruct (Z.leb_spec 0 stop); rewrite length_firstn; lia.
Qed.

Lemma slice_to_incl {A : Type} (l : list A) (stop : Z) : incl (slice_to l stop) l.
Proof.
  assert (H : forall n x, In x (firstn n l) -> In x l).
  { intros n x Hx. rewrite <- (firstn_skipn n l). apply in_or_app. left. exact Hx. }
  unfold slice_to. intros x Hx. destruct (0 <=? stop); exact (H _ _ Hx).
Qed.

Lemma length_filter_le {A : Type} (f : A -> bool) (l : list A) :
  (List.length (filter f l) <= List.length l)%nat.
Proof.
  induction l as [| x r IH]; simpl; [lia |]. destruct (f x); simpl; lia.
Qed.


Lemma wp_bulk_data (node_count duration_hours : Z) w :
  wp (bulk_data node_count duration_hours)
     (fun r _ =>
        let nodes := fst (fst r) in
        let data_points := snd (fst r) in
        List.length nodes = Z.to_nat node_count /\
        List.length data_points
          = (Z.to_nat duration_hours * List.length (filter Node.active nodes))%nat /\
        Forall (fun p => In (Point.pattern_type p) (keys default_pattern_distribution))
               data_points) w.
Proof.
  unfold bulk_data.
  apply wp_bind. eapply wp_mono.
  { apply wp_remember. apply (wp_generate_nodes node_count "urban" None w). exact I. }
  intros nodes w1 [En [Hlen _]].
  pose proof (generate_nodes_issued _ _ _ _ _ _ En) as [_ [Hp _]].
  cbn [distribution_used] in Hp.
  assert (Hknown : patterns_known nodes).
  { apply (issued_nodes_known default_pattern_distribution); [| exact Hp].
    intros k Hk. cbn in Hk. cbn.
    destruct Hk as [<- | [<- | [<- | [<- | []]]]]; auto. }
  apply wp_bind. apply wp_datetime_now. intros now w2 _ _. cbv zeta.
  apply wp_bind. eapply wp_mono; [apply (wp_generate_time_series _ _ _ _ _ Hknown) |].
  intros pts w3 [series [-> Hs]].
  apply wp_bind. apply wp_datetime_now. intros generated_at w4 _ _.
  apply wp_ret. cbn [fst snd].
  split; [exact Hlen | split; [exact (length_series _ _ _ _ Hs) |]].
  apply (node_series_Forall _ (add_hours (fst now) (- duration_hours)) duration_hours
           nodes series); [| exact Hs].
  intros node h p Hin _ Hhp. destruct Hhp as [_ [_ [Hpt _]]]. rewrite Hpt.
  rewrite Forall_forall in Hp. exact (Hp node Hin).
Qed.

(** X18.  [generate_bulk_data] never raises on integers for [nodes] and
    [hours].  It reports [node_count] nodes (none for a negative count) and
    as [totalPoints] the number of entries of [data], which is [hours] times
    the number of active nodes, so at most [hours] times the nodes reported;
    the pattern types of the entries are among the four of the default
    distribution, whatever [pattern] the request names; the cache of the
    server is not touched. *)
Theorem bulk_answer (pattern_type : string) (node_count duration_hours : Z)
    (s : Service) :
  exists resp s',
    generate_bulk_data pattern_type node_count duration_hours s = (Ok resp, s') /\
    cached_data s' = cached_data s /\
    Bulk.totalPoints (Bulk.metadata resp) = List.length (Bulk.data resp) /\
    Bulk.nodes (Bulk.metadata resp) = Z.to_nat node_count /\
    Bulk.durationHours (Bulk.metadata resp) = duration_hours /\
    (Bulk.totalPoints (Bulk.metadata resp)
     <= Z.to_nat duration_hours * Bulk.nodes (Bulk.metadata resp))%nat /\
    Forall (fun e => In (Bulk.patternType e)
                        ["residential"; "commercial"; "industrial"; "datacenter"]%string)
           (Bulk.data resp).
Proof.
  unfold generate_bulk_data.
  destruct (wp_run _ _ _ (wp_bulk_data node_count duration_hours (process s)))
    as [[[nodes data_points] generated_at] [w' [E [Hn [Hd Hp]]]]].
  rewrite E. cbn [fst snd] in *. eexists. eexists.
  split; [reflexivity |].
  cbn [cached_data Bulk.metadata Bulk.data Bulk.totalPoints Bulk.nodes Bulk.durationHours].
  split; [reflexivity | split; [reflexivity | split; [exact Hn | split; [reflexivity |]]]].
  split.
  - rewrite length_map, Hd. apply Nat.mul_le_mono_l. apply length_filter_le.
  - rewrite Forall_map. cbn [Bulk.patternType]. exact Hp.
Qed.

End ServerStability.

(* ================================================================== *)
(** ** The exporter *)

Section ExporterFacts.
Context {pyr : PyRandom} {npr : NumpyRandom} {fkr : Faker}.
Context {libm : Libm} {zone : LocalZone} {pandas : Pandas}.


End ExporterFacts.
Section SeriesExtension.
Context {pyr : PyRandom} {npr : NumpyRandom} {fkr : Faker}.
Context {libm : Libm} {zone : LocalZone} {pandas : Pandas}.
Local Open Scope run_scope.

Lemma bind_ext {A B : Type} (m : M A) (k k' : A -> M B) w :
  (forall a w', k a w' = k' a w') -> bind m k w = bind m k' w.
Proof.
  intros H. unfold bind. destruct (m w) as [[a | e] w']; [apply H | reflexivity].
Qed.

Lemma bind_ext_l {A B : Type} (m m' : M A) (k : A -> M B) w :
  m w = m' w -> bind m k w = bind m' k w.
Proof. intros H. unfold bind. rewrite H. reflexivity. Qed.

Lemma for_each_ext {A B : Type} (xs : list A) (body body' : A -> M (list B)) w :
  (forall x w0, In x xs -> body x w0 = body' x w0) ->
  for_each xs body w = for_each xs body' w.
Proof.
  revert w. induction xs as [| x r IH]; intros w H; [reflexivity |].
  cbn [for_each]. unfold bind. rewrite (H x w (or_introl eq_refl)).
  destruct (body' x w) as [[ys | e] w1]; [| reflexivity].
  rewrite (IH w1 (fun x' w0 Hin => H x' w0 (or_intror Hin))). reflexivity.
Qed.

Lemma for_each_map {A B C : Type} (f : A -> B) (xs : list A) (body : B -> M (list C)) w :
  for_each (map f xs) body w = for_each xs (fun x => body (f x)) w.
Proof.
  revert w. induction xs as [| x r IH]; intros w; [reflexivity |].
  cbn [map for_each]. unfold bind.
  destruct (body (f x) w) as [[ys | e] w1]; [| reflexivity].
  rewrite IH. reflexivity.
Qed.

Lemma range_add (d1 d2 : Z) :
  0 <= d1 -> 0 <= d2 ->
  range (d1 + d2) = range d1 ++ map (fun h => d1 + h) (range d2).
Proof.
  intros H1 H2. unfold range.
  rewrite Z2Nat.inj_add, seq_app, map_app by assumption. f_equal.
  rewrite map_map. cbn [Nat.add].
  rewrite <- (Nat.add_0_r (Z.to_nat d1)) at 1.
  rewrite (map_seq_from Z.of_nat (Z.to_nat d1) 0).
  apply map_ext. intros k. lia.
Qed.

Lemma generate_node_hour_shift node pattern start ap (d1 h : Z) w :
  generate_node_hour node pattern start ap (d1 + h) w
  = generate_node_hour node pattern (add_hours start d1) ap h w.
Proof.
  unfold generate_node_hour.
  replace (add_hours start (d1 + h)) with (add_hours (add_hours start d1) h)
    by (unfold add_hours; lia).
  reflexivity.
Qed.

(** The series of one node over [d1 + d2] hours is its series over the first
    [d1] hours followed by its series over [d2] hours from [d1] hours after
    the start. *)
Lemma node_time_series_add node pattern start ap (d1 d2 : Z) w :
  0 <= d1 -> 0 <= d2 ->
  _generate_node_time_series node pattern start (d1 + d2) ap w
  = (a <- _generate_node_time_series node pattern start d1 ap ;;
     b <- _generate_node_time_series node pattern (add_hours start d1) d2 ap ;;
     ret (a ++ b)) w.
Proof.
  intros H1 H2. unfold _generate_node_time_series.
  rewrite (range_add d1 d2 H1 H2), for_each_app.
  apply bind_ext. intros a w1. apply bind_ext_l.
  rewrite for_each_map. apply for_each_ext.
  intros h w0 _. unfold bind. rewrite generate_node_hour_shift. reflexivity.
Qed.

(** X9.  A series can be continued.  For one node, the call over
    [d1 + d2] hours is the call over the first [d1] hours followed by the
    call over [d2] hours that starts [d1] hours later: the same points in
    the same order, the same exception, the same final state. *)
Theorem series_continued node start ap (d1 d2 : Z) w :
  0 <= d1 -> 0 <= d2 ->
  generate_time_series [node] start (d1 + d2) ap w
  = (a <- generate_time_series [node] start d1 ap ;;
     b <- generate_time_series [node] (add_hours start d1) d2 ap ;;
     ret (a ++ b)) w.
Proof.
  intros H1 H2. unfold generate_time_series. cbn [for_each].
  destruct (Node.active node); cbn [negb].
  - destruct (dict_get patterns (Node.pattern_type node)) as [pattern |];
      [| reflexivity].
    unfold bind at 1. rewrite (node_time_series_add _ _ _ _ _ _ _ H1 H2).
    unfold bind, ret.
    destruct (_generate_node_time_series node pattern start d1 ap w)
      as [[a | e] w1]; [| reflexivity].
    destruct (_generate_node_time_series node pattern (add_hours start d1) d2 ap w1)
      as [[b | e] w2]; [| reflexivity].
    rewrite !app_nil_r. reflexivity.
  - reflexivity.
Qed.

End SeriesExtension.
(* ================================================================== *)
(** ** The [generate] command *)

Section CommandFacts.
Context {pyr : PyRandom} {npr : NumpyRandom} {fkr : Faker}.
Context {libm : Libm} {zone : LocalZone} {pandas : Pandas} {disk : Disk}.
Local Open Scope run_scope.

Lemma fold_left_Qplus_floor (xs : list Q) (acc : Q) :
  Forall (fun x => (0.1 <= x)%Q) xs ->
  (acc + 0.1 * inject_Z (Z.of_nat (List.length xs)) <= fold_left Qplus xs acc)%Q.
Proof.
  intros H. revert acc. induction H as [| x r Hx _ IH]; intros acc.
  - cbn [fold_left List.length]. change (inject_Z (Z.of_nat 0)) with 0%Q. lra.
  - cbn [fold_left List.length]. eapply Qle_trans; [| apply IH].
    rewrite Nat2Z.inj_succ, <- Z.add_1_r, inject_Z_plus.
    change (inject_Z 1) with 1%Q. lra.
Qed.

(** The generation of the command, for a catalogued pattern and a disk that
    takes the file: points of at least 0.1 each, as many as the hours of the
    days times the active nodes. *)
Lemma wp_generate_and_export nodes pattern days location output format anomalies w :
  In pattern (keys patterns) ->
  (forall pts, write_points output pts = Ok tt) ->
  (forall rs, write_records output rs = Ok tt) ->
  wp (generate_and_export nodes pattern days location output format anomalies)
     (fun pts _ =>
        (List.length pts <= Z.to_nat (days * 24) * Z.to_nat nodes)%nat /\
        Forall (fun p => (0.1 <= Point.kwh p)%Q) pts) w.
Proof.
  intros Hpat Hw1 Hw2. unfold generate_and_export.
  apply wp_bind. eapply wp_mono.
  { apply wp_remember.
    apply (wp_generate_nodes nodes location (Some [(pattern, 1.0%Q)]) w).
    apply mock_distribution_valid. }
  intros ns w1 [En [Hlen _]].
  pose proof (generate_nodes_issued _ _ _ _ _ _ En) as [_ [Hp _]].
  cbn [distribution_used] in Hp.
  assert (Hknown : patterns_known ns).
  { apply (issued_nodes_known [(pattern, 1.0%Q)]); [| exact Hp].
    intros k [<- | []]. exact Hpat. }
  apply wp_bind. apply wp_datetime_now. intros now w2 _ _. cbv zeta.
  apply wp_bind. eapply wp_mono; [apply (wp_generate_time_series _ _ _ _ _ Hknown) |].
  intros pts w3 [series [-> Hs]].
  apply wp_bind.
  assert (Hexp : forall post : unit -> World -> Prop, post tt w3 ->
            wp (if String.eqb format "utility-api"
                then export_utility_api_format (List.concat series) output
                else export_to_csv (List.concat series) output) post w3).
  { intros post Hpost. destruct (String.eqb format "utility-api");
      unfold wp, export_utility_api_format, export_to_csv;
      [rewrite Hw2 | rewrite Hw1]; exact Hpost. }
  apply Hexp. apply wp_ret. split.
  - rewrite (length_series _ _ _ _ Hs). apply Nat.mul_le_mono_l.
    rewrite <- Hlen. apply length_filter_le.
  - apply (node_series_Forall _ (add_hours (fst now) (- (24 * days))) (days * 24)
             ns series); [| exact Hs].
    intros node h p _ _ Hhp. destruct Hhp as [_ [_ [_ [_ [_ [_ [_ Hk]]]]]]]. exact Hk.
Qed.


End CommandFacts.
(* ================================================================== *)
(** ** More runs on the scripted surroundings *)

Import Replay ReplayService.
#[local] Existing Instances replay_py replay_np replay_fk replay_libm replay_pandas.
#[local] Existing Instance open_disk.
#[local] Open Scope string_scope.
#[local] Open Scope Q_scope.

(** Two rural nodes from a generator whose node counter stands at 0. *)
Lemma node_identifiers_witness :
  exists nodes w',
    generate_nodes 2 "rural" (Some [("commercial", 0.5); ("industrial", 0.5)])
      (world 1700000000 [0; 0.5; 1000; 1; 0.01; 7] [0.2; 0.9; 0.1; 0.5; 0.7; 0; 0; 0])
      = (Ok nodes, w') /\
    map Node.node_id nodes = ["node_000000"; "node_000001"] /\
    node_counter (self w') = 2%Z /\
    NoDup (map Node.node_id nodes).
Proof.
  eexists. eexists. split; [vm_compute; reflexivity |].
  split; [vm_compute; reflexivity |].
  split; [vm_compute; reflexivity |].
  refine (proj1 (proj2 (node_identifiers 2%Z "rural"
                          (Some [("commercial", 0.5); ("industrial", 0.5)])
                          (world 1700000000 [0; 0.5; 1000; 1; 0.01; 7]
                                 [0.2; 0.9; 0.1; 0.5; 0.7; 0; 0; 0]) _ _ _))).
  vm_compute. reflexivity.
Defined.

(** Two data sets from one generator: one urban node with three hours, then
    two rural nodes with two hours. *)
Lemma identifiers_across_calls_witness :
  exists nodes1 w1 pts1 w2 nodes2 w3 pts2 w4,
    generate_nodes 1 "urban" None (world 1700000000 [0; 0.5] [0.3]) = (Ok nodes1, w1) /\
    generate_time_series (zone := utc) nodes1 spring_forward_midnight 3 0.02 w1
      = (Ok pts1, w2) /\
    generate_nodes 2 "rural" None w2 = (Ok nodes2, w3) /\
    generate_time_series (zone := utc) nodes2 spring_forward_midnight 2 0.02 w3
      = (Ok pts2, w4) /\
    NoDup (map Node.node_id (nodes1 ++ nodes2)) /\
    NoDup (map Point.data_id (pts1 ++ pts2)).
Proof.
  assert (E : exists nodes1 w1 pts1 w2 nodes2 w3 pts2 w4,
             generate_nodes 1 "urban" None (world 1700000000 [0; 0.5] [0.3])
               = (Ok nodes1, w1) /\
             generate_time_series (zone := utc) nodes1 spring_forward_midnight 3 0.02 w1
               = (Ok pts1, w2) /\
             generate_nodes 2 "rural" None w2 = (Ok nodes2, w3) /\
             generate_time_series (zone := utc) nodes2 spring_forward_midnight 2 0.02 w3
               = (Ok pts2, w4)).
  { do 8 eexists.
    split; [vm_compute; reflexivity |].
    split; [vm_compute; reflexivity |].
    split; [vm_compute; reflexivity |].
    vm_compute. reflexivity. }
  destruct E as [nodes1 [w1 [pts1 [w2 [nodes2 [w3 [pts2 [w4 [E1 [E2 [E3 E4]]]]]]]]]]].
  exists nodes1, w1, pts1, w2, nodes2, w3, pts2, w4.
  split; [exact E1 | split; [exact E2 | split; [exact E3 | split; [exact E4 |]]]].
  exact (identifiers_across_calls (libm := replay_libm) (zone := utc)
           _ _ _ _ _ _ _ _ _ _ _ _ _ _ _ _ _ _ _ _ _ E1 E2 E3 E4).
Defined.

(** The two rural nodes again, under a clock that reads 1700000000.5: the
    ages drawn are 1000 and 7 seconds. *)
Lemma registration_window_witness :
  exists nodes w',
    generate_nodes 2 "rural" (Some [("commercial", 0.5); ("industrial", 0.5)])
      (world (3400000001 # 2) [0; 0.5; 1000; 1; 0.01; 7]
             [0.2; 0.9; 0.1; 0.5; 0.7; 0; 0; 0])
      = (Ok nodes, w') /\
    map Node.registered_at nodes = [1699999000; 1699999993]%Z /\
    ticks w' = 2%nat /\
    forall i node, nth_error nodes i = Some node ->
      (1700000000 - 2592000 <= Node.registered_at node
       /\ Node.registered_at node <= 1700000000)%Z.
Proof.
  eexists. eexists. split; [vm_compute; reflexivity |].
  split; [vm_compute; reflexivity |].
  split; [vm_compute; reflexivity |].
  refine (proj2 (proj2 (registration_window 2%Z "rural"
                          (Some [("commercial", 0.5); ("industrial", 0.5)])
                          (world (3400000001 # 2) [0; 0.5; 1000; 1; 0.01; 7]
                                 [0.2; 0.9; 0.1; 0.5; 0.7; 0; 0; 0]) _ _ _))).
  vm_compute. reflexivity.
Defined.


(** Weights that sum to 0.8: one node is refused, no node is not. *)
Lemma refused_distribution_witness :
  generate_nodes 1 "urban" (Some short_distribution) (world 1700000000 [] [])
    = (Raise ValueError, world 1700000000 [] []) /\
  generate_nodes 0 "urban" (Some short_distribution) (world 1700000000 [] [])
    = (Ok [], world 1700000000 [] []).
Proof.
  assert (H : ~ valid_distribution short_distribution).
  { intros [_ H]. vm_compute in H. discriminate H. }
  split.
  - exact (refused_distribution short_distribution 1%Z "urban"
             (world 1700000000 [] []) H).
  - exact (refused_distribution short_distribution 0%Z "urban"
             (world 1700000000 [] []) H).
Defined.

(** Three hours of the home node from a generator whose data counter stands
    at 0. *)
Lemma data_identifiers_witness :
  exists pts w',
    generate_time_series (zone := utc) [home_node; idle_node] spring_forward_midnight
      3 0.5 (world 1700000000 [0.9; 0.2; 1; 0.4; 0] [-8; 0.3; 0; 0.5; 0.1; 0.2; -0.4])
      = (Ok pts, w') /\
    map Point.data_id pts = ["data_00000000"; "data_00000001"; "data_00000002"] /\
    data_counter (self w') = 3%Z /\
    NoDup (map Point.data_id pts).
Proof.
  eexists. eexists. split; [vm_compute; reflexivity |].
  split; [vm_compute; reflexivity |].
  split; [vm_compute; reflexivity |].
  refine (proj1 (proj2 (data_identifiers (libm := replay_libm) (zone := utc)
                          [home_node; idle_node] spring_forward_midnight 3%Z 0.5
                          (world 1700000000 [0.9; 0.2; 1; 0.4; 0]
                                 [-8; 0.3; 0; 0.5; 0.1; 0.2; -0.4]) _ _ _))).
  vm_compute. reflexivity.
Defined.

(** With an anomaly probability of 1 every point is flagged, whatever is
    drawn. *)
Lemma anomaly_extremes_witness :
  exists pts w',
    generate_time_series (zone := utc) [home_node] spring_forward_midnight 3 1
      (world 1700000000 [0.9; 0.2; 1; 0.4; 0] [0.3; 0; 0.5; 0.1; 0.2; -0.4])
      = (Ok pts, w') /\
    List.length pts = 3%nat /\
    Forall (fun p => Point.anomaly p = true) pts.
Proof.
  eexists. eexists. split; [vm_compute; reflexivity |].
  split; [vm_compute; reflexivity |].
  refine (proj2 (anomaly_extremes (libm := replay_libm) (zone := utc) [home_node]
                   spring_forward_midnight 3%Z 1
                   (world 1700000000 [0.9; 0.2; 1; 0.4; 0]
                          [0.3; 0; 0.5; 0.1; 0.2; -0.4]) _ _ _) _).
  - vm_compute. reflexivity.
  - discriminate.
Defined.

(** The three rows of [meters.csv] that are emitted. *)
Lemma merged_places_witness :
  exists pts w',
    merge_with_kaggle_data (zone := utc) "meters.csv" 1000 (world 1700000000 [] [])
      = (Ok pts, w') /\
    map Point.node_id pts = ["kaggle_m1"; "kaggle_m2"; "kaggle_uuid-0"] /\
    Forall (fun p =>
              (exists area lat lon,
                  In area urban_areas /\
                  (fst (bounds_lat area) <= lat) /\ (lat <= snd (bounds_lat area)) /\
                  (fst (bounds_lon area) <= lon) /\ (lon <= snd (bounds_lon area)) /\
                  Point.location p = location_string lat lon) /\
              (exists meter_id, Point.node_id p = "kaggle_" ++ meter_id) /\
              Point.anomaly p = false) pts.
Proof.
  eexists. eexists. split; [vm_compute; reflexivity |].
  split; [vm_compute; reflexivity |].
  refine (merged_places (zone := utc) (pandas := replay_pandas) "meters.csv" 1000%Z
            (world 1700000000 [] []) _ _ _).
  vm_compute. reflexivity.
Defined.

(** One active node over three hours is its first two hours followed by its
    third. *)
Lemma series_continued_witness :
  generate_time_series (zone := utc) [home_node] spring_forward_midnight (2 + 1) 0.5
    (world 1700000000 [0.9; 0.2; 1] [0.3; 0; 0.5])
  = (a <- generate_time_series (zone := utc) [home_node] spring_forward_midnight 2 0.5 ;;
     b <- generate_time_series (zone := utc) [home_node]
            (add_hours spring_forward_midnight 2) 1 0.5 ;;
     ret (a ++ b)%list)%run (world 1700000000 [0.9; 0.2; 1] [0.3; 0; 0.5]).
Proof.
  apply (series_continued (libm := replay_libm) (zone := utc) home_node
           spring_forward_midnight 0.5 2%Z 1%Z
           (world 1700000000 [0.9; 0.2; 1] [0.3; 0; 0.5])); lia.
Defined.


(** In US Eastern time, across the hour the clocks skip, the exported
    intervals do not follow the hours asked for: the hour from 02:00 is
    exported as a second interval from 03:00. *)
Lemma exported_hours_across_the_gap :
  exists pts,
    fst (generate_time_series (zone := eastern) [home_node] spring_forward_midnight 4 0
           (world 1700000000 [] [])) = Ok pts /\
    map Utility.start (utility_data (zone := eastern) pts)
      = ["2024-03-10T00:00:00"; "2024-03-10T01:00:00";
         "2024-03-10T03:00:00"; "2024-03-10T03:00:00"].
Proof.
  eexists. split; [vm_compute; reflexivity | vm_compute; reflexivity].
Qed.

(** A table of weather and load: the humidity is taken for the meter, the
    daytime load for the timestamp. *)
Lemma detection_example :
  detect_columns ["Humidity"; "Daytime_Load"; "kWh"]
  = [("energy", "kWh"); ("timestamp", "Daytime_Load"); ("meter_id", "Humidity")].
Proof. vm_compute. reflexivity. Qed.

(** A first request for node 7 at 2023-11-14T22:13:20 on UTC, the node
    generated for it being active: the reading reported is the one of
    2023-11-07T22:13:20. *)
Lemma latest_is_oldest_witness :
  exists resp s',
    get_latest_data (zone := utc) 7 (fresh_service 1700000000 [0; 0; 0.5; 1000] [])
      = (Ok resp, s') /\
    Latest.timestamp resp = "2023-11-07T22:13:20" /\
    exists latest rest,
      dict_get (cached_data s') "node_000007" = Some (latest :: rest) /\
      List.length (latest :: rest) = 168%nat /\
      Latest.timestamp resp = Interval.start latest.
Proof.
  assert (E : exists resp s',
             get_latest_data (zone := utc) 7
               (fresh_service 1700000000 [0; 0; 0.5; 1000] []) = (Ok resp, s'))
    by (eexists; eexists; vm_compute; reflexivity).
  destruct E as [resp [s' E]]. exists resp, s'. split; [exact E |].
  destruct (latest_is_oldest (libm := replay_libm) (zone := utc) 7%Z
              (fresh_service 1700000000 [0; 0; 0.5; 1000] []) resp s' eq_refl E)
    as [latest [rest [Ec [Hl [Ht [_ [Hs _]]]]]]].
  split.
  - rewrite Ht, Hs. vm_compute. reflexivity.
  - exists latest, rest. split; [exact Ec | split; [exact Hl | exact Ht]].
Defined.

(** A first request for node 7 when the node generated for it is inactive:
    [IndexError], and again at the next request. *)
Lemma latest_answer_is_settled_witness :
  exists s',
    get_latest_data (zone := utc) 7 (fresh_service 1700000000 [] [])
      = (Raise IndexError, s') /\
    get_latest_data (zone := utc) 7 s' = (Raise IndexError, s').
Proof.
  eexists. split; [vm_compute; reflexivity |].
  refine (proj1 (latest_answer_is_settled (libm := replay_libm) (zone := utc) 7%Z
                   (fresh_service 1700000000 [] []) _ _ _)).
  vm_compute. reflexivity.
Defined.


